(** * The time-use-survey seed pipeline of urban-occupants

    A shallow embedding of [urbanoccupants/tus.py] (the code mapping
    tables, the dwelling type decision table and the feature filters) and
    of [scripts/tus/seed.py] (the row transformer and the household
    validator), with the properties that the specification states about
    them. *)

From stdpp Require Import gmap strings list fin_maps.

(** ** Python values

    A cell of a survey table, a dict key or a dict value is a value of
    some type [V], the float [np.nan], or [None].  pandas treats the last
    two as missing. *)

Inductive pyval (V : Type) : Type :=
| Val (v : V)
| NaN
| PyNone.

Arguments Val {V} v.
Arguments NaN {V}.
Arguments PyNone {V}.

Definition isnull {V : Type} (c : pyval V) : bool :=
  match c with
  | Val _ => false
  | NaN | PyNone => true
  end.

Definition notnull {V : Type} (c : pyval V) : bool := negb (isnull c).

#[global] Instance pyval_eq_dec {V : Type} `{EqDecision V} : EqDecision (pyval V).
Proof. solve_decision. Defined.

Definition pyval_to_sum {V : Type} (c : pyval V) : V + bool :=
  match c with
  | Val v => inl v
  | NaN => inr false
  | PyNone => inr true
  end.

Definition pyval_of_sum {V : Type} (s : V + bool) : pyval V :=
  match s with
  | inl v => Val v
  | inr false => NaN
  | inr true => PyNone
  end.

Lemma pyval_of_to_sum {V : Type} (c : pyval V) : pyval_of_sum (pyval_to_sum c) = c.
Proof. by destruct c. Qed.

#[global] Instance pyval_countable {V : Type} `{Countable V} : Countable (pyval V) :=
  inj_countable' pyval_to_sum pyval_of_sum pyval_of_to_sum.

(** Equality of the members of an enumeration, decided on their position
    in the list of members. *)
Definition enum_eq_dec {A : Type} (ordinal : A → nat) (members : list A)
    (Hmem : ∀ x, members !! ordinal x = Some x) : EqDecision A.
Proof.
  intros x y. destruct (decide (ordinal x = ordinal y)) as [Heq | Hne].
  - left. apply (inj Some). by rewrite <- (Hmem x), <- (Hmem y), Heq.
  - right. intros ->. by apply Hne.
Defined.

(** ** Dict literals

    A dict literal inserts its items from left to right, so that of two
    items with the same key the later one stays. *)
Section dict.
Context {K : Type} `{Countable K} {V : Type}.

Definition dict (items : list (K * V)) : gmap K V :=
  foldl (λ d kv, <[kv.1 := kv.2]> d) ∅ items.

End dict.

(** ** Category enumerations

    [Location] and [Activity] are declared in [tus.py]; the other
    enumerations come from [urbanoccupants.types], and carry the members
    that [tus.py] refers to. *)

Module Location.

Inductive t : Set :=
| HOME | OTHER_HOME | WORK_OR_SCHOOL | RESTO | SPORTS_FACILITY | ARTS_OR_CULTURAL_CENTRE
| OUTSIDE | TRAVELLING | IMPLICIT
.

Definition members : list t :=
  [HOME; OTHER_HOME; WORK_OR_SCHOOL; RESTO; SPORTS_FACILITY; ARTS_OR_CULTURAL_CENTRE; OUTSIDE;
  TRAVELLING; IMPLICIT].

Definition ordinal (x : t) : nat :=
  match x with
  | HOME => 0 | OTHER_HOME => 1 | WORK_OR_SCHOOL => 2 | RESTO => 3 | SPORTS_FACILITY => 4
  | ARTS_OR_CULTURAL_CENTRE => 5 | OUTSIDE => 6 | TRAVELLING => 7 | IMPLICIT => 8
  end.

Lemma Location_members_ordinal (x : t) : members !! ordinal x = Some x.
Proof. by destruct x. Qed.

#[global] Instance eq_dec : EqDecision t :=
  enum_eq_dec ordinal members Location_members_ordinal.

#[global] Instance countable : Countable t :=
  inj_countable ordinal (λ n, members !! n) Location_members_ordinal.

End Location.

Module Activity.

Inductive t : Set :=
| SLEEP | WORK_OR_STUDY | OTHER
.

Definition members : list t :=
  [SLEEP; WORK_OR_STUDY; OTHER].

Definition ordinal (x : t) : nat :=
  match x with
  | SLEEP => 0 | WORK_OR_STUDY => 1 | OTHER => 2
  end.

Lemma Activity_members_ordinal (x : t) : members !! ordinal x = Some x.
Proof. by destruct x. Qed.

#[global] Instance eq_dec : EqDecision t :=
  enum_eq_dec ordinal members Activity_members_ordinal.

#[global] Instance countable : Countable t :=
  inj_countable ordinal (λ n, members !! n) Activity_members_ordinal.

End Activity.

Module EconomicActivity.

Inductive t : Set :=
| EMPLOYEE_FULL_TIME | LONG_TERM_SICK | INACTIVE_OTHER | BELOW_16 | EMPLOYEE_PART_TIME
| SELF_EMPLOYED | UNEMPLOYED | RETIRED | INACTIVE_FULL_TIME_STUDENT | LOOKING_AFTER_HOME
.

Definition members : list t :=
  [EMPLOYEE_FULL_TIME; LONG_TERM_SICK; INACTIVE_OTHER; BELOW_16; EMPLOYEE_PART_TIME;
  SELF_EMPLOYED; UNEMPLOYED; RETIRED; INACTIVE_FULL_TIME_STUDENT; LOOKING_AFTER_HOME].

Definition ordinal (x : t) : nat :=
  match x with
  | EMPLOYEE_FULL_TIME => 0 | LONG_TERM_SICK => 1 | INACTIVE_OTHER => 2 | BELOW_16 => 3
  | EMPLOYEE_PART_TIME => 4 | SELF_EMPLOYED => 5 | UNEMPLOYED => 6 | RETIRED => 7
  | INACTIVE_FULL_TIME_STUDENT => 8 | LOOKING_AFTER_HOME => 9
  end.

Lemma EconomicActivity_members_ordinal (x : t) : members !! ordinal x = Some x.
Proof. by destruct x. Qed.

#[global] Instance eq_dec : EqDecision t :=
  enum_eq_dec ordinal members EconomicActivity_members_ordinal.

#[global] Instance countable : Countable t :=
  inj_countable ordinal (λ n, members !! n) EconomicActivity_members_ordinal.

End EconomicActivity.

Module Qualification.

Inductive t : Set :=
| LEVEL_45 | NO_QUALIFICATIONS | BELOW_16 | LEVEL_3 | LEVEL_2 | LEVEL_1 | APPRENTICESHIP
| OTHER_QUALIFICATION
.

Definition members : list t :=
  [LEVEL_45; NO_QUALIFICATIONS; BELOW_16; LEVEL_3; LEVEL_2; LEVEL_1; APPRENTICESHIP;
  OTHER_QUALIFICATION].

Definition ordinal (x : t) : nat :=
  match x with
  | LEVEL_45 => 0 | NO_QUALIFICATIONS => 1 | BELOW_16 => 2 | LEVEL_3 => 3 | LEVEL_2 => 4
  | LEVEL_1 => 5 | APPRENTICESHIP => 6 | OTHER_QUALIFICATION => 7
  end.

Lemma Qualification_members_ordinal (x : t) : members !! ordinal x = Some x.
Proof. by destruct x. Qed.

#[global] Instance eq_dec : EqDecision t :=
  enum_eq_dec ordinal members Qualification_members_ordinal.

#[global] Instance countable : Countable t :=
  inj_countable ordinal (λ n, members !! n) Qualification_members_ordinal.

End Qualification.

Module HouseholdType.

Inductive t : Set :=
| ONE_PERSON_HOUSEHOLD | LONE_PARENT_WITH_DEPENDENT_CHILDREN | MULTI_PERSON_HOUSEHOLD
| COUPLE_WITHOUT_DEPENDENT_CHILDREN | COUPLE_WITH_DEPENDENT_CHILDREN
.

Definition members : list t :=
  [ONE_PERSON_HOUSEHOLD; LONE_PARENT_WITH_DEPENDENT_CHILDREN; MULTI_PERSON_HOUSEHOLD;
  COUPLE_WITHOUT_DEPENDENT_CHILDREN; COUPLE_WITH_DEPENDENT_CHILDREN].

Definition ordinal (x : t) : nat :=
  match x with
  | ONE_PERSON_HOUSEHOLD => 0 | LONE_PARENT_WITH_DEPENDENT_CHILDREN => 1
  | MULTI_PERSON_HOUSEHOLD => 2 | COUPLE_WITHOUT_DEPENDENT_CHILDREN => 3
  | COUPLE_WITH_DEPENDENT_CHILDREN => 4
  end.

Lemma HouseholdType_members_ordinal (x : t) : members !! ordinal x = Some x.
Proof. by destruct x. Qed.

#[global] Instance eq_dec : EqDecision t :=
  enum_eq_dec ordinal members HouseholdType_members_ordinal.

#[global] Instance countable : Countable t :=
  inj_countable ordinal (λ n, members !! n) HouseholdType_members_ordinal.

End HouseholdType.

Module AgeStructure.

Inductive t : Set :=
| AGE_8_TO_9 | AGE_10_TO_14 | AGE_15 | AGE_16_TO_17 | AGE_18_TO_19 | AGE_20_TO_24
| AGE_25_TO_29 | AGE_30_TO_44 | AGE_45_TO_59 | AGE_60_TO_64 | AGE_65_TO_74 | AGE_75_TO_84
| AGE_85_TO_89 | AGE_90_AND_OVER
.

Definition members : list t :=
  [AGE_8_TO_9; AGE_10_TO_14; AGE_15; AGE_16_TO_17; AGE_18_TO_19; AGE_20_TO_24; AGE_25_TO_29;
  AGE_30_TO_44; AGE_45_TO_59; AGE_60_TO_64; AGE_65_TO_74; AGE_75_TO_84; AGE_85_TO_89;
  AGE_90_AND_OVER].

Definition ordinal (x : t) : nat :=
  match x with
  | AGE_8_TO_9 => 0 | AGE_10_TO_14 => 1 | AGE_15 => 2 | AGE_16_TO_17 => 3 | AGE_18_TO_19 => 4
  | AGE_20_TO_24 => 5 | AGE_25_TO_29 => 6 | AGE_30_TO_44 => 7 | AGE_45_TO_59 => 8
  | AGE_60_TO_64 => 9 | AGE_65_TO_74 => 10 | AGE_75_TO_84 => 11 | AGE_85_TO_89 => 12
  | AGE_90_AND_OVER => 13
  end.

Lemma AgeStructure_members_ordinal (x : t) : members !! ordinal x = Some x.
Proof. by destruct x. Qed.

#[global] Instance eq_dec : EqDecision t :=
  enum_eq_dec ordinal members AgeStructure_members_ordinal.

#[global] Instance countable : Countable t :=
  inj_countable ordinal (λ n, members !! n) AgeStructure_members_ordinal.

End AgeStructure.

Module Pseudo.

Inductive t : Set :=
| SINGLETON
.

Definition members : list t :=
  [SINGLETON].

Definition ordinal (x : t) : nat :=
  match x with
  | SINGLETON => 0
  end.

Lemma Pseudo_members_ordinal (x : t) : members !! ordinal x = Some x.
Proof. by destruct x. Qed.

#[global] Instance eq_dec : EqDecision t :=
  enum_eq_dec ordinal members Pseudo_members_ordinal.

#[global] Instance countable : Countable t :=
  inj_countable ordinal (λ n, members !! n) Pseudo_members_ordinal.

End Pseudo.

Module Carer.

Inductive t : Set :=
| CARER | NO_CARER
.

Definition members : list t :=
  [CARER; NO_CARER].

Definition ordinal (x : t) : nat :=
  match x with
  | CARER => 0 | NO_CARER => 1
  end.

Lemma Carer_members_ordinal (x : t) : members !! ordinal x = Some x.
Proof. by destruct x. Qed.

#[global] Instance eq_dec : EqDecision t :=
  enum_eq_dec ordinal members Carer_members_ordinal.

#[global] Instance countable : Countable t :=
  inj_countable ordinal (λ n, members !! n) Carer_members_ordinal.

End Carer.

Module PersonalIncome.

Inductive t : Set :=
| BELOW_16 | LESS_THAN_GBP_215 | BETWEEN_GBP_4590_AND_6670 | ABOVE_GBP_6670
| BETWEEN_GBP_215_AND_435 | BETWEEN_GBP_435_AND_870 | BETWEEN_GBP_870_AND_1305
| BETWEEN_GBP_1305_AND_1740 | BETWEEN_GBP_1740_AND_2820 | BETWEEN_GBP_2820_AND_3420
| BETWEEN_GBP_3420_AND_3830 | BETWEEN_GBP_3830_AND_4580
.

Definition members : list t :=
  [BELOW_16; LESS_THAN_GBP_215; BETWEEN_GBP_4590_AND_6670; ABOVE_GBP_6670;
  BETWEEN_GBP_215_AND_435; BETWEEN_GBP_435_AND_870; BETWEEN_GBP_870_AND_1305;
  BETWEEN_GBP_1305_AND_1740; BETWEEN_GBP_1740_AND_2820; BETWEEN_GBP_2820_AND_3420;
  BETWEEN_GBP_3420_AND_3830; BETWEEN_GBP_3830_AND_4580].

Definition ordinal (x : t) : nat :=
  match x with
  | BELOW_16 => 0 | LESS_THAN_GBP_215 => 1 | BETWEEN_GBP_4590_AND_6670 => 2
  | ABOVE_GBP_6670 => 3 | BETWEEN_GBP_215_AND_435 => 4 | BETWEEN_GBP_435_AND_870 => 5
  | BETWEEN_GBP_870_AND_1305 => 6 | BETWEEN_GBP_1305_AND_1740 => 7
  | BETWEEN_GBP_1740_AND_2820 => 8 | BETWEEN_GBP_2820_AND_3420 => 9
  | BETWEEN_GBP_3420_AND_3830 => 10 | BETWEEN_GBP_3830_AND_4580 => 11
  end.

Lemma PersonalIncome_members_ordinal (x : t) : members !! ordinal x = Some x.
Proof. by destruct x. Qed.

#[global] Instance eq_dec : EqDecision t :=
  enum_eq_dec ordinal members PersonalIncome_members_ordinal.

#[global] Instance countable : Countable t :=
  inj_countable ordinal (λ n, members !! n) PersonalIncome_members_ordinal.

End PersonalIncome.

Module PopulationDensity.

Inductive t : Set :=
| UP_TO_249 | BETWEEN_250_AND_999 | BETWEEN_1000_AND_1999 | BETWEEN_2000_AND_2999
| BETWEEN_3000_AND_3999 | BETWEEN_4000_AND_4999 | MORE_THAN_5000
.

Definition members : list t :=
  [UP_TO_249; BETWEEN_250_AND_999; BETWEEN_1000_AND_1999; BETWEEN_2000_AND_2999;
  BETWEEN_3000_AND_3999; BETWEEN_4000_AND_4999; MORE_THAN_5000].

Definition ordinal (x : t) : nat :=
  match x with
  | UP_TO_249 => 0 | BETWEEN_250_AND_999 => 1 | BETWEEN_1000_AND_1999 => 2
  | BETWEEN_2000_AND_2999 => 3 | BETWEEN_3000_AND_3999 => 4 | BETWEEN_4000_AND_4999 => 5
  | MORE_THAN_5000 => 6
  end.

Lemma PopulationDensity_members_ordinal (x : t) : members !! ordinal x = Some x.
Proof. by destruct x. Qed.

#[global] Instance eq_dec : EqDecision t :=
  enum_eq_dec ordinal members PopulationDensity_members_ordinal.

#[global] Instance countable : Countable t :=
  inj_countable ordinal (λ n, members !! n) PopulationDensity_members_ordinal.

End PopulationDensity.

Module Region.

Inductive t : Set :=
| NORTH_EAST | WALES | SCOTLAND | NORTHERN_IRELAND | NORTH_WEST_INCL_MERSEYSIDE
| YORKSHIRE_AND_HUMBERSIDE | EAST_MIDLANDS | WEST_MIDLANDS | EASTERN | LONDON
| SOUTH_EAST_EXCL_LONDON | SOUTH_WEST
.

Definition members : list t :=
  [NORTH_EAST; WALES; SCOTLAND; NORTHERN_IRELAND; NORTH_WEST_INCL_MERSEYSIDE;
  YORKSHIRE_AND_HUMBERSIDE; EAST_MIDLANDS; WEST_MIDLANDS; EASTERN; LONDON;
  SOUTH_EAST_EXCL_LONDON; SOUTH_WEST].

Definition ordinal (x : t) : nat :=
  match x with
  | NORTH_EAST => 0 | WALES => 1 | SCOTLAND => 2 | NORTHERN_IRELAND => 3
  | NORTH_WEST_INCL_MERSEYSIDE => 4 | YORKSHIRE_AND_HUMBERSIDE => 5 | EAST_MIDLANDS => 6
  | WEST_MIDLANDS => 7 | EASTERN => 8 | LONDON => 9 | SOUTH_EAST_EXCL_LONDON => 10
  | SOUTH_WEST => 11
  end.

Lemma Region_members_ordinal (x : t) : members !! ordinal x = Some x.
Proof. by destruct x. Qed.

#[global] Instance eq_dec : EqDecision t :=
  enum_eq_dec ordinal members Region_members_ordinal.

#[global] Instance countable : Countable t :=
  inj_countable ordinal (λ n, members !! n) Region_members_ordinal.

End Region.

Module DwellingType.

Inductive t : Set :=
| DETACHED_WHOLE_HOUSE_OR_BUNGALOW | SEMI_DETACHED_WHOLE_HOUSE_OR_BUNGALOW
| TERRACED_WHOLE_HOUSE_OR_BUNGALOW | FLAT_PURPOSE_BUILT_BLOCK | FLAT_CONVERTED_OR_SHARED_HOUSE
| CARAVAN | OTHER
.

Definition members : list t :=
  [DETACHED_WHOLE_HOUSE_OR_BUNGALOW; SEMI_DETACHED_WHOLE_HOUSE_OR_BUNGALOW;
  TERRACED_WHOLE_HOUSE_OR_BUNGALOW; FLAT_PURPOSE_BUILT_BLOCK; FLAT_CONVERTED_OR_SHARED_HOUSE;
  CARAVAN; OTHER].

Definition ordinal (x : t) : nat :=
  match x with
  | DETACHED_WHOLE_HOUSE_OR_BUNGALOW => 0 | SEMI_DETACHED_WHOLE_HOUSE_OR_BUNGALOW => 1
  | TERRACED_WHOLE_HOUSE_OR_BUNGALOW => 2 | FLAT_PURPOSE_BUILT_BLOCK => 3
  | FLAT_CONVERTED_OR_SHARED_HOUSE => 4 | CARAVAN => 5 | OTHER => 6
  end.

Lemma DwellingType_members_ordinal (x : t) : members !! ordinal x = Some x.
Proof. by destruct x. Qed.

#[global] Instance eq_dec : EqDecision t :=
  enum_eq_dec ordinal members DwellingType_members_ordinal.

#[global] Instance countable : Countable t :=
  inj_countable ordinal (λ n, members !! n) DwellingType_members_ordinal.

End DwellingType.

(** ** Raw survey codes

    The enumerations of the survey reader ([pytus2000]), one per survey
    variable, with the members that the mapping tables name.  Members
    with different names are different codes. *)

Module diary.

Module WHER_001.

Inductive t : Set :=
| MAIN_ACTVTY_EQUAL_SLEEPWORKSTUDY___NO_CODE_REQUIRED | _MISSING | MISSING2
| _UNSPECIFIED_LOCATION | _UNSPECIFIED_LOCATION_NOT_TRAVELLING | _HOME
| _SECOND_HOME_OR_WEEKEND_HOUSE | _WORKING_PLACE_OR_SCHOOL | _OTHER_PEOPLE_S_HOME
| _RESTAURANT__CAFÉ_OR_PUB | _SPORTS_FACILITY | _WHER_001__ARTS_OR_CULTURAL_CENTRE
| _THE_COUNTRY_COUNTRYSIDE__SEASIDE__BEACH_OR_COAST | _OTHER_SPECIFIED_LOCATION_NOT_TRAVELLING
| _UNSPECIFIED_PRIVATE_TRANSPORT_MODE | _TRAVELLING_ON_FOOT | _TRAVELLING_BY_BICYCLE
| _TRAVELLING_BY_MOPED__MOTORCYCLE_OR_MOTORBOAT | _TRAVELLING_BY_PASSENGER_CAR_AS_THE_DRIVER
| _TRAVELLING_BY_PASSENGER_CAR_AS_A_PASSENGER
| _TRAVELLING_BY_PASSENGER_CAR_DRIVER_STATUS_UNSPECIFIED | _TRAVELLING_BY_LORRY__OR_TRACTOR
| _TRAVELLING_BY_VAN | _OTHER_SPECIFIED_PRIVATE_TRAVELLING_MODE
| _UNSPECIFIED_PUBLIC_TRANSPORT_MODE | _TRAVELLING_BY_TAXI | _TRAVELLING_BY_BUS
| _TRAVELLING_BY_TRAM_OR_UNDERGROUND | _TRAVELLING_BY_TRAIN | _TRAVELLING_BY_AEROPLANE
| _TRAVELLING_BY_BOAT_OR_SHIP | _WHER_001__TRAVELLING_BY_COACH | _WAITING_FOR_PUBLIC_TRANSPORT
| _OTHER_SPECIFIED_PUBLIC_TRANSPORT_MODE | _UNSPECIFIED_TRANSPORT_MODE
| _ILLEGIBLE_LOCATION_OR_TRANSPORT_MODE
.

Definition members : list t :=
  [MAIN_ACTVTY_EQUAL_SLEEPWORKSTUDY___NO_CODE_REQUIRED; _MISSING; MISSING2;
  _UNSPECIFIED_LOCATION; _UNSPECIFIED_LOCATION_NOT_TRAVELLING; _HOME;
  _SECOND_HOME_OR_WEEKEND_HOUSE; _WORKING_PLACE_OR_SCHOOL; _OTHER_PEOPLE_S_HOME;
  _RESTAURANT__CAFÉ_OR_PUB; _SPORTS_FACILITY; _WHER_001__ARTS_OR_CULTURAL_CENTRE;
  _THE_COUNTRY_COUNTRYSIDE__SEASIDE__BEACH_OR_COAST;
  _OTHER_SPECIFIED_LOCATION_NOT_TRAVELLING; _UNSPECIFIED_PRIVATE_TRANSPORT_MODE;
  _TRAVELLING_ON_FOOT; _TRAVELLING_BY_BICYCLE; _TRAVELLING_BY_MOPED__MOTORCYCLE_OR_MOTORBOAT;
  _TRAVELLING_BY_PASSENGER_CAR_AS_THE_DRIVER; _TRAVELLING_BY_PASSENGER_CAR_AS_A_PASSENGER;
  _TRAVELLING_BY_PASSENGER_CAR_DRIVER_STATUS_UNSPECIFIED; _TRAVELLING_BY_LORRY__OR_TRACTOR;
  _TRAVELLING_BY_VAN; _OTHER_SPECIFIED_PRIVATE_TRAVELLING_MODE;
  _UNSPECIFIED_PUBLIC_TRANSPORT_MODE; _TRAVELLING_BY_TAXI; _TRAVELLING_BY_BUS;
  _TRAVELLING_BY_TRAM_OR_UNDERGROUND; _TRAVELLING_BY_TRAIN; _TRAVELLING_BY_AEROPLANE;
  _TRAVELLING_BY_BOAT_OR_SHIP; _WHER_001__TRAVELLING_BY_COACH; _WAITING_FOR_PUBLIC_TRANSPORT;
  _OTHER_SPECIFIED_PUBLIC_TRANSPORT_MODE; _UNSPECIFIED_TRANSPORT_MODE;
  _ILLEGIBLE_LOCATION_OR_TRANSPORT_MODE].

Definition ordinal (x : t) : nat :=
  match x with
  | MAIN_ACTVTY_EQUAL_SLEEPWORKSTUDY___NO_CODE_REQUIRED => 0 | _MISSING => 1 | MISSING2 => 2
  | _UNSPECIFIED_LOCATION => 3 | _UNSPECIFIED_LOCATION_NOT_TRAVELLING => 4 | _HOME => 5
  | _SECOND_HOME_OR_WEEKEND_HOUSE => 6 | _WORKING_PLACE_OR_SCHOOL => 7
  | _OTHER_PEOPLE_S_HOME => 8 | _RESTAURANT__CAFÉ_OR_PUB => 9 | _SPORTS_FACILITY => 10
  | _WHER_001__ARTS_OR_CULTURAL_CENTRE => 11
  | _THE_COUNTRY_COUNTRYSIDE__SEASIDE__BEACH_OR_COAST => 12
  | _OTHER_SPECIFIED_LOCATION_NOT_TRAVELLING => 13 | _UNSPECIFIED_PRIVATE_TRANSPORT_MODE => 14
  | _TRAVELLING_ON_FOOT => 15 | _TRAVELLING_BY_BICYCLE => 16
  | _TRAVELLING_BY_MOPED__MOTORCYCLE_OR_MOTORBOAT => 17
  | _TRAVELLING_BY_PASSENGER_CAR_AS_THE_DRIVER => 18
  | _TRAVELLING_BY_PASSENGER_CAR_AS_A_PASSENGER => 19
  | _TRAVELLING_BY_PASSENGER_CAR_DRIVER_STATUS_UNSPECIFIED => 20
  | _TRAVELLING_BY_LORRY__OR_TRACTOR => 21 | _TRAVELLING_BY_VAN => 22
  | _OTHER_SPECIFIED_PRIVATE_TRAVELLING_MODE => 23 | _UNSPECIFIED_PUBLIC_TRANSPORT_MODE => 24
  | _TRAVELLING_BY_TAXI => 25 | _TRAVELLING_BY_BUS => 26
  | _TRAVELLING_BY_TRAM_OR_UNDERGROUND => 27 | _TRAVELLING_BY_TRAIN => 28
  | _TRAVELLING_BY_AEROPLANE => 29 | _TRAVELLING_BY_BOAT_OR_SHIP => 30
  | _WHER_001__TRAVELLING_BY_COACH => 31 | _WAITING_FOR_PUBLIC_TRANSPORT => 32
  | _OTHER_SPECIFIED_PUBLIC_TRANSPORT_MODE => 33 | _UNSPECIFIED_TRANSPORT_MODE => 34
  | _ILLEGIBLE_LOCATION_OR_TRANSPORT_MODE => 35
  end.

Lemma WHER_001_members_ordinal (x : t) : members !! ordinal x = Some x.
Proof. by destruct x. Qed.

#[global] Instance eq_dec : EqDecision t :=
  enum_eq_dec ordinal members WHER_001_members_ordinal.

#[global] Instance countable : Countable t :=
  inj_countable ordinal (λ n, members !! n) WHER_001_members_ordinal.

End WHER_001.

Module ACT1_001.

Inductive t : Set :=
| UNSPECIFIED_PERSONAL_CARE | UNSPECIFIED_SLEEP | SLEEP | SICK_IN_BED | EATING
| UNSPECIFIED_OTHER_PERSONAL_CARE | WASH_AND_DRESS | OTHER_SPECIFIED_PERSONAL_CARE
| UNSPECIFIED_EMPLOYMENT | WORKING_TIME_IN_MAIN_JOB | COFFEE_AND_OTHER_BREAKS_IN_MAIN_JOB
| WORKING_TIME_IN_SECOND_JOB | COFFEE_AND_OTHER_BREAKS_IN_SECOND_JOB
| UNSPECIFIED_ACTIVITIES_RELATED_TO_EMPLOYMENT | LUNCH_BREAK
| OTHER_SPECIFIED_ACTIVITIES_RELATED_TO_EMPLOYMENT | ACTIVITIES_RELATED_TO_JOB_SEEKING
| OTHER_SPECIFIED_ACTIVITIES_RELATED_TO_EMPLOYMENT2 | UNSPECIFIED_STUDY
| UNSPECIFIED_ACTIVITIES_RELATED_TO_SCHOOL_OR_UNIVERSITY | CLASSES_AND_LECTURES | HOMEWORK
| OTHER_SPECIFIED_ACTIVITIES_RELATED_TO_SCHOOL_OR_UNIVERSITY | FREE_TIME_STUDY
| UNSPECIFIED_HOUSEHOLD_AND_FAMILY_CARE | UNSPECIFIED_FOOD_MANAGEMENT | FOOD_PREPARATION
| BAKING | DISH_WASHING | PRESERVING | OTHER_SPECIFIED_FOOD_MANAGEMENT
| UNSPECIFIED_HOUSEHOLD_UPKEEP | CLEANING_DWELLING | CLEANING_YARD | HEATING_AND_WATER
| VARIOUS_ARRANGEMENTS | DISPOSAL_OF_WASTE | OTHER_SPECIFIED_HOUSEHOLD_UPKEEP
| UNSPECIFIED_MAKING_AND_CARE_FOR_TEXTILES | LAUNDRY | IRONING
| HANDICRAFT_AND_PRODUCING_TEXTILES | OTHER_SPECIFIED_MAKING_AND_CARE_FOR_TEXTILES
| UNSPECIFIED_GARDENING_AND_PET_CARE | GARDENING | TENDING_DOMESTIC_ANIMALS | CARING_FOR_PETS
| WALKING_THE_DOG | OTHER_SPECIFIED_GARDENING_AND_PET_CARE
| UNSPECIFIED_CONSTRUCTION_AND_REPAIRS | HOUSE_CONSTRUCTION_AND_RENOVATION
| REPAIRS_OF_DWELLING | UNSPECIFIED_MAKING__REPAIRING_AND_MAINTAINING_EQUIPMENT
| WOODCRAFT__METAL_CRAFT__SCULPTURE_AND_POTTERY
| OTHER_SPECIFIED_MAKING__REPAIRING_AND_MAINTAINING_EQUIPMENT | VEHICLE_MAINTENANCE
| OTHER_SPECIFIED_CONSTRUCTION_AND_REPAIRS | UNSPECIFIED_SHOPPING_AND_SERVICES
| UNSPECIFIED_SHOPPING | SHOPPING_MAINLY_FOR_FOOD | SHOPPING_MAINLY_FOR_CLOTHING
| SHOPPING_MAINLY_RELATED_TO_ACCOMMODATION
| SHOPPING_OR_BROWSING_AT_CAR_BOOT_SALES_OR_ANTIQUE_FAIRS
| WINDOW_SHOPPING_OR_OTHER_SHOPPING_AS_LEISURE | OTHER_SPECIFIED_SHOPPING
| COMMERCIAL_AND_ADMINISTRATIVE_SERVICES | PERSONAL_SERVICES
| OTHER_SPECIFIED_SHOPPING_AND_SERVICES | HOUSEHOLD_MANAGEMENT_NOT_USING_THE_INTERNET
| UNSPECIFIED_HOUSEHOLD_MANAGEMENT_USING_THE_INTERNET
| SHPING_FORANDORDRING_UNSPEC_GDSANDSRVS_VIA_INTERNET
| SHPING_FORANDORDRING_FOOD_VIA_THE_INTERNET | SHPING_FORANDORDRING_CLOTHING_VIA_THE_INTERNET
| SHPING_FORANDORDRING_GDSANDSRV_RELATED_TO_ACC_VIA_INTERNET
| SHPING_FORANDORDRING_MASS_MEDIA_VIA_THE_INTERNET
| SHPING_FORANDORDRING_ENTERTAINMENT_VIA_THE_INTERNET
| BANKING_AND_BILL_PAYING_VIA_THE_INTERNET
| OTHER_SPECIFIED_HOUSEHOLD_MANAGEMENT_USING_THE_INTERNET | UNSPECIFIED_CHILDCARE
| UNSPECIFIED_PHYSICAL_CARE_AND_SUPERVISION_OF_A_CHILD | FEEDING_THE_CHILD
| OTHER_SPECIFIED_PHYSICAL_CARE_AND_SUPERVISION_OF_A_CHILD | TEACHING_THE_CHILD
| READING__PLAYING_AND_TALKING_WITH_CHILD | ACCOMPANYING_CHILD | OTHER_SPECIFIED_CHILDCARE
| UNSPECIFIED_HELP_TO_AN_ADULT_HOUSEHOLD_MEMBER
| PHYSICAL_CARE_AND_SUPERVISION_OF_AN_ADULT_HOUSEHOLD_MEMBER
| ACCOMPANYING_AN_ADULT_HOUSEHOLD_MEMBER | OTHER_SPECIFIED_HELP_TO_AN_ADULT_HOUSEHOLD_MEMBER
| UNSPECIFIED_VOLUNTEER_WORK_AND_MEETINGS | UNSPECIFIED_ORGANISATIONAL_WORK
| WORK_FOR_AN_ORGANISATION | VOLUNTEER_WORK_THROUGH_AN_ORGANISATION
| OTHER_SPECIFIED_ORGANISATIONAL_WORK | UNSPECIFIED_INFORMAL_HELP | FOOD_MANAGEMENT_AS_HELP
| HOUSEHOLD_UPKEEP_AS_HELP | GARDENING_AND_PET_CARE_AS_HELP | CONSTRUCTION_AND_REPAIRS_AS_HELP
| SHOPPING_AND_SERVICES_AS_HELP | HELP_IN_EMPLOYMENT_AND_FARMING
| UNSPECIFIED_CHILDCARE_AS_HELP | PHYSICAL_CARE_AND_SUPERVISION_OF_A_CHILD_AS_HELP
| TEACHING_THE_CHILD_AS_HELP | READING__PLAYING_AND_TALKING_TO_THE_CHILD_AS_HELP
| ACCOMPANYING_THE_CHILD_AS_HELP | OTHER_SPECIFIED_CHILDCARE_AS_HELP
| UNSPECIFIED_HELP_TO_AN_ADULT_MEMBER_OF_ANOTHER_HOUSEHOLD
| PHYSICAL_CARE_AND_SUPERVISION_OF_AN_ADULT_AS_HELP | ACCOMPANYING_AN_ADULT_AS_HELP
| OTHER_SPECIFIED_HELP_TO_AN_ADULT_MEMBER_OF_ANOTHER_HOUSEHOLD | OTHER_SPECIFIED_INFORMAL_HELP
| UNSPECIFIED_PARTICIPATORY_ACTIVITIES | MEETINGS | RELIGIOUS_ACTIVITIES
| OTHER_SPECIFIED_PARTICIPATORY_ACTIVITIES | UNSPECIFIED_SOCIAL_LIFE_AND_ENTERTAINMENT
| UNSPECIFIED_SOCIAL_LIFE | SOCIALISING_WITH_HOUSEHOLD_MEMBERS
| VISITING_AND_RECEIVING_VISITORS | FEASTS | TELEPHONE_CONVERSATION
| OTHER_SPECIFIED_SOCIAL_LIFE | UNSPECIFIED_ENTERTAINMENT_AND_CULTURE | CINEMA
| UNSPECIFIED_THEATRE_OR_CONCERTS | PLAYS__MUSICALS_OR_PANTOMIMES
| OPERA__OPERETTA_OR_LIGHT_OPERA | CONCERTS_OR_OTHER_PERFORMANCES_OF_CLASSICAL_MUSIC
| LIVE_MUSIC_OTHER_THAN_CLASSICAL_CONCERTS__OPERA_AND_MUSICALS | DANCE_PERFORMANCES
| OTHER_SPECIFIED_THEATRE_OR_CONCERTS | ART_EXHIBITIONS_AND_MUSEUMS | UNSPECIFIED_LIBRARY
| BRWING_BKS_RCDS_AUDIO_VIDEO_CDS_VDS_FROM_LIBRARY
| REFERENCE_TO_BKS_AND_OTHER_LIBRARY_MATERIALS_WITHIN_LIBRARY | USING_INTERNET_IN_THE_LIBRARY
| USING_COMPUTERS_IN_THE_LIBRARY_OTHER_THAN_INTERNET_USE | READING_NEWSPAPERS_IN_A_LIBRARY
| LISTENING_TO_MUSIC_IN_A_LIBRARY | OTHER_SPECIFIED_LIBRARY_ACTIVITIES | SPORTS_EVENTS
| OTHER_SPECIFIED_ENTERTAINMENT_AND_CULTURE | VISITING_A_HISTORICAL_SITE
| VISITING_A_WILDLIFE_SITE | VISITING_A_BOTANICAL_SITE | VISITING_A_LEISURE_PARK
| VISITING_AN_URBAN_PARK__PLAYGROUND_OR_DESIGNATED_PLAY_AREA
| OTHER_SPECIFIED_ENTERTAINMENT_OR_CULTURE | RESTING_TIME_OUT
| UNSPECIFIED_SPORTS_AND_OUTDOOR_ACTIVITIES | UNSPECIFIED_PHYSICAL_EXERCISE
| WALKING_AND_HIKING | TAKING_A_WALK_OR_HIKE_THAT_LASTS_AT_LEAST_2_MILES_OR_1_HOUR
| OTHER_WALK_OR_HIKE | JOGGING_AND_RUNNING | BIKING__SKIING_AND_SKATING | BIKING
| SKIING_OR_SKATING | UNSPECIFIED_BALL_GAMES | INDOOR_PAIRS_OR_DOUBLES_GAMES
| INDOOR_TEAM_GAMES | OUTDOOR_PAIRS_OR_DOUBLES_GAMES | OUTDOOR_TEAM_GAMES
| OTHER_SPECIFIED_BALL_GAMES | GYMNASTICS | FITNESS | UNSPECIFIED_WATER_SPORTS | SWIMMING
| OTHER_SPECIFIED_WATER_SPORTS | OTHER_SPECIFIED_PHYSICAL_EXERCISE
| UNSPECIFIED_PRODUCTIVE_EXERCISE | HUNTING_AND_FISHING | PICKING_BERRIES__MUSHROOM_AND_HERBS
| OTHER_SPECIFIED_PRODUCTIVE_EXERCISE | UNSPECIFIED_SPORTS_RELATED_ACTIVITIES
| ACTIVITIES_RELATED_TO_SPORTS | ACTIVITIES_RELATED_TO_PRODUCTIVE_EXERCISE
| UNSPECIFIED_HOBBIES_AND_GAMES | UNSPECIFIED_ARTS | UNSPECIFIED_VISUAL_ARTS
| PAINTING__DRAWING_OR_OTHER_GRAPHIC_ARTS | MAKING_VIDEOS__TAKING_PHOTOS_OR_RELATED_ACTIVITIES
| OTHER_SPECIFIED_VISUAL_ARTS | UNSPECIFIED_PERFORMING_ARTS
| SINGING_OR_OTHER_MUSICAL_ACTIVITIES | OTHER_SPECIFIED_PERFORMING_ARTS | LITERARY_ARTS
| OTHER_SPECIFIED_ARTS | UNSPECIFIED_HOBBIES | COLLECTING | COMPUTING_PROGRAMMING
| UNSPECIFIED_INFORMATION_BY_COMPUTING | INFORMATION_SEARCHING_ON_THE_INTERNET
| OTHER_SPECIFIED_INFORMATION_BY_COMPUTING | UNSPECIFIED_COMMUNICATION_BY_COMPUTER
| COMMUNICATION_ON_THE_INTERNET | OTHER_SPECIFIED_COMMUNICATION_BY_COMPUTING
| UNSPECIFIED_OTHER_COMPUTING | UNSPECIFIED_INTERNET_USE | OTHER_SPECIFIED_COMPUTING
| CORRESPONDENCE | OTHER_SPECIFIED_HOBBIES | UNSPECIFIED_GAMES | SOLO_GAMES_AND_PLAY
| UNSPECIFIED_GAMES_AND_PLAY_WITH_OTHERS | BILLIARDS__POOL__SNOOKER_OR_PETANQUE
| CHESS_AND_BRIDGE | OTHER_SPECIFIED_PARLOUR_GAMES_AND_PLAY | COMPUTER_GAMES | GAMBLING
| OTHER_SPECIFIED_GAMES | UNSPECIFIED_MASS_MEDIA | UNSPECIFIED_READING | READING_PERIODICALS
| READING_BOOKS | OTHER_SPECIFIED_READING | UNSPECIFIED_TV_WATCHING | WATCHING_A_FILM_ON_TV
| WATCHING_SPORT_ON_TV | OTHER_SPECIFIED_TV_WATCHING | UNSPECIFIED_VIDEO_WATCHING
| WATCHING_A_FILM_ON_VIDEO | WATCHING_SPORT_ON_VIDEO | OTHER_SPECIFIED_VIDEO_WATCHING
| UNSPECIFIED_LISTENING_TO_RADIO_AND_MUSIC | UNSPECIFIED_RADIO_LISTENING
| LISTENING_TO_MUSIC_ON_THE_RADIO | LISTENING_TO_SPORT_ON_THE_RADIO
| OTHER_SPECIFIED_RADIO_LISTENING | LISTENING_TO_RECORDINGS
| TRAVEL_RELATED_TO_UNSPECIFIED_TIME_USE | TRAVEL_RELATED_TO_PERSONAL_BUSINESS
| TRAVEL_IN_THE_COURSE_OF_WORK | TRAVEL_TO_WORK_FROM_HOME_AND_BACK_ONLY
| TRAVEL_TO_WORK_FROM_A_PLACE_OTHER_THAN_HOME | TRAVEL_RELATED_TO_EDUCATION
| TRAVEL_ESCORTING_TO_FROM_EDUCATION | TRAVEL_RELATED_TO_HOUSEHOLD_CARE
| TRAVEL_RELATED_TO_SHOPPING | TRAVEL_RELATED_TO_SERVICES
| TRAVEL_ESCORTING_A_CHILD_OTHER_THAN_EDUCATION
| TRAVEL_ESCORTING_AN_ADULT_OTHER_THAN_EDUCATION | TRAVEL_RELATED_TO_ORGANISATIONAL_WORK
| TRAVEL_RELATED_TO_INFORMAL_HELP_TO_OTHER_HOUSEHOLDS | TRAVEL_RELATED_TO_RELIGIOUS_ACTIVITIES
| TRAVEL_RLT_TO_PARTICIPATORY_ACTV_EXCEPT_REL_ACTV
| TRAVEL_TO_VISIT_FRIENDS_RELATIVES_IN_THEIR_HOMES | TRAVEL_RELATED_TO_OTHER_SOCIAL_ACTIVITIES
| TRAVEL_RELATED_TO_ENTERTAINMENT_AND_CULTURE | TRAVEL_RELATED_TO_PHYSICAL_EXERCISE
| TRAVEL_RELATED_TO_HUNTING_AND_FISHING
| TRAVEL_RELATED_TO_PRODUCTIVE_EXCS_EXPT_HUNTING_AND_FISHING | TRAVEL_RELATED_TO_GAMBLING
| TRAVEL_RELATED_TO_HOBBIES_OTHER_THAN_GAMBLING | TRAVEL_TO_HOLIDAY_BASE
| TRAVEL_FOR_DAY_TRIP_JUST_WALK | OTHER_SPECIFIED_TRAVEL | PUNCTUATING_ACTIVITY
| FILLING_IN_THE_TIME_USE_DIARY | NO_MAIN_ACTIVITY__NO_IDEA_WHAT_IT_MIGHT_BE
| NO_MAIN_ACTIVITY__SOME_IDEA_WHAT_IT_MIGHT_BE | ILLEGIBLE_ACTIVITY | UNSPECIFIED_TIME_USE
| MISSING1
.

Definition members : list t :=
  [UNSPECIFIED_PERSONAL_CARE; UNSPECIFIED_SLEEP; SLEEP; SICK_IN_BED; EATING;
  UNSPECIFIED_OTHER_PERSONAL_CARE; WASH_AND_DRESS; OTHER_SPECIFIED_PERSONAL_CARE;
  UNSPECIFIED_EMPLOYMENT; WORKING_TIME_IN_MAIN_JOB; COFFEE_AND_OTHER_BREAKS_IN_MAIN_JOB;
  WORKING_TIME_IN_SECOND_JOB; COFFEE_AND_OTHER_BREAKS_IN_SECOND_JOB;
  UNSPECIFIED_ACTIVITIES_RELATED_TO_EMPLOYMENT; LUNCH_BREAK;
  OTHER_SPECIFIED_ACTIVITIES_RELATED_TO_EMPLOYMENT; ACTIVITIES_RELATED_TO_JOB_SEEKING;
  OTHER_SPECIFIED_ACTIVITIES_RELATED_TO_EMPLOYMENT2; UNSPECIFIED_STUDY;
  UNSPECIFIED_ACTIVITIES_RELATED_TO_SCHOOL_OR_UNIVERSITY; CLASSES_AND_LECTURES; HOMEWORK;
  OTHER_SPECIFIED_ACTIVITIES_RELATED_TO_SCHOOL_OR_UNIVERSITY; FREE_TIME_STUDY;
  UNSPECIFIED_HOUSEHOLD_AND_FAMILY_CARE; UNSPECIFIED_FOOD_MANAGEMENT; FOOD_PREPARATION;
  BAKING; DISH_WASHING; PRESERVING; OTHER_SPECIFIED_FOOD_MANAGEMENT;
  UNSPECIFIED_HOUSEHOLD_UPKEEP; CLEANING_DWELLING; CLEANING_YARD; HEATING_AND_WATER;
  VARIOUS_ARRANGEMENTS; DISPOSAL_OF_WASTE; OTHER_SPECIFIED_HOUSEHOLD_UPKEEP;
  UNSPECIFIED_MAKING_AND_CARE_FOR_TEXTILES; LAUNDRY; IRONING;
  HANDICRAFT_AND_PRODUCING_TEXTILES; OTHER_SPECIFIED_MAKING_AND_CARE_FOR_TEXTILES;
  UNSPECIFIED_GARDENING_AND_PET_CARE; GARDENING; TENDING_DOMESTIC_ANIMALS; CARING_FOR_PETS;
  WALKING_THE_DOG; OTHER_SPECIFIED_GARDENING_AND_PET_CARE;
  UNSPECIFIED_CONSTRUCTION_AND_REPAIRS; HOUSE_CONSTRUCTION_AND_RENOVATION;
  REPAIRS_OF_DWELLING; UNSPECIFIED_MAKING__REPAIRING_AND_MAINTAINING_EQUIPMENT;
  WOODCRAFT__METAL_CRAFT__SCULPTURE_AND_POTTERY;
  OTHER_SPECIFIED_MAKING__REPAIRING_AND_MAINTAINING_EQUIPMENT; VEHICLE_MAINTENANCE;
  OTHER_SPECIFIED_CONSTRUCTION_AND_REPAIRS; UNSPECIFIED_SHOPPING_AND_SERVICES;
  UNSPECIFIED_SHOPPING; SHOPPING_MAINLY_FOR_FOOD; SHOPPING_MAINLY_FOR_CLOTHING;
  SHOPPING_MAINLY_RELATED_TO_ACCOMMODATION;
  SHOPPING_OR_BROWSING_AT_CAR_BOOT_SALES_OR_ANTIQUE_FAIRS;
  WINDOW_SHOPPING_OR_OTHER_SHOPPING_AS_LEISURE; OTHER_SPECIFIED_SHOPPING;
  COMMERCIAL_AND_ADMINISTRATIVE_SERVICES; PERSONAL_SERVICES;
  OTHER_SPECIFIED_SHOPPING_AND_SERVICES; HOUSEHOLD_MANAGEMENT_NOT_USING_THE_INTERNET;
  UNSPECIFIED_HOUSEHOLD_MANAGEMENT_USING_THE_INTERNET;
  SHPING_FORANDORDRING_UNSPEC_GDSANDSRVS_VIA_INTERNET;
  SHPING_FORANDORDRING_FOOD_VIA_THE_INTERNET; SHPING_FORANDORDRING_CLOTHING_VIA_THE_INTERNET;
  SHPING_FORANDORDRING_GDSANDSRV_RELATED_TO_ACC_VIA_INTERNET;
  SHPING_FORANDORDRING_MASS_MEDIA_VIA_THE_INTERNET;
  SHPING_FORANDORDRING_ENTERTAINMENT_VIA_THE_INTERNET;
  BANKING_AND_BILL_PAYING_VIA_THE_INTERNET;
  OTHER_SPECIFIED_HOUSEHOLD_MANAGEMENT_USING_THE_INTERNET; UNSPECIFIED_CHILDCARE;
  UNSPECIFIED_PHYSICAL_CARE_AND_SUPERVISION_OF_A_CHILD; FEEDING_THE_CHILD;
  OTHER_SPECIFIED_PHYSICAL_CARE_AND_SUPERVISION_OF_A_CHILD; TEACHING_THE_CHILD;
  READING__PLAYING_AND_TALKING_WITH_CHILD; ACCOMPANYING_CHILD; OTHER_SPECIFIED_CHILDCARE;
  UNSPECIFIED_HELP_TO_AN_ADULT_HOUSEHOLD_MEMBER;
  PHYSICAL_CARE_AND_SUPERVISION_OF_AN_ADULT_HOUSEHOLD_MEMBER;
  ACCOMPANYING_AN_ADULT_HOUSEHOLD_MEMBER; OTHER_SPECIFIED_HELP_TO_AN_ADULT_HOUSEHOLD_MEMBER;
  UNSPECIFIED_VOLUNTEER_WORK_AND_MEETINGS; UNSPECIFIED_ORGANISATIONAL_WORK;
  WORK_FOR_AN_ORGANISATION; VOLUNTEER_WORK_THROUGH_AN_ORGANISATION;
  OTHER_SPECIFIED_ORGANISATIONAL_WORK; UNSPECIFIED_INFORMAL_HELP; FOOD_MANAGEMENT_AS_HELP;
  HOUSEHOLD_UPKEEP_AS_HELP; GARDENING_AND_PET_CARE_AS_HELP; CONSTRUCTION_AND_REPAIRS_AS_HELP;
  SHOPPING_AND_SERVICES_AS_HELP; HELP_IN_EMPLOYMENT_AND_FARMING;
  UNSPECIFIED_CHILDCARE_AS_HELP; PHYSICAL_CARE_AND_SUPERVISION_OF_A_CHILD_AS_HELP;
  TEACHING_THE_CHILD_AS_HELP; READING__PLAYING_AND_TALKING_TO_THE_CHILD_AS_HELP;
  ACCOMPANYING_THE_CHILD_AS_HELP; OTHER_SPECIFIED_CHILDCARE_AS_HELP;
  UNSPECIFIED_HELP_TO_AN_ADULT_MEMBER_OF_ANOTHER_HOUSEHOLD;
  PHYSICAL_CARE_AND_SUPERVISION_OF_AN_ADULT_AS_HELP; ACCOMPANYING_AN_ADULT_AS_HELP;
  OTHER_SPECIFIED_HELP_TO_AN_ADULT_MEMBER_OF_ANOTHER_HOUSEHOLD;
  OTHER_SPECIFIED_INFORMAL_HELP; UNSPECIFIED_PARTICIPATORY_ACTIVITIES; MEETINGS;
  RELIGIOUS_ACTIVITIES; OTHER_SPECIFIED_PARTICIPATORY_ACTIVITIES;
  UNSPECIFIED_SOCIAL_LIFE_AND_ENTERTAINMENT; UNSPECIFIED_SOCIAL_LIFE;
  SOCIALISING_WITH_HOUSEHOLD_MEMBERS; VISITING_AND_RECEIVING_VISITORS; FEASTS;
  TELEPHONE_CONVERSATION; OTHER_SPECIFIED_SOCIAL_LIFE; UNSPECIFIED_ENTERTAINMENT_AND_CULTURE;
  CINEMA; UNSPECIFIED_THEATRE_OR_CONCERTS; PLAYS__MUSICALS_OR_PANTOMIMES;
  OPERA__OPERETTA_OR_LIGHT_OPERA; CONCERTS_OR_OTHER_PERFORMANCES_OF_CLASSICAL_MUSIC;
  LIVE_MUSIC_OTHER_THAN_CLASSICAL_CONCERTS__OPERA_AND_MUSICALS; DANCE_PERFORMANCES;
  OTHER_SPECIFIED_THEATRE_OR_CONCERTS; ART_EXHIBITIONS_AND_MUSEUMS; UNSPECIFIED_LIBRARY;
  BRWING_BKS_RCDS_AUDIO_VIDEO_CDS_VDS_FROM_LIBRARY;
  REFERENCE_TO_BKS_AND_OTHER_LIBRARY_MATERIALS_WITHIN_LIBRARY; USING_INTERNET_IN_THE_LIBRARY;
  USING_COMPUTERS_IN_THE_LIBRARY_OTHER_THAN_INTERNET_USE; READING_NEWSPAPERS_IN_A_LIBRARY;
  LISTENING_TO_MUSIC_IN_A_LIBRARY; OTHER_SPECIFIED_LIBRARY_ACTIVITIES; SPORTS_EVENTS;
  OTHER_SPECIFIED_ENTERTAINMENT_AND_CULTURE; VISITING_A_HISTORICAL_SITE;
  VISITING_A_WILDLIFE_SITE; VISITING_A_BOTANICAL_SITE; VISITING_A_LEISURE_PARK;
  VISITING_AN_URBAN_PARK__PLAYGROUND_OR_DESIGNATED_PLAY_AREA;
  OTHER_SPECIFIED_ENTERTAINMENT_OR_CULTURE; RESTING_TIME_OUT;
  UNSPECIFIED_SPORTS_AND_OUTDOOR_ACTIVITIES; UNSPECIFIED_PHYSICAL_EXERCISE;
  WALKING_AND_HIKING; TAKING_A_WALK_OR_HIKE_THAT_LASTS_AT_LEAST_2_MILES_OR_1_HOUR;
  OTHER_WALK_OR_HIKE; JOGGING_AND_RUNNING; BIKING__SKIING_AND_SKATING; BIKING;
  SKIING_OR_SKATING; UNSPECIFIED_BALL_GAMES; INDOOR_PAIRS_OR_DOUBLES_GAMES;
  INDOOR_TEAM_GAMES; OUTDOOR_PAIRS_OR_DOUBLES_GAMES; OUTDOOR_TEAM_GAMES;
  OTHER_SPECIFIED_BALL_GAMES; GYMNASTICS; FITNESS; UNSPECIFIED_WATER_SPORTS; SWIMMING;
  OTHER_SPECIFIED_WATER_SPORTS; OTHER_SPECIFIED_PHYSICAL_EXERCISE;
  UNSPECIFIED_PRODUCTIVE_EXERCISE; HUNTING_AND_FISHING; PICKING_BERRIES__MUSHROOM_AND_HERBS;
  OTHER_SPECIFIED_PRODUCTIVE_EXERCISE; UNSPECIFIED_SPORTS_RELATED_ACTIVITIES;
  ACTIVITIES_RELATED_TO_SPORTS; ACTIVITIES_RELATED_TO_PRODUCTIVE_EXERCISE;
  UNSPECIFIED_HOBBIES_AND_GAMES; UNSPECIFIED_ARTS; UNSPECIFIED_VISUAL_ARTS;
  PAINTING__DRAWING_OR_OTHER_GRAPHIC_ARTS;
  MAKING_VIDEOS__TAKING_PHOTOS_OR_RELATED_ACTIVITIES; OTHER_SPECIFIED_VISUAL_ARTS;
  UNSPECIFIED_PERFORMING_ARTS; SINGING_OR_OTHER_MUSICAL_ACTIVITIES;
  OTHER_SPECIFIED_PERFORMING_ARTS; LITERARY_ARTS; OTHER_SPECIFIED_ARTS; UNSPECIFIED_HOBBIES;
  COLLECTING; COMPUTING_PROGRAMMING; UNSPECIFIED_INFORMATION_BY_COMPUTING;
  INFORMATION_SEARCHING_ON_THE_INTERNET; OTHER_SPECIFIED_INFORMATION_BY_COMPUTING;
  UNSPECIFIED_COMMUNICATION_BY_COMPUTER; COMMUNICATION_ON_THE_INTERNET;
  OTHER_SPECIFIED_COMMUNICATION_BY_COMPUTING; UNSPECIFIED_OTHER_COMPUTING;
  UNSPECIFIED_INTERNET_USE; OTHER_SPECIFIED_COMPUTING; CORRESPONDENCE;
  OTHER_SPECIFIED_HOBBIES; UNSPECIFIED_GAMES; SOLO_GAMES_AND_PLAY;
  UNSPECIFIED_GAMES_AND_PLAY_WITH_OTHERS; BILLIARDS__POOL__SNOOKER_OR_PETANQUE;
  CHESS_AND_BRIDGE; OTHER_SPECIFIED_PARLOUR_GAMES_AND_PLAY; COMPUTER_GAMES; GAMBLING;
  OTHER_SPECIFIED_GAMES; UNSPECIFIED_MASS_MEDIA; UNSPECIFIED_READING; READING_PERIODICALS;
  READING_BOOKS; OTHER_SPECIFIED_READING; UNSPECIFIED_TV_WATCHING; WATCHING_A_FILM_ON_TV;
  WATCHING_SPORT_ON_TV; OTHER_SPECIFIED_TV_WATCHING; UNSPECIFIED_VIDEO_WATCHING;
  WATCHING_A_FILM_ON_VIDEO; WATCHING_SPORT_ON_VIDEO; OTHER_SPECIFIED_VIDEO_WATCHING;
  UNSPECIFIED_LISTENING_TO_RADIO_AND_MUSIC; UNSPECIFIED_RADIO_LISTENING;
  LISTENING_TO_MUSIC_ON_THE_RADIO; LISTENING_TO_SPORT_ON_THE_RADIO;
  OTHER_SPECIFIED_RADIO_LISTENING; LISTENING_TO_RECORDINGS;
  TRAVEL_RELATED_TO_UNSPECIFIED_TIME_USE; TRAVEL_RELATED_TO_PERSONAL_BUSINESS;
  TRAVEL_IN_THE_COURSE_OF_WORK; TRAVEL_TO_WORK_FROM_HOME_AND_BACK_ONLY;
  TRAVEL_TO_WORK_FROM_A_PLACE_OTHER_THAN_HOME; TRAVEL_RELATED_TO_EDUCATION;
  TRAVEL_ESCORTING_TO_FROM_EDUCATION; TRAVEL_RELATED_TO_HOUSEHOLD_CARE;
  TRAVEL_RELATED_TO_SHOPPING; TRAVEL_RELATED_TO_SERVICES;
  TRAVEL_ESCORTING_A_CHILD_OTHER_THAN_EDUCATION;
  TRAVEL_ESCORTING_AN_ADULT_OTHER_THAN_EDUCATION; TRAVEL_RELATED_TO_ORGANISATIONAL_WORK;
  TRAVEL_RELATED_TO_INFORMAL_HELP_TO_OTHER_HOUSEHOLDS;
  TRAVEL_RELATED_TO_RELIGIOUS_ACTIVITIES; TRAVEL_RLT_TO_PARTICIPATORY_ACTV_EXCEPT_REL_ACTV;
  TRAVEL_TO_VISIT_FRIENDS_RELATIVES_IN_THEIR_HOMES;
  TRAVEL_RELATED_TO_OTHER_SOCIAL_ACTIVITIES; TRAVEL_RELATED_TO_ENTERTAINMENT_AND_CULTURE;
  TRAVEL_RELATED_TO_PHYSICAL_EXERCISE; TRAVEL_RELATED_TO_HUNTING_AND_FISHING;
  TRAVEL_RELATED_TO_PRODUCTIVE_EXCS_EXPT_HUNTING_AND_FISHING; TRAVEL_RELATED_TO_GAMBLING;
  TRAVEL_RELATED_TO_HOBBIES_OTHER_THAN_GAMBLING; TRAVEL_TO_HOLIDAY_BASE;
  TRAVEL_FOR_DAY_TRIP_JUST_WALK; OTHER_SPECIFIED_TRAVEL; PUNCTUATING_ACTIVITY;
  FILLING_IN_THE_TIME_USE_DIARY; NO_MAIN_ACTIVITY__NO_IDEA_WHAT_IT_MIGHT_BE;
  NO_MAIN_ACTIVITY__SOME_IDEA_WHAT_IT_MIGHT_BE; ILLEGIBLE_ACTIVITY; UNSPECIFIED_TIME_USE;
  MISSING1].

Definition ordinal (x : t) : nat :=
  match x with
  | UNSPECIFIED_PERSONAL_CARE => 0 | UNSPECIFIED_SLEEP => 1 | SLEEP => 2 | SICK_IN_BED => 3
  | EATING => 4 | UNSPECIFIED_OTHER_PERSONAL_CARE => 5 | WASH_AND_DRESS => 6
  | OTHER_SPECIFIED_PERSONAL_CARE => 7 | UNSPECIFIED_EMPLOYMENT => 8
  | WORKING_TIME_IN_MAIN_JOB => 9 | COFFEE_AND_OTHER_BREAKS_IN_MAIN_JOB => 10
  | WORKING_TIME_IN_SECOND_JOB => 11 | COFFEE_AND_OTHER_BREAKS_IN_SECOND_JOB => 12
  | UNSPECIFIED_ACTIVITIES_RELATED_TO_EMPLOYMENT => 13 | LUNCH_BREAK => 14
  | OTHER_SPECIFIED_ACTIVITIES_RELATED_TO_EMPLOYMENT => 15
  | ACTIVITIES_RELATED_TO_JOB_SEEKING => 16
  | OTHER_SPECIFIED_ACTIVITIES_RELATED_TO_EMPLOYMENT2 => 17 | UNSPECIFIED_STUDY => 18
  | UNSPECIFIED_ACTIVITIES_RELATED_TO_SCHOOL_OR_UNIVERSITY => 19 | CLASSES_AND_LECTURES => 20
  | HOMEWORK => 21 | OTHER_SPECIFIED_ACTIVITIES_RELATED_TO_SCHOOL_OR_UNIVERSITY => 22
  | FREE_TIME_STUDY => 23 | UNSPECIFIED_HOUSEHOLD_AND_FAMILY_CARE => 24
  | UNSPECIFIED_FOOD_MANAGEMENT => 25 | FOOD_PREPARATION => 26 | BAKING => 27
  | DISH_WASHING => 28 | PRESERVING => 29 | OTHER_SPECIFIED_FOOD_MANAGEMENT => 30
  | UNSPECIFIED_HOUSEHOLD_UPKEEP => 31 | CLEANING_DWELLING => 32 | CLEANING_YARD => 33
  | HEATING_AND_WATER => 34 | VARIOUS_ARRANGEMENTS => 35 | DISPOSAL_OF_WASTE => 36
  | OTHER_SPECIFIED_HOUSEHOLD_UPKEEP => 37 | UNSPECIFIED_MAKING_AND_CARE_FOR_TEXTILES => 38
  | LAUNDRY => 39 | IRONING => 40 | HANDICRAFT_AND_PRODUCING_TEXTILES => 41
  | OTHER_SPECIFIED_MAKING_AND_CARE_FOR_TEXTILES => 42
  | UNSPECIFIED_GARDENING_AND_PET_CARE => 43 | GARDENING => 44 | TENDING_DOMESTIC_ANIMALS => 45
  | CARING_FOR_PETS => 46 | WALKING_THE_DOG => 47
  | OTHER_SPECIFIED_GARDENING_AND_PET_CARE => 48 | UNSPECIFIED_CONSTRUCTION_AND_REPAIRS => 49
  | HOUSE_CONSTRUCTION_AND_RENOVATION => 50 | REPAIRS_OF_DWELLING => 51
  | UNSPECIFIED_MAKING__REPAIRING_AND_MAINTAINING_EQUIPMENT => 52
  | WOODCRAFT__METAL_CRAFT__SCULPTURE_AND_POTTERY => 53
  | OTHER_SPECIFIED_MAKING__REPAIRING_AND_MAINTAINING_EQUIPMENT => 54
  | VEHICLE_MAINTENANCE => 55 | OTHER_SPECIFIED_CONSTRUCTION_AND_REPAIRS => 56
  | UNSPECIFIED_SHOPPING_AND_SERVICES => 57 | UNSPECIFIED_SHOPPING => 58
  | SHOPPING_MAINLY_FOR_FOOD => 59 | SHOPPING_MAINLY_FOR_CLOTHING => 60
  | SHOPPING_MAINLY_RELATED_TO_ACCOMMODATION => 61
  | SHOPPING_OR_BROWSING_AT_CAR_BOOT_SALES_OR_ANTIQUE_FAIRS => 62
  | WINDOW_SHOPPING_OR_OTHER_SHOPPING_AS_LEISURE => 63 | OTHER_SPECIFIED_SHOPPING => 64
  | COMMERCIAL_AND_ADMINISTRATIVE_SERVICES => 65 | PERSONAL_SERVICES => 66
  | OTHER_SPECIFIED_SHOPPING_AND_SERVICES => 67
  | HOUSEHOLD_MANAGEMENT_NOT_USING_THE_INTERNET => 68
  | UNSPECIFIED_HOUSEHOLD_MANAGEMENT_USING_THE_INTERNET => 69
  | SHPING_FORANDORDRING_UNSPEC_GDSANDSRVS_VIA_INTERNET => 70
  | SHPING_FORANDORDRING_FOOD_VIA_THE_INTERNET => 71
  | SHPING_FORANDORDRING_CLOTHING_VIA_THE_INTERNET => 72
  | SHPING_FORANDORDRING_GDSANDSRV_RELATED_TO_ACC_VIA_INTERNET => 73
  | SHPING_FORANDORDRING_MASS_MEDIA_VIA_THE_INTERNET => 74
  | SHPING_FORANDORDRING_ENTERTAINMENT_VIA_THE_INTERNET => 75
  | BANKING_AND_BILL_PAYING_VIA_THE_INTERNET => 76
  | OTHER_SPECIFIED_HOUSEHOLD_MANAGEMENT_USING_THE_INTERNET => 77 | UNSPECIFIED_CHILDCARE => 78
  | UNSPECIFIED_PHYSICAL_CARE_AND_SUPERVISION_OF_A_CHILD => 79 | FEEDING_THE_CHILD => 80
  | OTHER_SPECIFIED_PHYSICAL_CARE_AND_SUPERVISION_OF_A_CHILD => 81 | TEACHING_THE_CHILD => 82
  | READING__PLAYING_AND_TALKING_WITH_CHILD => 83 | ACCOMPANYING_CHILD => 84
  | OTHER_SPECIFIED_CHILDCARE => 85 | UNSPECIFIED_HELP_TO_AN_ADULT_HOUSEHOLD_MEMBER => 86
  | PHYSICAL_CARE_AND_SUPERVISION_OF_AN_ADULT_HOUSEHOLD_MEMBER => 87
  | ACCOMPANYING_AN_ADULT_HOUSEHOLD_MEMBER => 88
  | OTHER_SPECIFIED_HELP_TO_AN_ADULT_HOUSEHOLD_MEMBER => 89
  | UNSPECIFIED_VOLUNTEER_WORK_AND_MEETINGS => 90 | UNSPECIFIED_ORGANISATIONAL_WORK => 91
  | WORK_FOR_AN_ORGANISATION => 92 | VOLUNTEER_WORK_THROUGH_AN_ORGANISATION => 93
  | OTHER_SPECIFIED_ORGANISATIONAL_WORK => 94 | UNSPECIFIED_INFORMAL_HELP => 95
  | FOOD_MANAGEMENT_AS_HELP => 96 | HOUSEHOLD_UPKEEP_AS_HELP => 97
  | GARDENING_AND_PET_CARE_AS_HELP => 98 | CONSTRUCTION_AND_REPAIRS_AS_HELP => 99
  | SHOPPING_AND_SERVICES_AS_HELP => 100 | HELP_IN_EMPLOYMENT_AND_FARMING => 101
  | UNSPECIFIED_CHILDCARE_AS_HELP => 102
  | PHYSICAL_CARE_AND_SUPERVISION_OF_A_CHILD_AS_HELP => 103 | TEACHING_THE_CHILD_AS_HELP => 104
  | READING__PLAYING_AND_TALKING_TO_THE_CHILD_AS_HELP => 105
  | ACCOMPANYING_THE_CHILD_AS_HELP => 106 | OTHER_SPECIFIED_CHILDCARE_AS_HELP => 107
  | UNSPECIFIED_HELP_TO_AN_ADULT_MEMBER_OF_ANOTHER_HOUSEHOLD => 108
  | PHYSICAL_CARE_AND_SUPERVISION_OF_AN_ADULT_AS_HELP => 109
  | ACCOMPANYING_AN_ADULT_AS_HELP => 110
  | OTHER_SPECIFIED_HELP_TO_AN_ADULT_MEMBER_OF_ANOTHER_HOUSEHOLD => 111
  | OTHER_SPECIFIED_INFORMAL_HELP => 112 | UNSPECIFIED_PARTICIPATORY_ACTIVITIES => 113
  | MEETINGS => 114 | RELIGIOUS_ACTIVITIES => 115
  | OTHER_SPECIFIED_PARTICIPATORY_ACTIVITIES => 116
  | UNSPECIFIED_SOCIAL_LIFE_AND_ENTERTAINMENT => 117 | UNSPECIFIED_SOCIAL_LIFE => 118
  | SOCIALISING_WITH_HOUSEHOLD_MEMBERS => 119 | VISITING_AND_RECEIVING_VISITORS => 120
  | FEASTS => 121 | TELEPHONE_CONVERSATION => 122 | OTHER_SPECIFIED_SOCIAL_LIFE => 123
  | UNSPECIFIED_ENTERTAINMENT_AND_CULTURE => 124 | CINEMA => 125
  | UNSPECIFIED_THEATRE_OR_CONCERTS => 126 | PLAYS__MUSICALS_OR_PANTOMIMES => 127
  | OPERA__OPERETTA_OR_LIGHT_OPERA => 128
  | CONCERTS_OR_OTHER_PERFORMANCES_OF_CLASSICAL_MUSIC => 129
  | LIVE_MUSIC_OTHER_THAN_CLASSICAL_CONCERTS__OPERA_AND_MUSICALS => 130
  | DANCE_PERFORMANCES => 131 | OTHER_SPECIFIED_THEATRE_OR_CONCERTS => 132
  | ART_EXHIBITIONS_AND_MUSEUMS => 133 | UNSPECIFIED_LIBRARY => 134
  | BRWING_BKS_RCDS_AUDIO_VIDEO_CDS_VDS_FROM_LIBRARY => 135
  | REFERENCE_TO_BKS_AND_OTHER_LIBRARY_MATERIALS_WITHIN_LIBRARY => 136
  | USING_INTERNET_IN_THE_LIBRARY => 137
  | USING_COMPUTERS_IN_THE_LIBRARY_OTHER_THAN_INTERNET_USE => 138
  | READING_NEWSPAPERS_IN_A_LIBRARY => 139 | LISTENING_TO_MUSIC_IN_A_LIBRARY => 140
  | OTHER_SPECIFIED_LIBRARY_ACTIVITIES => 141 | SPORTS_EVENTS => 142
  | OTHER_SPECIFIED_ENTERTAINMENT_AND_CULTURE => 143 | VISITING_A_HISTORICAL_SITE => 144
  | VISITING_A_WILDLIFE_SITE => 145 | VISITING_A_BOTANICAL_SITE => 146
  | VISITING_A_LEISURE_PARK => 147
  | VISITING_AN_URBAN_PARK__PLAYGROUND_OR_DESIGNATED_PLAY_AREA => 148
  | OTHER_SPECIFIED_ENTERTAINMENT_OR_CULTURE => 149 | RESTING_TIME_OUT => 150
  | UNSPECIFIED_SPORTS_AND_OUTDOOR_ACTIVITIES => 151 | UNSPECIFIED_PHYSICAL_EXERCISE => 152
  | WALKING_AND_HIKING => 153
  | TAKING_A_WALK_OR_HIKE_THAT_LASTS_AT_LEAST_2_MILES_OR_1_HOUR => 154
  | OTHER_WALK_OR_HIKE => 155 | JOGGING_AND_RUNNING => 156 | BIKING__SKIING_AND_SKATING => 157
  | BIKING => 158 | SKIING_OR_SKATING => 159 | UNSPECIFIED_BALL_GAMES => 160
  | INDOOR_PAIRS_OR_DOUBLES_GAMES => 161 | INDOOR_TEAM_GAMES => 162
  | OUTDOOR_PAIRS_OR_DOUBLES_GAMES => 163 | OUTDOOR_TEAM_GAMES => 164
  | OTHER_SPECIFIED_BALL_GAMES => 165 | GYMNASTICS => 166 | FITNESS => 167
  | UNSPECIFIED_WATER_SPORTS => 168 | SWIMMING => 169 | OTHER_SPECIFIED_WATER_SPORTS => 170
  | OTHER_SPECIFIED_PHYSICAL_EXERCISE => 171 | UNSPECIFIED_PRODUCTIVE_EXERCISE => 172
  | HUNTING_AND_FISHING => 173 | PICKING_BERRIES__MUSHROOM_AND_HERBS => 174
  | OTHER_SPECIFIED_PRODUCTIVE_EXERCISE => 175 | UNSPECIFIED_SPORTS_RELATED_ACTIVITIES => 176
  | ACTIVITIES_RELATED_TO_SPORTS => 177 | ACTIVITIES_RELATED_TO_PRODUCTIVE_EXERCISE => 178
  | UNSPECIFIED_HOBBIES_AND_GAMES => 179 | UNSPECIFIED_ARTS => 180
  | UNSPECIFIED_VISUAL_ARTS => 181 | PAINTING__DRAWING_OR_OTHER_GRAPHIC_ARTS => 182
  | MAKING_VIDEOS__TAKING_PHOTOS_OR_RELATED_ACTIVITIES => 183
  | OTHER_SPECIFIED_VISUAL_ARTS => 184 | UNSPECIFIED_PERFORMING_ARTS => 185
  | SINGING_OR_OTHER_MUSICAL_ACTIVITIES => 186 | OTHER_SPECIFIED_PERFORMING_ARTS => 187
  | LITERARY_ARTS => 188 | OTHER_SPECIFIED_ARTS => 189 | UNSPECIFIED_HOBBIES => 190
  | COLLECTING => 191 | COMPUTING_PROGRAMMING => 192
  | UNSPECIFIED_INFORMATION_BY_COMPUTING => 193 | INFORMATION_SEARCHING_ON_THE_INTERNET => 194
  | OTHER_SPECIFIED_INFORMATION_BY_COMPUTING => 195
  | UNSPECIFIED_COMMUNICATION_BY_COMPUTER => 196 | COMMUNICATION_ON_THE_INTERNET => 197
  | OTHER_SPECIFIED_COMMUNICATION_BY_COMPUTING => 198 | UNSPECIFIED_OTHER_COMPUTING => 199
  | UNSPECIFIED_INTERNET_USE => 200 | OTHER_SPECIFIED_COMPUTING => 201 | CORRESPONDENCE => 202
  | OTHER_SPECIFIED_HOBBIES => 203 | UNSPECIFIED_GAMES => 204 | SOLO_GAMES_AND_PLAY => 205
  | UNSPECIFIED_GAMES_AND_PLAY_WITH_OTHERS => 206 | BILLIARDS__POOL__SNOOKER_OR_PETANQUE => 207
  | CHESS_AND_BRIDGE => 208 | OTHER_SPECIFIED_PARLOUR_GAMES_AND_PLAY => 209
  | COMPUTER_GAMES => 210 | GAMBLING => 211 | OTHER_SPECIFIED_GAMES => 212
  | UNSPECIFIED_MASS_MEDIA => 213 | UNSPECIFIED_READING => 214 | READING_PERIODICALS => 215
  | READING_BOOKS => 216 | OTHER_SPECIFIED_READING => 217 | UNSPECIFIED_TV_WATCHING => 218
  | WATCHING_A_FILM_ON_TV => 219 | WATCHING_SPORT_ON_TV => 220
  | OTHER_SPECIFIED_TV_WATCHING => 221 | UNSPECIFIED_VIDEO_WATCHING => 222
  | WATCHING_A_FILM_ON_VIDEO => 223 | WATCHING_SPORT_ON_VIDEO => 224
  | OTHER_SPECIFIED_VIDEO_WATCHING => 225 | UNSPECIFIED_LISTENING_TO_RADIO_AND_MUSIC => 226
  | UNSPECIFIED_RADIO_LISTENING => 227 | LISTENING_TO_MUSIC_ON_THE_RADIO => 228
  | LISTENING_TO_SPORT_ON_THE_RADIO => 229 | OTHER_SPECIFIED_RADIO_LISTENING => 230
  | LISTENING_TO_RECORDINGS => 231 | TRAVEL_RELATED_TO_UNSPECIFIED_TIME_USE => 232
  | TRAVEL_RELATED_TO_PERSONAL_BUSINESS => 233 | TRAVEL_IN_THE_COURSE_OF_WORK => 234
  | TRAVEL_TO_WORK_FROM_HOME_AND_BACK_ONLY => 235
  | TRAVEL_TO_WORK_FROM_A_PLACE_OTHER_THAN_HOME => 236 | TRAVEL_RELATED_TO_EDUCATION => 237
  | TRAVEL_ESCORTING_TO_FROM_EDUCATION => 238 | TRAVEL_RELATED_TO_HOUSEHOLD_CARE => 239
  | TRAVEL_RELATED_TO_SHOPPING => 240 | TRAVEL_RELATED_TO_SERVICES => 241
  | TRAVEL_ESCORTING_A_CHILD_OTHER_THAN_EDUCATION => 242
  | TRAVEL_ESCORTING_AN_ADULT_OTHER_THAN_EDUCATION => 243
  | TRAVEL_RELATED_TO_ORGANISATIONAL_WORK => 244
  | TRAVEL_RELATED_TO_INFORMAL_HELP_TO_OTHER_HOUSEHOLDS => 245
  | TRAVEL_RELATED_TO_RELIGIOUS_ACTIVITIES => 246
  | TRAVEL_RLT_TO_PARTICIPATORY_ACTV_EXCEPT_REL_ACTV => 247
  | TRAVEL_TO_VISIT_FRIENDS_RELATIVES_IN_THEIR_HOMES => 248
  | TRAVEL_RELATED_TO_OTHER_SOCIAL_ACTIVITIES => 249
  | TRAVEL_RELATED_TO_ENTERTAINMENT_AND_CULTURE => 250
  | TRAVEL_RELATED_TO_PHYSICAL_EXERCISE => 251 | TRAVEL_RELATED_TO_HUNTING_AND_FISHING => 252
  | TRAVEL_RELATED_TO_PRODUCTIVE_EXCS_EXPT_HUNTING_AND_FISHING => 253
  | TRAVEL_RELATED_TO_GAMBLING => 254 | TRAVEL_RELATED_TO_HOBBIES_OTHER_THAN_GAMBLING => 255
  | TRAVEL_TO_HOLIDAY_BASE => 256 | TRAVEL_FOR_DAY_TRIP_JUST_WALK => 257
  | OTHER_SPECIFIED_TRAVEL => 258 | PUNCTUATING_ACTIVITY => 259
  | FILLING_IN_THE_TIME_USE_DIARY => 260 | NO_MAIN_ACTIVITY__NO_IDEA_WHAT_IT_MIGHT_BE => 261
  | NO_MAIN_ACTIVITY__SOME_IDEA_WHAT_IT_MIGHT_BE => 262 | ILLEGIBLE_ACTIVITY => 263
  | UNSPECIFIED_TIME_USE => 264 | MISSING1 => 265
  end.

Lemma ACT1_001_members_ordinal (x : t) : members !! ordinal x = Some x.
Proof. by destruct x. Qed.

#[global] Instance eq_dec : EqDecision t :=
  enum_eq_dec ordinal members ACT1_001_members_ordinal.

#[global] Instance countable : Countable t :=
  inj_countable ordinal (λ n, members !! n) ACT1_001_members_ordinal.

End ACT1_001.

End diary.

Module individual.

Module ECONACT2.

Inductive t : Set :=
| ECON_ACTIVE___EMPLOYEE___FULL_TIME | ECON_INACTIVE___LONG_TERM_SICK_DISABLED
| ECON_INACTIVE___OTHER_REASONS_EG_TEMP_SICK__BELIEVES_NO_JOBS | ECON_INACTIVE___DK_REASONS
| ADULT___NOT_CLASSIFIABLE_EITHER_EMP__UNEMP_OR_INACTIVE
| UNDER_16YRS___INELIGIBLE_FOR_EMPLOYMENT_QUESTIONS | ECON_ACTIVE___EMPLOYEE___PART_TIME
| ECON_ACTIVE___SELF_EMPLOYED___FULL_TIME | ECON_ACTIVE___SELF_EMPLOYED___PART_TIME
| ECON_ACTIVE___DK_EMPSELFFULLPART | ECON_ACTIVE___UNEMPLOYED_ILO_DEFINITION
| ECON_INACTIVE___RETIRED | ECON_INACTIVE___FULL_TIME_STUDENT
| ECON_INACTIVE___LOOKING_AFTER_FAMILY_HOME
.

Definition members : list t :=
  [ECON_ACTIVE___EMPLOYEE___FULL_TIME; ECON_INACTIVE___LONG_TERM_SICK_DISABLED;
  ECON_INACTIVE___OTHER_REASONS_EG_TEMP_SICK__BELIEVES_NO_JOBS; ECON_INACTIVE___DK_REASONS;
  ADULT___NOT_CLASSIFIABLE_EITHER_EMP__UNEMP_OR_INACTIVE;
  UNDER_16YRS___INELIGIBLE_FOR_EMPLOYMENT_QUESTIONS; ECON_ACTIVE___EMPLOYEE___PART_TIME;
  ECON_ACTIVE___SELF_EMPLOYED___FULL_TIME; ECON_ACTIVE___SELF_EMPLOYED___PART_TIME;
  ECON_ACTIVE___DK_EMPSELFFULLPART; ECON_ACTIVE___UNEMPLOYED_ILO_DEFINITION;
  ECON_INACTIVE___RETIRED; ECON_INACTIVE___FULL_TIME_STUDENT;
  ECON_INACTIVE___LOOKING_AFTER_FAMILY_HOME].

Definition ordinal (x : t) : nat :=
  match x with
  | ECON_ACTIVE___EMPLOYEE___FULL_TIME => 0 | ECON_INACTIVE___LONG_TERM_SICK_DISABLED => 1
  | ECON_INACTIVE___OTHER_REASONS_EG_TEMP_SICK__BELIEVES_NO_JOBS => 2
  | ECON_INACTIVE___DK_REASONS => 3
  | ADULT___NOT_CLASSIFIABLE_EITHER_EMP__UNEMP_OR_INACTIVE => 4
  | UNDER_16YRS___INELIGIBLE_FOR_EMPLOYMENT_QUESTIONS => 5
  | ECON_ACTIVE___EMPLOYEE___PART_TIME => 6 | ECON_ACTIVE___SELF_EMPLOYED___FULL_TIME => 7
  | ECON_ACTIVE___SELF_EMPLOYED___PART_TIME => 8 | ECON_ACTIVE___DK_EMPSELFFULLPART => 9
  | ECON_ACTIVE___UNEMPLOYED_ILO_DEFINITION => 10 | ECON_INACTIVE___RETIRED => 11
  | ECON_INACTIVE___FULL_TIME_STUDENT => 12 | ECON_INACTIVE___LOOKING_AFTER_FAMILY_HOME => 13
  end.

Lemma ECONACT2_members_ordinal (x : t) : members !! ordinal x = Some x.
Proof. by destruct x. Qed.

#[global] Instance eq_dec : EqDecision t :=
  enum_eq_dec ordinal members ECONACT2_members_ordinal.

#[global] Instance countable : Countable t :=
  inj_countable ordinal (λ n, members !! n) ECONACT2_members_ordinal.

End ECONACT2.

Module HIQUAL4.

Inductive t : Set :=
| DEGREE_LEVEL_QUALIFICATION_OR_ABOVE | QUALIFICATIONS___CITY_AND_GUILDS___DK_LEVEL
| QUALIFICATIONS___OTHER___BUT_DK_GRADELEVEL | NO_QUALIFICATIONS | ELIGIBLE___NO_ANSWER
| UNDER_16YRS___INELIGIBLE_FOR_QUALIFICATIONS_QUESTIONS
| HIGHER_EDN_BELOW_DEGREE_LEVEL_EG_HNC__NURSING_QUAL
| A_LEVELS__VOCATIONAL_LEVEL_3_AND_EQUIVLNT_EG_AS_LEVEL__NVQ_3
| O_LEVELS__GCSE_GRADE_A_C__VOCATIONAL_LEVEL_2_AND_EQUIVLNT
| GCSE_BELOW_GRADE_C__CSE__VOCATIONAL_LEVEL_1_AND_EQUIVLNT
| QUALIFICATION_BELOW_GCSEO_LEVEL_EG_TRADE_APPRENTICESHIPS
| OTHER_QUALIFICATION_INCL_PROFESSIONAL__VOCATIONAL__FOREIGN | QUALIFICATIONS___BUT_DK_WHICH
| QUALIFICATIONS___GCSE___BUT_DK_GRADE
.

Definition members : list t :=
  [DEGREE_LEVEL_QUALIFICATION_OR_ABOVE; QUALIFICATIONS___CITY_AND_GUILDS___DK_LEVEL;
  QUALIFICATIONS___OTHER___BUT_DK_GRADELEVEL; NO_QUALIFICATIONS; ELIGIBLE___NO_ANSWER;
  UNDER_16YRS___INELIGIBLE_FOR_QUALIFICATIONS_QUESTIONS;
  HIGHER_EDN_BELOW_DEGREE_LEVEL_EG_HNC__NURSING_QUAL;
  A_LEVELS__VOCATIONAL_LEVEL_3_AND_EQUIVLNT_EG_AS_LEVEL__NVQ_3;
  O_LEVELS__GCSE_GRADE_A_C__VOCATIONAL_LEVEL_2_AND_EQUIVLNT;
  GCSE_BELOW_GRADE_C__CSE__VOCATIONAL_LEVEL_1_AND_EQUIVLNT;
  QUALIFICATION_BELOW_GCSEO_LEVEL_EG_TRADE_APPRENTICESHIPS;
  OTHER_QUALIFICATION_INCL_PROFESSIONAL__VOCATIONAL__FOREIGN; QUALIFICATIONS___BUT_DK_WHICH;
  QUALIFICATIONS___GCSE___BUT_DK_GRADE].

Definition ordinal (x : t) : nat :=
  match x with
  | DEGREE_LEVEL_QUALIFICATION_OR_ABOVE => 0 | QUALIFICATIONS___CITY_AND_GUILDS___DK_LEVEL => 1
  | QUALIFICATIONS___OTHER___BUT_DK_GRADELEVEL => 2 | NO_QUALIFICATIONS => 3
  | ELIGIBLE___NO_ANSWER => 4 | UNDER_16YRS___INELIGIBLE_FOR_QUALIFICATIONS_QUESTIONS => 5
  | HIGHER_EDN_BELOW_DEGREE_LEVEL_EG_HNC__NURSING_QUAL => 6
  | A_LEVELS__VOCATIONAL_LEVEL_3_AND_EQUIVLNT_EG_AS_LEVEL__NVQ_3 => 7
  | O_LEVELS__GCSE_GRADE_A_C__VOCATIONAL_LEVEL_2_AND_EQUIVLNT => 8
  | GCSE_BELOW_GRADE_C__CSE__VOCATIONAL_LEVEL_1_AND_EQUIVLNT => 9
  | QUALIFICATION_BELOW_GCSEO_LEVEL_EG_TRADE_APPRENTICESHIPS => 10
  | OTHER_QUALIFICATION_INCL_PROFESSIONAL__VOCATIONAL__FOREIGN => 11
  | QUALIFICATIONS___BUT_DK_WHICH => 12 | QUALIFICATIONS___GCSE___BUT_DK_GRADE => 13
  end.

Lemma HIQUAL4_members_ordinal (x : t) : members !! ordinal x = Some x.
Proof. by destruct x. Qed.

#[global] Instance eq_dec : EqDecision t :=
  enum_eq_dec ordinal members HIQUAL4_members_ordinal.

#[global] Instance countable : Countable t :=
  inj_countable ordinal (λ n, members !! n) HIQUAL4_members_ordinal.

End HIQUAL4.

Module HHTYPE4.

Inductive t : Set :=
| SINGLE_PERSON_HOUSEHOLD | SINGLE_PARENT___WITH_CHILDREN_GREATEREQUAL_16
| TWO_OR_MORE_COUPLES_MARRIED_OR_COHAB_WITHWITHOUT_CHILDRN
| SAME_SEX_COUPLES___SPONTANEOUSLY_DESCRIBED | UNCLASSIFIED___MARRIED_COUPLES_IN_COMPLEX_HHLDS
| UNCLASSIFIED___COHABITING_COUPLES_IN_COMPLEX_HHLDS
| UNCLASSIFIED___SINGLE_PARENTS_IN_COMPLEX_HHLDS
| UNCLASSIFIED___OTHER_HHLDS_WITHOUT_COUPLES_EG_BROTHERS_DK
| HHLDS_WITH_2_OR_MORE_UNRELATED_PEOPLE_ONLY | MARRIED_COUPLE___NO_CHILDREN_COUPLE_ONLY
| MARRIED_COUPLE___WITH_CHILDREN_SMALLEREQUAL_15
| MARRIED_COUPLE___WITH_CHILDREN_GREATEREQUAL_16 | COHAB_COUPLE___NO_CHILDREN_COUPLE_ONLY
| COHAB_COUPLE___WITH_CHILDREN_SMALLEREQUAL_15 | COHAB_COUPLE___WITH_CHILDREN_GREATEREQUAL_16
| SINGLE_PARENT____WITH_CHILDREN_SMALLEREQUAL_15
.

Definition members : list t :=
  [SINGLE_PERSON_HOUSEHOLD; SINGLE_PARENT___WITH_CHILDREN_GREATEREQUAL_16;
  TWO_OR_MORE_COUPLES_MARRIED_OR_COHAB_WITHWITHOUT_CHILDRN;
  SAME_SEX_COUPLES___SPONTANEOUSLY_DESCRIBED;
  UNCLASSIFIED___MARRIED_COUPLES_IN_COMPLEX_HHLDS;
  UNCLASSIFIED___COHABITING_COUPLES_IN_COMPLEX_HHLDS;
  UNCLASSIFIED___SINGLE_PARENTS_IN_COMPLEX_HHLDS;
  UNCLASSIFIED___OTHER_HHLDS_WITHOUT_COUPLES_EG_BROTHERS_DK;
  HHLDS_WITH_2_OR_MORE_UNRELATED_PEOPLE_ONLY; MARRIED_COUPLE___NO_CHILDREN_COUPLE_ONLY;
  MARRIED_COUPLE___WITH_CHILDREN_SMALLEREQUAL_15;
  MARRIED_COUPLE___WITH_CHILDREN_GREATEREQUAL_16; COHAB_COUPLE___NO_CHILDREN_COUPLE_ONLY;
  COHAB_COUPLE___WITH_CHILDREN_SMALLEREQUAL_15; COHAB_COUPLE___WITH_CHILDREN_GREATEREQUAL_16;
  SINGLE_PARENT____WITH_CHILDREN_SMALLEREQUAL_15].

Definition ordinal (x : t) : nat :=
  match x with
  | SINGLE_PERSON_HOUSEHOLD => 0 | SINGLE_PARENT___WITH_CHILDREN_GREATEREQUAL_16 => 1
  | TWO_OR_MORE_COUPLES_MARRIED_OR_COHAB_WITHWITHOUT_CHILDRN => 2
  | SAME_SEX_COUPLES___SPONTANEOUSLY_DESCRIBED => 3
  | UNCLASSIFIED___MARRIED_COUPLES_IN_COMPLEX_HHLDS => 4
  | UNCLASSIFIED___COHABITING_COUPLES_IN_COMPLEX_HHLDS => 5
  | UNCLASSIFIED___SINGLE_PARENTS_IN_COMPLEX_HHLDS => 6
  | UNCLASSIFIED___OTHER_HHLDS_WITHOUT_COUPLES_EG_BROTHERS_DK => 7
  | HHLDS_WITH_2_OR_MORE_UNRELATED_PEOPLE_ONLY => 8
  | MARRIED_COUPLE___NO_CHILDREN_COUPLE_ONLY => 9
  | MARRIED_COUPLE___WITH_CHILDREN_SMALLEREQUAL_15 => 10
  | MARRIED_COUPLE___WITH_CHILDREN_GREATEREQUAL_16 => 11
  | COHAB_COUPLE___NO_CHILDREN_COUPLE_ONLY => 12
  | COHAB_COUPLE___WITH_CHILDREN_SMALLEREQUAL_15 => 13
  | COHAB_COUPLE___WITH_CHILDREN_GREATEREQUAL_16 => 14
  | SINGLE_PARENT____WITH_CHILDREN_SMALLEREQUAL_15 => 15
  end.

Lemma HHTYPE4_members_ordinal (x : t) : members !! ordinal x = Some x.
Proof. by destruct x. Qed.

#[global] Instance eq_dec : EqDecision t :=
  enum_eq_dec ordinal members HHTYPE4_members_ordinal.

#[global] Instance countable : Countable t :=
  inj_countable ordinal (λ n, members !! n) HHTYPE4_members_ordinal.

End HHTYPE4.

Module CHILD.

Inductive t : Set :=
| YES | NO
.

Definition members : list t :=
  [YES; NO].

Definition ordinal (x : t) : nat :=
  match x with
  | YES => 0 | NO => 1
  end.

Lemma CHILD_members_ordinal (x : t) : members !! ordinal x = Some x.
Proof. by destruct x. Qed.

#[global] Instance eq_dec : EqDecision t :=
  enum_eq_dec ordinal members CHILD_members_ordinal.

#[global] Instance countable : Countable t :=
  inj_countable ordinal (λ n, members !! n) CHILD_members_ordinal.

End CHILD.

Module PROVCARE.

Inductive t : Set :=
| YES | NO | DKREFUSE
.

Definition members : list t :=
  [YES; NO; DKREFUSE].

Definition ordinal (x : t) : nat :=
  match x with
  | YES => 0 | NO => 1 | DKREFUSE => 2
  end.

Lemma PROVCARE_members_ordinal (x : t) : members !! ordinal x = Some x.
Proof. by destruct x. Qed.

#[global] Instance eq_dec : EqDecision t :=
  enum_eq_dec ordinal members PROVCARE_members_ordinal.

#[global] Instance countable : Countable t :=
  inj_countable ordinal (λ n, members !! n) PROVCARE_members_ordinal.

End PROVCARE.

Module TOTPINC.

Inductive t : Set :=
| INELIGIBLE___UNDER_16YRS | INELIGIBLE___NOT_CURRENTLY_EMPLOYED_SELF_EMPLOYED
| _TOTPINC_____________LESS_THAN_GBP__215 | GBP4580_TO_LESS_THAN_GBP6670 | GBP6670_OR_MORE
| ELIGIBLE_CURRENT_EMPLOYEE_OR_SELF_EMP___DK_REFUSE_INCOME | GBP__215_TO_LESS_THAN_GBP__435
| GBP__435_TO_LESS_THAN_GBP__870 | GBP__870_TO_LESS_THAN_GBP1305 | GBP1305_TO_LESS_THAN_GBP1740
| GBP1740_TO_LESS_THAN_GBP2820 | GBP2820_TO_LESS_THAN_GBP3420 | GBP3420_TO_LESS_THAN_GBP3830
| GBP3830_TO_LESS_THAN_GBP4580
.

Definition members : list t :=
  [INELIGIBLE___UNDER_16YRS; INELIGIBLE___NOT_CURRENTLY_EMPLOYED_SELF_EMPLOYED;
  _TOTPINC_____________LESS_THAN_GBP__215; GBP4580_TO_LESS_THAN_GBP6670; GBP6670_OR_MORE;
  ELIGIBLE_CURRENT_EMPLOYEE_OR_SELF_EMP___DK_REFUSE_INCOME; GBP__215_TO_LESS_THAN_GBP__435;
  GBP__435_TO_LESS_THAN_GBP__870; GBP__870_TO_LESS_THAN_GBP1305;
  GBP1305_TO_LESS_THAN_GBP1740; GBP1740_TO_LESS_THAN_GBP2820; GBP2820_TO_LESS_THAN_GBP3420;
  GBP3420_TO_LESS_THAN_GBP3830; GBP3830_TO_LESS_THAN_GBP4580].

Definition ordinal (x : t) : nat :=
  match x with
  | INELIGIBLE___UNDER_16YRS => 0 | INELIGIBLE___NOT_CURRENTLY_EMPLOYED_SELF_EMPLOYED => 1
  | _TOTPINC_____________LESS_THAN_GBP__215 => 2 | GBP4580_TO_LESS_THAN_GBP6670 => 3
  | GBP6670_OR_MORE => 4 | ELIGIBLE_CURRENT_EMPLOYEE_OR_SELF_EMP___DK_REFUSE_INCOME => 5
  | GBP__215_TO_LESS_THAN_GBP__435 => 6 | GBP__435_TO_LESS_THAN_GBP__870 => 7
  | GBP__870_TO_LESS_THAN_GBP1305 => 8 | GBP1305_TO_LESS_THAN_GBP1740 => 9
  | GBP1740_TO_LESS_THAN_GBP2820 => 10 | GBP2820_TO_LESS_THAN_GBP3420 => 11
  | GBP3420_TO_LESS_THAN_GBP3830 => 12 | GBP3830_TO_LESS_THAN_GBP4580 => 13
  end.

Lemma TOTPINC_members_ordinal (x : t) : members !! ordinal x = Some x.
Proof. by destruct x. Qed.

#[global] Instance eq_dec : EqDecision t :=
  enum_eq_dec ordinal members TOTPINC_members_ordinal.

#[global] Instance countable : Countable t :=
  inj_countable ordinal (λ n, members !! n) TOTPINC_members_ordinal.

End TOTPINC.

Module POP_DEN2.

Inductive t : Set :=
| MISSING | _POP_DEN2____0______249 | _250______999 | N1000___1999 | N2000___2999
| N3000___3999 | N4000___4999 | N5000_OR_MORE_MAX_WAS_JUST_OVER_10_000
.

Definition members : list t :=
  [MISSING; _POP_DEN2____0______249; _250______999; N1000___1999; N2000___2999; N3000___3999;
  N4000___4999; N5000_OR_MORE_MAX_WAS_JUST_OVER_10_000].

Definition ordinal (x : t) : nat :=
  match x with
  | MISSING => 0 | _POP_DEN2____0______249 => 1 | _250______999 => 2 | N1000___1999 => 3
  | N2000___2999 => 4 | N3000___3999 => 5 | N4000___4999 => 6
  | N5000_OR_MORE_MAX_WAS_JUST_OVER_10_000 => 7
  end.

Lemma POP_DEN2_members_ordinal (x : t) : members !! ordinal x = Some x.
Proof. by destruct x. Qed.

#[global] Instance eq_dec : EqDecision t :=
  enum_eq_dec ordinal members POP_DEN2_members_ordinal.

#[global] Instance countable : Countable t :=
  inj_countable ordinal (λ n, members !! n) POP_DEN2_members_ordinal.

End POP_DEN2.

Module GORPAF.

Inductive t : Set :=
| NORTH_EAST | WALES | SCOTLAND | NORTHERN_IRELAND | NORTH_WEST_INCL_MERSEYSIDE
| YORKSHIRE_AND_HUMBERSIDE | EAST_MIDLANDS | WEST_MIDLANDS | EASTERN | LONDON
| SOUTH_EAST_EXCL_LONDON | SOUTH_WEST
.

Definition members : list t :=
  [NORTH_EAST; WALES; SCOTLAND; NORTHERN_IRELAND; NORTH_WEST_INCL_MERSEYSIDE;
  YORKSHIRE_AND_HUMBERSIDE; EAST_MIDLANDS; WEST_MIDLANDS; EASTERN; LONDON;
  SOUTH_EAST_EXCL_LONDON; SOUTH_WEST].

Definition ordinal (x : t) : nat :=
  match x with
  | NORTH_EAST => 0 | WALES => 1 | SCOTLAND => 2 | NORTHERN_IRELAND => 3
  | NORTH_WEST_INCL_MERSEYSIDE => 4 | YORKSHIRE_AND_HUMBERSIDE => 5 | EAST_MIDLANDS => 6
  | WEST_MIDLANDS => 7 | EASTERN => 8 | LONDON => 9 | SOUTH_EAST_EXCL_LONDON => 10
  | SOUTH_WEST => 11
  end.

Lemma GORPAF_members_ordinal (x : t) : members !! ordinal x = Some x.
Proof. by destruct x. Qed.

#[global] Instance eq_dec : EqDecision t :=
  enum_eq_dec ordinal members GORPAF_members_ordinal.

#[global] Instance countable : Countable t :=
  inj_countable ordinal (λ n, members !! n) GORPAF_members_ordinal.

End GORPAF.

End individual.

Module household.

Module HQ13A.

Inductive t : Set :=
| A_HOUSE_OR_BUNGALOW | A_FLAT_OR_MAISONETTE | OTHER | MISSING1 | A_ROOMROOMS
.

Definition members : list t :=
  [A_HOUSE_OR_BUNGALOW; A_FLAT_OR_MAISONETTE; OTHER; MISSING1; A_ROOMROOMS].

Definition ordinal (x : t) : nat :=
  match x with
  | A_HOUSE_OR_BUNGALOW => 0 | A_FLAT_OR_MAISONETTE => 1 | OTHER => 2 | MISSING1 => 3
  | A_ROOMROOMS => 4
  end.

Lemma HQ13A_members_ordinal (x : t) : members !! ordinal x = Some x.
Proof. by destruct x. Qed.

#[global] Instance eq_dec : EqDecision t :=
  enum_eq_dec ordinal members HQ13A_members_ordinal.

#[global] Instance countable : Countable t :=
  inj_countable ordinal (λ n, members !! n) HQ13A_members_ordinal.

End HQ13A.

Module HQ13B.

Inductive t : Set :=
| DETACHED | SEMI_DETACHED | OR_TERRACEEND_OF_TERRACE
.

Definition members : list t :=
  [DETACHED; SEMI_DETACHED; OR_TERRACEEND_OF_TERRACE].

Definition ordinal (x : t) : nat :=
  match x with
  | DETACHED => 0 | SEMI_DETACHED => 1 | OR_TERRACEEND_OF_TERRACE => 2
  end.

Lemma HQ13B_members_ordinal (x : t) : members !! ordinal x = Some x.
Proof. by destruct x. Qed.

#[global] Instance eq_dec : EqDecision t :=
  enum_eq_dec ordinal members HQ13B_members_ordinal.

#[global] Instance countable : Countable t :=
  inj_countable ordinal (λ n, members !! n) HQ13B_members_ordinal.

End HQ13B.

Module HQ13C.

Inductive t : Set :=
| A_PURPOSE_BUILT_BLOCK | A_CONVERTED_HOUSESOME_OTHER_KIND_OF_BUILDING
.

Definition members : list t :=
  [A_PURPOSE_BUILT_BLOCK; A_CONVERTED_HOUSESOME_OTHER_KIND_OF_BUILDING].

Definition ordinal (x : t) : nat :=
  match x with
  | A_PURPOSE_BUILT_BLOCK => 0 | A_CONVERTED_HOUSESOME_OTHER_KIND_OF_BUILDING => 1
  end.

Lemma HQ13C_members_ordinal (x : t) : members !! ordinal x = Some x.
Proof. by destruct x. Qed.

#[global] Instance eq_dec : EqDecision t :=
  enum_eq_dec ordinal members HQ13C_members_ordinal.

#[global] Instance countable : Countable t :=
  inj_countable ordinal (λ n, members !! n) HQ13C_members_ordinal.

End HQ13C.

Module HQ13D.

Inductive t : Set :=
| A_CARAVAN__MOBILE_HOME_OR_HOUSEBOAT | SOME_OTHER_KIND_OF_ACCOMMODATION
.

Definition members : list t :=
  [A_CARAVAN__MOBILE_HOME_OR_HOUSEBOAT; SOME_OTHER_KIND_OF_ACCOMMODATION].

Definition ordinal (x : t) : nat :=
  match x with
  | A_CARAVAN__MOBILE_HOME_OR_HOUSEBOAT => 0 | SOME_OTHER_KIND_OF_ACCOMMODATION => 1
  end.

Lemma HQ13D_members_ordinal (x : t) : members !! ordinal x = Some x.
Proof. by destruct x. Qed.

#[global] Instance eq_dec : EqDecision t :=
  enum_eq_dec ordinal members HQ13D_members_ordinal.

#[global] Instance countable : Countable t :=
  inj_countable ordinal (λ n, members !! n) HQ13D_members_ordinal.

End HQ13D.

End household.

(** ** The mapping tables of [tus.py]

    Each table is given by the items of its dict literal, in source
    order, and the dict that the literal evaluates to. *)

Definition LOCATION_MAP_items : list (pyval diary.WHER_001.t * pyval Location.t) :=
  [(Val diary.WHER_001.MAIN_ACTVTY_EQUAL_SLEEPWORKSTUDY___NO_CODE_REQUIRED, Val Location.IMPLICIT);
   (Val diary.WHER_001._MISSING, NaN);
   (Val diary.WHER_001.MISSING2, NaN);
   (Val diary.WHER_001._UNSPECIFIED_LOCATION, NaN);
   (Val diary.WHER_001._UNSPECIFIED_LOCATION_NOT_TRAVELLING, NaN);
   (Val diary.WHER_001._HOME, Val Location.HOME);
   (Val diary.WHER_001._SECOND_HOME_OR_WEEKEND_HOUSE, Val Location.OTHER_HOME);
   (Val diary.WHER_001._WORKING_PLACE_OR_SCHOOL, Val Location.WORK_OR_SCHOOL);
   (Val diary.WHER_001._OTHER_PEOPLE_S_HOME, Val Location.OTHER_HOME);
   (Val diary.WHER_001._RESTAURANT__CAFÉ_OR_PUB, Val Location.RESTO);
   (Val diary.WHER_001._SPORTS_FACILITY, Val Location.SPORTS_FACILITY);
   (Val diary.WHER_001._WHER_001__ARTS_OR_CULTURAL_CENTRE, Val Location.ARTS_OR_CULTURAL_CENTRE);
   (Val diary.WHER_001._THE_COUNTRY_COUNTRYSIDE__SEASIDE__BEACH_OR_COAST, Val Location.OUTSIDE);
   (Val diary.WHER_001._OTHER_SPECIFIED_LOCATION_NOT_TRAVELLING, NaN);
   (Val diary.WHER_001._UNSPECIFIED_PRIVATE_TRANSPORT_MODE, Val Location.TRAVELLING);
   (Val diary.WHER_001._TRAVELLING_ON_FOOT, Val Location.TRAVELLING);
   (Val diary.WHER_001._TRAVELLING_BY_BICYCLE, Val Location.TRAVELLING);
   (Val diary.WHER_001._TRAVELLING_BY_MOPED__MOTORCYCLE_OR_MOTORBOAT, Val Location.TRAVELLING);
   (Val diary.WHER_001._TRAVELLING_BY_PASSENGER_CAR_AS_THE_DRIVER, Val Location.TRAVELLING);
   (Val diary.WHER_001._TRAVELLING_BY_PASSENGER_CAR_AS_A_PASSENGER, Val Location.TRAVELLING);
   (Val diary.WHER_001._TRAVELLING_BY_PASSENGER_CAR_DRIVER_STATUS_UNSPECIFIED, Val Location.TRAVELLING);
   (Val diary.WHER_001._TRAVELLING_BY_LORRY__OR_TRACTOR, Val Location.TRAVELLING);
   (Val diary.WHER_001._TRAVELLING_BY_VAN, Val Location.TRAVELLING);
   (Val diary.WHER_001._OTHER_SPECIFIED_PRIVATE_TRAVELLING_MODE, Val Location.TRAVELLING);
   (Val diary.WHER_001._UNSPECIFIED_PUBLIC_TRANSPORT_MODE, Val Location.TRAVELLING);
   (Val diary.WHER_001._TRAVELLING_BY_TAXI, Val Location.TRAVELLING);
   (Val diary.WHER_001._TRAVELLING_BY_BUS, Val Location.TRAVELLING);
   (Val diary.WHER_001._TRAVELLING_BY_TRAM_OR_UNDERGROUND, Val Location.TRAVELLING);
   (Val diary.WHER_001._TRAVELLING_BY_TRAIN, Val Location.TRAVELLING);
   (Val diary.WHER_001._TRAVELLING_BY_AEROPLANE, Val Location.TRAVELLING);
   (Val diary.WHER_001._TRAVELLING_BY_BOAT_OR_SHIP, Val Location.TRAVELLING);
   (Val diary.WHER_001._WHER_001__TRAVELLING_BY_COACH, Val Location.TRAVELLING);
   (Val diary.WHER_001._WAITING_FOR_PUBLIC_TRANSPORT, Val Location.TRAVELLING);
   (Val diary.WHER_001._OTHER_SPECIFIED_PUBLIC_TRANSPORT_MODE, Val Location.TRAVELLING);
   (Val diary.WHER_001._UNSPECIFIED_TRANSPORT_MODE, Val Location.TRAVELLING);
   (Val diary.WHER_001._ILLEGIBLE_LOCATION_OR_TRANSPORT_MODE, NaN)].

Definition LOCATION_MAP : gmap (pyval diary.WHER_001.t) (pyval Location.t) := dict LOCATION_MAP_items.

Definition ACTIVITY_MAP_items : list (pyval diary.ACT1_001.t * pyval Activity.t) :=
  [(Val diary.ACT1_001.UNSPECIFIED_PERSONAL_CARE, Val Activity.OTHER);
   (Val diary.ACT1_001.UNSPECIFIED_SLEEP, Val Activity.SLEEP);
   (Val diary.ACT1_001.SLEEP, Val Activity.SLEEP);
   (Val diary.ACT1_001.SICK_IN_BED, Val Activity.SLEEP);
   (Val diary.ACT1_001.EATING, Val Activity.OTHER);
   (Val diary.ACT1_001.UNSPECIFIED_OTHER_PERSONAL_CARE, Val Activity.OTHER);
   (Val diary.ACT1_001.WASH_AND_DRESS, Val Activity.OTHER);
   (Val diary.ACT1_001.OTHER_SPECIFIED_PERSONAL_CARE, Val Activity.OTHER);
   (Val diary.ACT1_001.UNSPECIFIED_EMPLOYMENT, Val Activity.WORK_OR_STUDY);
   (Val diary.ACT1_001.WORKING_TIME_IN_MAIN_JOB, Val Activity.WORK_OR_STUDY);
   (Val diary.ACT1_001.COFFEE_AND_OTHER_BREAKS_IN_MAIN_JOB, Val Activity.OTHER);
   (Val diary.ACT1_001.WORKING_TIME_IN_SECOND_JOB, Val Activity.WORK_OR_STUDY);
   (Val diary.ACT1_001.COFFEE_AND_OTHER_BREAKS_IN_SECOND_JOB, Val Activity.OTHER);
   (Val diary.ACT1_001.UNSPECIFIED_ACTIVITIES_RELATED_TO_EMPLOYMENT, Val Activity.WORK_OR_STUDY);
   (Val diary.ACT1_001.LUNCH_BREAK, Val Activity.OTHER);
   (Val diary.ACT1_001.OTHER_SPECIFIED_ACTIVITIES_RELATED_TO_EMPLOYMENT, Val Activity.WORK_OR_STUDY);
   (Val diary.ACT1_001.ACTIVITIES_RELATED_TO_JOB_SEEKING, Val Activity.OTHER);
   (Val diary.ACT1_001.OTHER_SPECIFIED_ACTIVITIES_RELATED_TO_EMPLOYMENT2, Val Activity.WORK_OR_STUDY);
   (Val diary.ACT1_001.UNSPECIFIED_STUDY, Val Activity.WORK_OR_STUDY);
   (Val diary.ACT1_001.UNSPECIFIED_ACTIVITIES_RELATED_TO_SCHOOL_OR_UNIVERSITY, Val Activity.WORK_OR_STUDY);
   (Val diary.ACT1_001.CLASSES_AND_LECTURES, Val Activity.WORK_OR_STUDY);
   (Val diary.ACT1_001.HOMEWORK, Val Activity.OTHER);
   (Val diary.ACT1_001.OTHER_SPECIFIED_ACTIVITIES_RELATED_TO_SCHOOL_OR_UNIVERSITY, Val Activity.WORK_OR_STUDY);
   (Val diary.ACT1_001.FREE_TIME_STUDY, Val Activity.OTHER);
   (Val diary.ACT1_001.UNSPECIFIED_HOUSEHOLD_AND_FAMILY_CARE, Val Activity.OTHER);
   (Val diary.ACT1_001.UNSPECIFIED_FOOD_MANAGEMENT, Val Activity.OTHER);
   (Val diary.ACT1_001.FOOD_PREPARATION, Val Activity.OTHER);
   (Val diary.ACT1_001.BAKING, Val Activity.OTHER);
   (Val diary.ACT1_001.DISH_WASHING, Val Activity.OTHER);
   (Val diary.ACT1_001.PRESERVING, Val Activity.OTHER);
   (Val diary.ACT1_001.OTHER_SPECIFIED_FOOD_MANAGEMENT, Val Activity.OTHER);
   (Val diary.ACT1_001.UNSPECIFIED_HOUSEHOLD_UPKEEP, Val Activity.OTHER);
   (Val diary.ACT1_001.CLEANING_DWELLING, Val Activity.OTHER);
   (Val diary.ACT1_001.CLEANING_YARD, Val Activity.OTHER);
   (Val diary.ACT1_001.HEATING_AND_WATER, Val Activity.OTHER);
   (Val diary.ACT1_001.VARIOUS_ARRANGEMENTS, Val Activity.OTHER);
   (Val diary.ACT1_001.DISPOSAL_OF_WASTE, Val Activity.OTHER);
   (Val diary.ACT1_001.OTHER_SPECIFIED_HOUSEHOLD_UPKEEP, Val Activity.OTHER);
   (Val diary.ACT1_001.UNSPECIFIED_MAKING_AND_CARE_FOR_TEXTILES, Val Activity.OTHER);
   (Val diary.ACT1_001.LAUNDRY, Val Activity.OTHER);
   (Val diary.ACT1_001.IRONING, Val Activity.OTHER);
   (Val diary.ACT1_001.HANDICRAFT_AND_PRODUCING_TEXTILES, Val Activity.OTHER);
   (Val diary.ACT1_001.OTHER_SPECIFIED_MAKING_AND_CARE_FOR_TEXTILES, Val Activity.OTHER);
   (Val diary.ACT1_001.UNSPECIFIED_GARDENING_AND_PET_CARE, Val Activity.OTHER);
   (Val diary.ACT1_001.GARDENING, Val Activity.OTHER);
   (Val diary.ACT1_001.TENDING_DOMESTIC_ANIMALS, Val Activity.OTHER);
   (Val diary.ACT1_001.CARING_FOR_PETS, Val Activity.OTHER);
   (Val diary.ACT1_001.WALKING_THE_DOG, Val Activity.OTHER);
   (Val diary.ACT1_001.OTHER_SPECIFIED_GARDENING_AND_PET_CARE, Val Activity.OTHER);
   (Val diary.ACT1_001.UNSPECIFIED_CONSTRUCTION_AND_REPAIRS, Val Activity.OTHER);
   (Val diary.ACT1_001.HOUSE_CONSTRUCTION_AND_RENOVATION, Val Activity.OTHER);
   (Val diary.ACT1_001.REPAIRS_OF_DWELLING, Val Activity.OTHER);
   (Val diary.ACT1_001.UNSPECIFIED_MAKING__REPAIRING_AND_MAINTAINING_EQUIPMENT, Val Activity.OTHER);
   (Val diary.ACT1_001.WOODCRAFT__METAL_CRAFT__SCULPTURE_AND_POTTERY, Val Activity.OTHER);
   (Val diary.ACT1_001.OTHER_SPECIFIED_MAKING__REPAIRING_AND_MAINTAINING_EQUIPMENT, Val Activity.OTHER);
   (Val diary.ACT1_001.VEHICLE_MAINTENANCE, Val Activity.OTHER);
   (Val diary.ACT1_001.OTHER_SPECIFIED_CONSTRUCTION_AND_REPAIRS, Val Activity.OTHER);
   (Val diary.ACT1_001.UNSPECIFIED_SHOPPING_AND_SERVICES, Val Activity.OTHER);
   (Val diary.ACT1_001.UNSPECIFIED_SHOPPING, Val Activity.OTHER);
   (Val diary.ACT1_001.SHOPPING_MAINLY_FOR_FOOD, Val Activity.OTHER);
   (Val diary.ACT1_001.SHOPPING_MAINLY_FOR_CLOTHING, Val Activity.OTHER);
   (Val diary.ACT1_001.SHOPPING_MAINLY_RELATED_TO_ACCOMMODATION, Val Activity.OTHER);
   (Val diary.ACT1_001.SHOPPING_OR_BROWSING_AT_CAR_BOOT_SALES_OR_ANTIQUE_FAIRS, Val Activity.OTHER);
   (Val diary.ACT1_001.WINDOW_SHOPPING_OR_OTHER_SHOPPING_AS_LEISURE, Val Activity.OTHER);
   (Val diary.ACT1_001.OTHER_SPECIFIED_SHOPPING, Val Activity.OTHER);
   (Val diary.ACT1_001.COMMERCIAL_AND_ADMINISTRATIVE_SERVICES, Val Activity.OTHER);
   (Val diary.ACT1_001.PERSONAL_SERVICES, Val Activity.OTHER);
   (Val diary.ACT1_001.OTHER_SPECIFIED_SHOPPING_AND_SERVICES, Val Activity.OTHER);
   (Val diary.ACT1_001.HOUSEHOLD_MANAGEMENT_NOT_USING_THE_INTERNET, Val Activity.OTHER);
   (Val diary.ACT1_001.UNSPECIFIED_HOUSEHOLD_MANAGEMENT_USING_THE_INTERNET, Val Activity.OTHER);
   (Val diary.ACT1_001.SHPING_FORANDORDRING_UNSPEC_GDSANDSRVS_VIA_INTERNET, Val Activity.OTHER);
   (Val diary.ACT1_001.SHPING_FORANDORDRING_FOOD_VIA_THE_INTERNET, Val Activity.OTHER);
   (Val diary.ACT1_001.SHPING_FORANDORDRING_CLOTHING_VIA_THE_INTERNET, Val Activity.OTHER);
   (Val diary.ACT1_001.SHPING_FORANDORDRING_GDSANDSRV_RELATED_TO_ACC_VIA_INTERNET, Val Activity.OTHER);
   (Val diary.ACT1_001.SHPING_FORANDORDRING_MASS_MEDIA_VIA_THE_INTERNET, Val Activity.OTHER);
   (Val diary.ACT1_001.SHPING_FORANDORDRING_ENTERTAINMENT_VIA_THE_INTERNET, Val Activity.OTHER);
   (Val diary.ACT1_001.BANKING_AND_BILL_PAYING_VIA_THE_INTERNET, Val Activity.OTHER);
   (Val diary.ACT1_001.OTHER_SPECIFIED_HOUSEHOLD_MANAGEMENT_USING_THE_INTERNET, Val Activity.OTHER);
   (Val diary.ACT1_001.UNSPECIFIED_CHILDCARE, Val Activity.OTHER);
   (Val diary.ACT1_001.UNSPECIFIED_PHYSICAL_CARE_AND_SUPERVISION_OF_A_CHILD, Val Activity.OTHER);
   (Val diary.ACT1_001.FEEDING_THE_CHILD, Val Activity.OTHER);
   (Val diary.ACT1_001.OTHER_SPECIFIED_PHYSICAL_CARE_AND_SUPERVISION_OF_A_CHILD, Val Activity.OTHER);
   (Val diary.ACT1_001.TEACHING_THE_CHILD, Val Activity.OTHER);
   (Val diary.ACT1_001.READING__PLAYING_AND_TALKING_WITH_CHILD, Val Activity.OTHER);
   (Val diary.ACT1_001.ACCOMPANYING_CHILD, Val Activity.OTHER);
   (Val diary.ACT1_001.OTHER_SPECIFIED_CHILDCARE, Val Activity.OTHER);
   (Val diary.ACT1_001.UNSPECIFIED_HELP_TO_AN_ADULT_HOUSEHOLD_MEMBER, Val Activity.OTHER);
   (Val diary.ACT1_001.PHYSICAL_CARE_AND_SUPERVISION_OF_AN_ADULT_HOUSEHOLD_MEMBER, Val Activity.OTHER);
   (Val diary.ACT1_001.ACCOMPANYING_AN_ADULT_HOUSEHOLD_MEMBER, Val Activity.OTHER);
   (Val diary.ACT1_001.OTHER_SPECIFIED_HELP_TO_AN_ADULT_HOUSEHOLD_MEMBER, Val Activity.OTHER);
   (Val diary.ACT1_001.UNSPECIFIED_VOLUNTEER_WORK_AND_MEETINGS, Val Activity.OTHER);
   (Val diary.ACT1_001.UNSPECIFIED_ORGANISATIONAL_WORK, Val Activity.OTHER);
   (Val diary.ACT1_001.WORK_FOR_AN_ORGANISATION, Val Activity.OTHER);
   (Val diary.ACT1_001.VOLUNTEER_WORK_THROUGH_AN_ORGANISATION, Val Activity.OTHER);
   (Val diary.ACT1_001.OTHER_SPECIFIED_ORGANISATIONAL_WORK, Val Activity.OTHER);
   (Val diary.ACT1_001.UNSPECIFIED_INFORMAL_HELP, Val Activity.OTHER);
   (Val diary.ACT1_001.FOOD_MANAGEMENT_AS_HELP, Val Activity.OTHER);
   (Val diary.ACT1_001.HOUSEHOLD_UPKEEP_AS_HELP, Val Activity.OTHER);
   (Val diary.ACT1_001.GARDENING_AND_PET_CARE_AS_HELP, Val Activity.OTHER);
   (Val diary.ACT1_001.CONSTRUCTION_AND_REPAIRS_AS_HELP, Val Activity.OTHER);
   (Val diary.ACT1_001.SHOPPING_AND_SERVICES_AS_HELP, Val Activity.OTHER);
   (Val diary.ACT1_001.HELP_IN_EMPLOYMENT_AND_FARMING, Val Activity.OTHER);
   (Val diary.ACT1_001.UNSPECIFIED_CHILDCARE_AS_HELP, Val Activity.OTHER);
   (Val diary.ACT1_001.PHYSICAL_CARE_AND_SUPERVISION_OF_A_CHILD_AS_HELP, Val Activity.OTHER);
   (Val diary.ACT1_001.TEACHING_THE_CHILD_AS_HELP, Val Activity.OTHER);
   (Val diary.ACT1_001.READING__PLAYING_AND_TALKING_TO_THE_CHILD_AS_HELP, Val Activity.OTHER);
   (Val diary.ACT1_001.ACCOMPANYING_THE_CHILD_AS_HELP, Val Activity.OTHER);
   (Val diary.ACT1_001.OTHER_SPECIFIED_CHILDCARE_AS_HELP, Val Activity.OTHER);
   (Val diary.ACT1_001.UNSPECIFIED_HELP_TO_AN_ADULT_MEMBER_OF_ANOTHER_HOUSEHOLD, Val Activity.OTHER);
   (Val diary.ACT1_001.PHYSICAL_CARE_AND_SUPERVISION_OF_AN_ADULT_AS_HELP, Val Activity.OTHER);
   (Val diary.ACT1_001.ACCOMPANYING_AN_ADULT_AS_HELP, Val Activity.OTHER);
   (Val diary.ACT1_001.OTHER_SPECIFIED_HELP_TO_AN_ADULT_MEMBER_OF_ANOTHER_HOUSEHOLD, Val Activity.OTHER);
   (Val diary.ACT1_001.OTHER_SPECIFIED_INFORMAL_HELP, Val Activity.OTHER);
   (Val diary.ACT1_001.UNSPECIFIED_PARTICIPATORY_ACTIVITIES, Val Activity.OTHER);
   (Val diary.ACT1_001.MEETINGS, Val Activity.OTHER);
   (Val diary.ACT1_001.RELIGIOUS_ACTIVITIES, Val Activity.OTHER);
   (Val diary.ACT1_001.OTHER_SPECIFIED_PARTICIPATORY_ACTIVITIES, Val Activity.OTHER);
   (Val diary.ACT1_001.UNSPECIFIED_SOCIAL_LIFE_AND_ENTERTAINMENT, Val Activity.OTHER);
   (Val diary.ACT1_001.UNSPECIFIED_SOCIAL_LIFE, Val Activity.OTHER);
   (Val diary.ACT1_001.SOCIALISING_WITH_HOUSEHOLD_MEMBERS, Val Activity.OTHER);
   (Val diary.ACT1_001.VISITING_AND_RECEIVING_VISITORS, Val Activity.OTHER);
   (Val diary.ACT1_001.FEASTS, Val Activity.OTHER);
   (Val diary.ACT1_001.TELEPHONE_CONVERSATION, Val Activity.OTHER);
   (Val diary.ACT1_001.OTHER_SPECIFIED_SOCIAL_LIFE, Val Activity.OTHER);
   (Val diary.ACT1_001.UNSPECIFIED_ENTERTAINMENT_AND_CULTURE, Val Activity.OTHER);
   (Val diary.ACT1_001.CINEMA, Val Activity.OTHER);
   (Val diary.ACT1_001.UNSPECIFIED_THEATRE_OR_CONCERTS, Val Activity.OTHER);
   (Val diary.ACT1_001.PLAYS__MUSICALS_OR_PANTOMIMES, Val Activity.OTHER);
   (Val diary.ACT1_001.OPERA__OPERETTA_OR_LIGHT_OPERA, Val Activity.OTHER);
   (Val diary.ACT1_001.CONCERTS_OR_OTHER_PERFORMANCES_OF_CLASSICAL_MUSIC, Val Activity.OTHER);
   (Val diary.ACT1_001.LIVE_MUSIC_OTHER_THAN_CLASSICAL_CONCERTS__OPERA_AND_MUSICALS, Val Activity.OTHER);
   (Val diary.ACT1_001.DANCE_PERFORMANCES, Val Activity.OTHER);
   (Val diary.ACT1_001.OTHER_SPECIFIED_THEATRE_OR_CONCERTS, Val Activity.OTHER);
   (Val diary.ACT1_001.ART_EXHIBITIONS_AND_MUSEUMS, Val Activity.OTHER);
   (Val diary.ACT1_001.UNSPECIFIED_LIBRARY, Val Activity.OTHER);
   (Val diary.ACT1_001.BRWING_BKS_RCDS_AUDIO_VIDEO_CDS_VDS_FROM_LIBRARY, Val Activity.OTHER);
   (Val diary.ACT1_001.REFERENCE_TO_BKS_AND_OTHER_LIBRARY_MATERIALS_WITHIN_LIBRARY, Val Activity.OTHER);
   (Val diary.ACT1_001.USING_INTERNET_IN_THE_LIBRARY, Val Activity.OTHER);
   (Val diary.ACT1_001.USING_COMPUTERS_IN_THE_LIBRARY_OTHER_THAN_INTERNET_USE, Val Activity.OTHER);
   (Val diary.ACT1_001.READING_NEWSPAPERS_IN_A_LIBRARY, Val Activity.OTHER);
   (Val diary.ACT1_001.LISTENING_TO_MUSIC_IN_A_LIBRARY, Val Activity.OTHER);
   (Val diary.ACT1_001.OTHER_SPECIFIED_LIBRARY_ACTIVITIES, Val Activity.OTHER);
   (Val diary.ACT1_001.SPORTS_EVENTS, Val Activity.OTHER);
   (Val diary.ACT1_001.OTHER_SPECIFIED_ENTERTAINMENT_AND_CULTURE, Val Activity.OTHER);
   (Val diary.ACT1_001.VISITING_A_HISTORICAL_SITE, Val Activity.OTHER);
   (Val diary.ACT1_001.VISITING_A_WILDLIFE_SITE, Val Activity.OTHER);
   (Val diary.ACT1_001.VISITING_A_BOTANICAL_SITE, Val Activity.OTHER);
   (Val diary.ACT1_001.VISITING_A_LEISURE_PARK, Val Activity.OTHER);
   (Val diary.ACT1_001.VISITING_AN_URBAN_PARK__PLAYGROUND_OR_DESIGNATED_PLAY_AREA, Val Activity.OTHER);
   (Val diary.ACT1_001.OTHER_SPECIFIED_ENTERTAINMENT_OR_CULTURE, Val Activity.OTHER);
   (Val diary.ACT1_001.RESTING_TIME_OUT, Val Activity.OTHER);
   (Val diary.ACT1_001.UNSPECIFIED_SPORTS_AND_OUTDOOR_ACTIVITIES, Val Activity.OTHER);
   (Val diary.ACT1_001.UNSPECIFIED_PHYSICAL_EXERCISE, Val Activity.OTHER);
   (Val diary.ACT1_001.WALKING_AND_HIKING, Val Activity.OTHER);
   (Val diary.ACT1_001.TAKING_A_WALK_OR_HIKE_THAT_LASTS_AT_LEAST_2_MILES_OR_1_HOUR, Val Activity.OTHER);
   (Val diary.ACT1_001.OTHER_WALK_OR_HIKE, Val Activity.OTHER);
   (Val diary.ACT1_001.JOGGING_AND_RUNNING, Val Activity.OTHER);
   (Val diary.ACT1_001.BIKING__SKIING_AND_SKATING, Val Activity.OTHER);
   (Val diary.ACT1_001.BIKING, Val Activity.OTHER);
   (Val diary.ACT1_001.SKIING_OR_SKATING, Val Activity.OTHER);
   (Val diary.ACT1_001.UNSPECIFIED_BALL_GAMES, Val Activity.OTHER);
   (Val diary.ACT1_001.INDOOR_PAIRS_OR_DOUBLES_GAMES, Val Activity.OTHER);
   (Val diary.ACT1_001.INDOOR_TEAM_GAMES, Val Activity.OTHER);
   (Val diary.ACT1_001.OUTDOOR_PAIRS_OR_DOUBLES_GAMES, Val Activity.OTHER);
   (Val diary.ACT1_001.OUTDOOR_TEAM_GAMES, Val Activity.OTHER);
   (Val diary.ACT1_001.OTHER_SPECIFIED_BALL_GAMES, Val Activity.OTHER);
   (Val diary.ACT1_001.GYMNASTICS, Val Activity.OTHER);
   (Val diary.ACT1_001.FITNESS, Val Activity.OTHER);
   (Val diary.ACT1_001.UNSPECIFIED_WATER_SPORTS, Val Activity.OTHER);
   (Val diary.ACT1_001.SWIMMING, Val Activity.OTHER);
   (Val diary.ACT1_001.OTHER_SPECIFIED_WATER_SPORTS, Val Activity.OTHER);
   (Val diary.ACT1_001.OTHER_SPECIFIED_PHYSICAL_EXERCISE, Val Activity.OTHER);
   (Val diary.ACT1_001.UNSPECIFIED_PRODUCTIVE_EXERCISE, Val Activity.OTHER);
   (Val diary.ACT1_001.HUNTING_AND_FISHING, Val Activity.OTHER);
   (Val diary.ACT1_001.PICKING_BERRIES__MUSHROOM_AND_HERBS, Val Activity.OTHER);
   (Val diary.ACT1_001.OTHER_SPECIFIED_PRODUCTIVE_EXERCISE, Val Activity.OTHER);
   (Val diary.ACT1_001.UNSPECIFIED_SPORTS_RELATED_ACTIVITIES, Val Activity.OTHER);
   (Val diary.ACT1_001.ACTIVITIES_RELATED_TO_SPORTS, Val Activity.OTHER);
   (Val diary.ACT1_001.ACTIVITIES_RELATED_TO_PRODUCTIVE_EXERCISE, Val Activity.OTHER);
   (Val diary.ACT1_001.UNSPECIFIED_HOBBIES_AND_GAMES, Val Activity.OTHER);
   (Val diary.ACT1_001.UNSPECIFIED_ARTS, Val Activity.OTHER);
   (Val diary.ACT1_001.UNSPECIFIED_VISUAL_ARTS, Val Activity.OTHER);
   (Val diary.ACT1_001.PAINTING__DRAWING_OR_OTHER_GRAPHIC_ARTS, Val Activity.OTHER);
   (Val diary.ACT1_001.MAKING_VIDEOS__TAKING_PHOTOS_OR_RELATED_ACTIVITIES, Val Activity.OTHER);
   (Val diary.ACT1_001.OTHER_SPECIFIED_VISUAL_ARTS, Val Activity.OTHER);
   (Val diary.ACT1_001.UNSPECIFIED_PERFORMING_ARTS, Val Activity.OTHER);
   (Val diary.ACT1_001.SINGING_OR_OTHER_MUSICAL_ACTIVITIES, Val Activity.OTHER);
   (Val diary.ACT1_001.OTHER_SPECIFIED_PERFORMING_ARTS, Val Activity.OTHER);
   (Val diary.ACT1_001.LITERARY_ARTS, Val Activity.OTHER);
   (Val diary.ACT1_001.OTHER_SPECIFIED_ARTS, Val Activity.OTHER);
   (Val diary.ACT1_001.UNSPECIFIED_HOBBIES, Val Activity.OTHER);
   (Val diary.ACT1_001.COLLECTING, Val Activity.OTHER);
   (Val diary.ACT1_001.COMPUTING_PROGRAMMING, Val Activity.OTHER);
   (Val diary.ACT1_001.UNSPECIFIED_INFORMATION_BY_COMPUTING, Val Activity.OTHER);
   (Val diary.ACT1_001.INFORMATION_SEARCHING_ON_THE_INTERNET, Val Activity.OTHER);
   (Val diary.ACT1_001.OTHER_SPECIFIED_INFORMATION_BY_COMPUTING, Val Activity.OTHER);
   (Val diary.ACT1_001.UNSPECIFIED_COMMUNICATION_BY_COMPUTER, Val Activity.OTHER);
   (Val diary.ACT1_001.COMMUNICATION_ON_THE_INTERNET, Val Activity.OTHER);
   (Val diary.ACT1_001.OTHER_SPECIFIED_COMMUNICATION_BY_COMPUTING, Val Activity.OTHER);
   (Val diary.ACT1_001.UNSPECIFIED_OTHER_COMPUTING, Val Activity.OTHER);
   (Val diary.ACT1_001.UNSPECIFIED_INTERNET_USE, Val Activity.OTHER);
   (Val diary.ACT1_001.OTHER_SPECIFIED_COMPUTING, Val Activity.OTHER);
   (Val diary.ACT1_001.CORRESPONDENCE, Val Activity.OTHER);
   (Val diary.ACT1_001.OTHER_SPECIFIED_HOBBIES, Val Activity.OTHER);
   (Val diary.ACT1_001.UNSPECIFIED_GAMES, Val Activity.OTHER);
   (Val diary.ACT1_001.SOLO_GAMES_AND_PLAY, Val Activity.OTHER);
   (Val diary.ACT1_001.UNSPECIFIED_GAMES_AND_PLAY_WITH_OTHERS, Val Activity.OTHER);
   (Val diary.ACT1_001.BILLIARDS__POOL__SNOOKER_OR_PETANQUE, Val Activity.OTHER);
   (Val diary.ACT1_001.CHESS_AND_BRIDGE, Val Activity.OTHER);
   (Val diary.ACT1_001.OTHER_SPECIFIED_PARLOUR_GAMES_AND_PLAY, Val Activity.OTHER);
   (Val diary.ACT1_001.COMPUTER_GAMES, Val Activity.OTHER);
   (Val diary.ACT1_001.GAMBLING, Val Activity.OTHER);
   (Val diary.ACT1_001.OTHER_SPECIFIED_GAMES, Val Activity.OTHER);
   (Val diary.ACT1_001.UNSPECIFIED_MASS_MEDIA, Val Activity.OTHER);
   (Val diary.ACT1_001.UNSPECIFIED_READING, Val Activity.OTHER);
   (Val diary.ACT1_001.READING_PERIODICALS, Val Activity.OTHER);
   (Val diary.ACT1_001.READING_BOOKS, Val Activity.OTHER);
   (Val diary.ACT1_001.OTHER_SPECIFIED_READING, Val Activity.OTHER);
   (Val diary.ACT1_001.UNSPECIFIED_TV_WATCHING, Val Activity.OTHER);
   (Val diary.ACT1_001.WATCHING_A_FILM_ON_TV, Val Activity.OTHER);
   (Val diary.ACT1_001.WATCHING_SPORT_ON_TV, Val Activity.OTHER);
   (Val diary.ACT1_001.OTHER_SPECIFIED_TV_WATCHING, Val Activity.OTHER);
   (Val diary.ACT1_001.UNSPECIFIED_VIDEO_WATCHING, Val Activity.OTHER);
   (Val diary.ACT1_001.WATCHING_A_FILM_ON_VIDEO, Val Activity.OTHER);
   (Val diary.ACT1_001.WATCHING_SPORT_ON_VIDEO, Val Activity.OTHER);
   (Val diary.ACT1_001.OTHER_SPECIFIED_VIDEO_WATCHING, Val Activity.OTHER);
   (Val diary.ACT1_001.UNSPECIFIED_LISTENING_TO_RADIO_AND_MUSIC, Val Activity.OTHER);
   (Val diary.ACT1_001.UNSPECIFIED_RADIO_LISTENING, Val Activity.OTHER);
   (Val diary.ACT1_001.LISTENING_TO_MUSIC_ON_THE_RADIO, Val Activity.OTHER);
   (Val diary.ACT1_001.LISTENING_TO_SPORT_ON_THE_RADIO, Val Activity.OTHER);
   (Val diary.ACT1_001.OTHER_SPECIFIED_RADIO_LISTENING, Val Activity.OTHER);
   (Val diary.ACT1_001.LISTENING_TO_RECORDINGS, Val Activity.OTHER);
   (Val diary.ACT1_001.TRAVEL_RELATED_TO_UNSPECIFIED_TIME_USE, Val Activity.OTHER);
   (Val diary.ACT1_001.TRAVEL_RELATED_TO_PERSONAL_BUSINESS, Val Activity.OTHER);
   (Val diary.ACT1_001.TRAVEL_IN_THE_COURSE_OF_WORK, Val Activity.OTHER);
   (Val diary.ACT1_001.TRAVEL_TO_WORK_FROM_HOME_AND_BACK_ONLY, Val Activity.OTHER);
   (Val diary.ACT1_001.TRAVEL_TO_WORK_FROM_A_PLACE_OTHER_THAN_HOME, Val Activity.OTHER);
   (Val diary.ACT1_001.TRAVEL_RELATED_TO_EDUCATION, Val Activity.OTHER);
   (Val diary.ACT1_001.TRAVEL_ESCORTING_TO_FROM_EDUCATION, Val Activity.OTHER);
   (Val diary.ACT1_001.TRAVEL_RELATED_TO_HOUSEHOLD_CARE, Val Activity.OTHER);
   (Val diary.ACT1_001.TRAVEL_RELATED_TO_SHOPPING, Val Activity.OTHER);
   (Val diary.ACT1_001.TRAVEL_RELATED_TO_SERVICES, Val Activity.OTHER);
   (Val diary.ACT1_001.TRAVEL_ESCORTING_A_CHILD_OTHER_THAN_EDUCATION, Val Activity.OTHER);
   (Val diary.ACT1_001.TRAVEL_ESCORTING_AN_ADULT_OTHER_THAN_EDUCATION, Val Activity.OTHER);
   (Val diary.ACT1_001.TRAVEL_RELATED_TO_ORGANISATIONAL_WORK, Val Activity.OTHER);
   (Val diary.ACT1_001.TRAVEL_RELATED_TO_INFORMAL_HELP_TO_OTHER_HOUSEHOLDS, Val Activity.OTHER);
   (Val diary.ACT1_001.TRAVEL_RELATED_TO_RELIGIOUS_ACTIVITIES, Val Activity.OTHER);
   (Val diary.ACT1_001.TRAVEL_RLT_TO_PARTICIPATORY_ACTV_EXCEPT_REL_ACTV, Val Activity.OTHER);
   (Val diary.ACT1_001.TRAVEL_TO_VISIT_FRIENDS_RELATIVES_IN_THEIR_HOMES, Val Activity.OTHER);
   (Val diary.ACT1_001.TRAVEL_RELATED_TO_OTHER_SOCIAL_ACTIVITIES, Val Activity.OTHER);
   (Val diary.ACT1_001.TRAVEL_RELATED_TO_ENTERTAINMENT_AND_CULTURE, Val Activity.OTHER);
   (Val diary.ACT1_001.TRAVEL_RELATED_TO_PHYSICAL_EXERCISE, Val Activity.OTHER);
   (Val diary.ACT1_001.TRAVEL_RELATED_TO_HUNTING_AND_FISHING, Val Activity.OTHER);
   (Val diary.ACT1_001.TRAVEL_RELATED_TO_PRODUCTIVE_EXCS_EXPT_HUNTING_AND_FISHING, Val Activity.OTHER);
   (Val diary.ACT1_001.TRAVEL_RELATED_TO_GAMBLING, Val Activity.OTHER);
   (Val diary.ACT1_001.TRAVEL_RELATED_TO_HOBBIES_OTHER_THAN_GAMBLING, Val Activity.OTHER);
   (Val diary.ACT1_001.TRAVEL_TO_HOLIDAY_BASE, Val Activity.OTHER);
   (Val diary.ACT1_001.TRAVEL_FOR_DAY_TRIP_JUST_WALK, Val Activity.OTHER);
   (Val diary.ACT1_001.OTHER_SPECIFIED_TRAVEL, Val Activity.OTHER);
   (Val diary.ACT1_001.PUNCTUATING_ACTIVITY, Val Activity.OTHER);
   (Val diary.ACT1_001.FILLING_IN_THE_TIME_USE_DIARY, Val Activity.OTHER);
   (Val diary.ACT1_001.NO_MAIN_ACTIVITY__NO_IDEA_WHAT_IT_MIGHT_BE, NaN);
   (Val diary.ACT1_001.NO_MAIN_ACTIVITY__SOME_IDEA_WHAT_IT_MIGHT_BE, NaN);
   (Val diary.ACT1_001.ILLEGIBLE_ACTIVITY, NaN);
   (Val diary.ACT1_001.UNSPECIFIED_TIME_USE, NaN);
   (Val diary.ACT1_001.MISSING1, NaN)].

Definition ACTIVITY_MAP : gmap (pyval diary.ACT1_001.t) (pyval Activity.t) := dict ACTIVITY_MAP_items.

Definition ECONOMIC_ACTIVITY_MAP_items : list (pyval individual.ECONACT2.t * pyval EconomicActivity.t) :=
  [(Val individual.ECONACT2.ECON_ACTIVE___EMPLOYEE___FULL_TIME, Val EconomicActivity.EMPLOYEE_FULL_TIME);
   (Val individual.ECONACT2.ECON_INACTIVE___LONG_TERM_SICK_DISABLED, Val EconomicActivity.LONG_TERM_SICK);
   (Val individual.ECONACT2.ECON_INACTIVE___OTHER_REASONS_EG_TEMP_SICK__BELIEVES_NO_JOBS, Val EconomicActivity.INACTIVE_OTHER);
   (Val individual.ECONACT2.ECON_INACTIVE___DK_REASONS, Val EconomicActivity.INACTIVE_OTHER);
   (Val individual.ECONACT2.ADULT___NOT_CLASSIFIABLE_EITHER_EMP__UNEMP_OR_INACTIVE, NaN);
   (Val individual.ECONACT2.UNDER_16YRS___INELIGIBLE_FOR_EMPLOYMENT_QUESTIONS, Val EconomicActivity.BELOW_16);
   (Val individual.ECONACT2.ECON_ACTIVE___EMPLOYEE___PART_TIME, Val EconomicActivity.EMPLOYEE_PART_TIME);
   (Val individual.ECONACT2.ECON_ACTIVE___SELF_EMPLOYED___FULL_TIME, Val EconomicActivity.SELF_EMPLOYED);
   (Val individual.ECONACT2.ECON_ACTIVE___SELF_EMPLOYED___PART_TIME, Val EconomicActivity.SELF_EMPLOYED);
   (Val individual.ECONACT2.ECON_ACTIVE___DK_EMPSELFFULLPART, NaN);
   (Val individual.ECONACT2.ECON_ACTIVE___UNEMPLOYED_ILO_DEFINITION, Val EconomicActivity.UNEMPLOYED);
   (Val individual.ECONACT2.ECON_INACTIVE___RETIRED, Val EconomicActivity.RETIRED);
   (Val individual.ECONACT2.ECON_INACTIVE___FULL_TIME_STUDENT, Val EconomicActivity.INACTIVE_FULL_TIME_STUDENT);
   (Val individual.ECONACT2.ECON_INACTIVE___LOOKING_AFTER_FAMILY_HOME, Val EconomicActivity.LOOKING_AFTER_HOME)].

Definition ECONOMIC_ACTIVITY_MAP : gmap (pyval individual.ECONACT2.t) (pyval EconomicActivity.t) := dict ECONOMIC_ACTIVITY_MAP_items.

Definition QUALIFICATION_MAP_items : list (pyval individual.HIQUAL4.t * pyval Qualification.t) :=
  [(Val individual.HIQUAL4.DEGREE_LEVEL_QUALIFICATION_OR_ABOVE, Val Qualification.LEVEL_45);
   (Val individual.HIQUAL4.QUALIFICATIONS___CITY_AND_GUILDS___DK_LEVEL, NaN);
   (Val individual.HIQUAL4.QUALIFICATIONS___OTHER___BUT_DK_GRADELEVEL, NaN);
   (Val individual.HIQUAL4.NO_QUALIFICATIONS, Val Qualification.NO_QUALIFICATIONS);
   (Val individual.HIQUAL4.ELIGIBLE___NO_ANSWER, NaN);
   (Val individual.HIQUAL4.UNDER_16YRS___INELIGIBLE_FOR_QUALIFICATIONS_QUESTIONS, Val Qualification.BELOW_16);
   (Val individual.HIQUAL4.HIGHER_EDN_BELOW_DEGREE_LEVEL_EG_HNC__NURSING_QUAL, Val Qualification.LEVEL_3);
   (Val individual.HIQUAL4.A_LEVELS__VOCATIONAL_LEVEL_3_AND_EQUIVLNT_EG_AS_LEVEL__NVQ_3, Val Qualification.LEVEL_3);
   (Val individual.HIQUAL4.O_LEVELS__GCSE_GRADE_A_C__VOCATIONAL_LEVEL_2_AND_EQUIVLNT, Val Qualification.LEVEL_2);
   (Val individual.HIQUAL4.GCSE_BELOW_GRADE_C__CSE__VOCATIONAL_LEVEL_1_AND_EQUIVLNT, Val Qualification.LEVEL_1);
   (Val individual.HIQUAL4.QUALIFICATION_BELOW_GCSEO_LEVEL_EG_TRADE_APPRENTICESHIPS, Val Qualification.APPRENTICESHIP);
   (Val individual.HIQUAL4.OTHER_QUALIFICATION_INCL_PROFESSIONAL__VOCATIONAL__FOREIGN, Val Qualification.OTHER_QUALIFICATION);
   (Val individual.HIQUAL4.QUALIFICATIONS___BUT_DK_WHICH, NaN);
   (Val individual.HIQUAL4.QUALIFICATIONS___GCSE___BUT_DK_GRADE, NaN)].

Definition QUALIFICATION_MAP : gmap (pyval individual.HIQUAL4.t) (pyval Qualification.t) := dict QUALIFICATION_MAP_items.

Definition HOUSEHOLDTYPE_MAP_items : list (pyval individual.HHTYPE4.t * pyval HouseholdType.t) :=
  [(Val individual.HHTYPE4.SINGLE_PERSON_HOUSEHOLD, Val HouseholdType.ONE_PERSON_HOUSEHOLD);
   (Val individual.HHTYPE4.SINGLE_PARENT___WITH_CHILDREN_GREATEREQUAL_16, Val HouseholdType.LONE_PARENT_WITH_DEPENDENT_CHILDREN);
   (Val individual.HHTYPE4.TWO_OR_MORE_COUPLES_MARRIED_OR_COHAB_WITHWITHOUT_CHILDRN, Val HouseholdType.MULTI_PERSON_HOUSEHOLD);
   (Val individual.HHTYPE4.SAME_SEX_COUPLES___SPONTANEOUSLY_DESCRIBED, Val HouseholdType.COUPLE_WITHOUT_DEPENDENT_CHILDREN);
   (Val individual.HHTYPE4.UNCLASSIFIED___MARRIED_COUPLES_IN_COMPLEX_HHLDS, Val HouseholdType.MULTI_PERSON_HOUSEHOLD);
   (Val individual.HHTYPE4.UNCLASSIFIED___COHABITING_COUPLES_IN_COMPLEX_HHLDS, Val HouseholdType.MULTI_PERSON_HOUSEHOLD);
   (Val individual.HHTYPE4.UNCLASSIFIED___SINGLE_PARENTS_IN_COMPLEX_HHLDS, Val HouseholdType.MULTI_PERSON_HOUSEHOLD);
   (Val individual.HHTYPE4.UNCLASSIFIED___OTHER_HHLDS_WITHOUT_COUPLES_EG_BROTHERS_DK, Val HouseholdType.MULTI_PERSON_HOUSEHOLD);
   (Val individual.HHTYPE4.HHLDS_WITH_2_OR_MORE_UNRELATED_PEOPLE_ONLY, Val HouseholdType.MULTI_PERSON_HOUSEHOLD);
   (Val individual.HHTYPE4.MARRIED_COUPLE___NO_CHILDREN_COUPLE_ONLY, Val HouseholdType.COUPLE_WITHOUT_DEPENDENT_CHILDREN);
   (Val individual.HHTYPE4.MARRIED_COUPLE___WITH_CHILDREN_SMALLEREQUAL_15, Val HouseholdType.COUPLE_WITH_DEPENDENT_CHILDREN);
   (Val individual.HHTYPE4.MARRIED_COUPLE___WITH_CHILDREN_GREATEREQUAL_16, Val HouseholdType.COUPLE_WITH_DEPENDENT_CHILDREN);
   (Val individual.HHTYPE4.COHAB_COUPLE___NO_CHILDREN_COUPLE_ONLY, Val HouseholdType.COUPLE_WITHOUT_DEPENDENT_CHILDREN);
   (Val individual.HHTYPE4.COHAB_COUPLE___WITH_CHILDREN_SMALLEREQUAL_15, Val HouseholdType.COUPLE_WITH_DEPENDENT_CHILDREN);
   (Val individual.HHTYPE4.COHAB_COUPLE___WITH_CHILDREN_GREATEREQUAL_16, Val HouseholdType.COUPLE_WITH_DEPENDENT_CHILDREN);
   (Val individual.HHTYPE4.SINGLE_PARENT____WITH_CHILDREN_SMALLEREQUAL_15, Val HouseholdType.LONE_PARENT_WITH_DEPENDENT_CHILDREN)].

Definition HOUSEHOLDTYPE_MAP : gmap (pyval individual.HHTYPE4.t) (pyval HouseholdType.t) := dict HOUSEHOLDTYPE_MAP_items.

Definition AGE_MAP_items : list (pyval Z * pyval AgeStructure.t) :=
  [(Val 8, Val AgeStructure.AGE_8_TO_9); (Val 9, Val AgeStructure.AGE_8_TO_9);
  (Val 10, Val AgeStructure.AGE_10_TO_14); (Val 11, Val AgeStructure.AGE_10_TO_14);
  (Val 12, Val AgeStructure.AGE_10_TO_14); (Val 13, Val AgeStructure.AGE_10_TO_14);
  (Val 14, Val AgeStructure.AGE_10_TO_14); (Val 15, Val AgeStructure.AGE_15);
  (Val 16, Val AgeStructure.AGE_16_TO_17); (Val 17, Val AgeStructure.AGE_16_TO_17);
  (Val 18, Val AgeStructure.AGE_18_TO_19); (Val 19, Val AgeStructure.AGE_18_TO_19);
  (Val 20, Val AgeStructure.AGE_20_TO_24); (Val 21, Val AgeStructure.AGE_20_TO_24);
  (Val 22, Val AgeStructure.AGE_20_TO_24); (Val 23, Val AgeStructure.AGE_20_TO_24);
  (Val 24, Val AgeStructure.AGE_20_TO_24); (Val 25, Val AgeStructure.AGE_25_TO_29);
  (Val 26, Val AgeStructure.AGE_25_TO_29); (Val 27, Val AgeStructure.AGE_25_TO_29);
  (Val 28, Val AgeStructure.AGE_25_TO_29); (Val 29, Val AgeStructure.AGE_25_TO_29);
  (Val 30, Val AgeStructure.AGE_30_TO_44); (Val 31, Val AgeStructure.AGE_30_TO_44);
  (Val 32, Val AgeStructure.AGE_30_TO_44); (Val 33, Val AgeStructure.AGE_30_TO_44);
  (Val 34, Val AgeStructure.AGE_30_TO_44); (Val 35, Val AgeStructure.AGE_30_TO_44);
  (Val 36, Val AgeStructure.AGE_30_TO_44); (Val 37, Val AgeStructure.AGE_30_TO_44);
  (Val 38, Val AgeStructure.AGE_30_TO_44); (Val 39, Val AgeStructure.AGE_30_TO_44);
  (Val 40, Val AgeStructure.AGE_30_TO_44); (Val 41, Val AgeStructure.AGE_30_TO_44);
  (Val 42, Val AgeStructure.AGE_30_TO_44); (Val 43, Val AgeStructure.AGE_30_TO_44);
  (Val 44, Val AgeStructure.AGE_30_TO_44); (Val 45, Val AgeStructure.AGE_45_TO_59);
  (Val 46, Val AgeStructure.AGE_45_TO_59); (Val 47, Val AgeStructure.AGE_45_TO_59);
  (Val 48, Val AgeStructure.AGE_45_TO_59); (Val 49, Val AgeStructure.AGE_45_TO_59);
  (Val 50, Val AgeStructure.AGE_45_TO_59); (Val 51, Val AgeStructure.AGE_45_TO_59);
  (Val 52, Val AgeStructure.AGE_45_TO_59); (Val 53, Val AgeStructure.AGE_45_TO_59);
  (Val 54, Val AgeStructure.AGE_45_TO_59); (Val 55, Val AgeStructure.AGE_45_TO_59);
  (Val 56, Val AgeStructure.AGE_45_TO_59); (Val 57, Val AgeStructure.AGE_45_TO_59);
  (Val 58, Val AgeStructure.AGE_45_TO_59); (Val 59, Val AgeStructure.AGE_45_TO_59);
  (Val 60, Val AgeStructure.AGE_60_TO_64); (Val 61, Val AgeStructure.AGE_60_TO_64);
  (Val 62, Val AgeStructure.AGE_60_TO_64); (Val 63, Val AgeStructure.AGE_60_TO_64);
  (Val 64, Val AgeStructure.AGE_60_TO_64); (Val 65, Val AgeStructure.AGE_65_TO_74);
  (Val 66, Val AgeStructure.AGE_65_TO_74); (Val 67, Val AgeStructure.AGE_65_TO_74);
  (Val 68, Val AgeStructure.AGE_65_TO_74); (Val 69, Val AgeStructure.AGE_65_TO_74);
  (Val 70, Val AgeStructure.AGE_65_TO_74); (Val 71, Val AgeStructure.AGE_65_TO_74);
  (Val 72, Val AgeStructure.AGE_65_TO_74); (Val 73, Val AgeStructure.AGE_65_TO_74);
  (Val 74, Val AgeStructure.AGE_65_TO_74); (Val 75, Val AgeStructure.AGE_75_TO_84);
  (Val 76, Val AgeStructure.AGE_75_TO_84); (Val 77, Val AgeStructure.AGE_75_TO_84);
  (Val 78, Val AgeStructure.AGE_75_TO_84); (Val 79, Val AgeStructure.AGE_75_TO_84);
  (Val 80, Val AgeStructure.AGE_75_TO_84); (Val 81, Val AgeStructure.AGE_75_TO_84);
  (Val 82, Val AgeStructure.AGE_75_TO_84); (Val 83, Val AgeStructure.AGE_75_TO_84);
  (Val 84, Val AgeStructure.AGE_75_TO_84); (Val 85, Val AgeStructure.AGE_85_TO_89);
  (Val 86, Val AgeStructure.AGE_85_TO_89); (Val 87, Val AgeStructure.AGE_85_TO_89);
  (Val 88, Val AgeStructure.AGE_85_TO_89); (Val 89, Val AgeStructure.AGE_85_TO_89);
  (Val 90, Val AgeStructure.AGE_90_AND_OVER); (Val 91, Val AgeStructure.AGE_90_AND_OVER);
  (Val 92, Val AgeStructure.AGE_90_AND_OVER); (Val 93, Val AgeStructure.AGE_90_AND_OVER);
  (Val 94, Val AgeStructure.AGE_90_AND_OVER); (Val 95, Val AgeStructure.AGE_90_AND_OVER);
  (Val 96, Val AgeStructure.AGE_90_AND_OVER); (Val 97, Val AgeStructure.AGE_90_AND_OVER);
  (Val 98, Val AgeStructure.AGE_90_AND_OVER); (Val 99, Val AgeStructure.AGE_90_AND_OVER)]%Z.

Definition AGE_MAP : gmap (pyval Z) (pyval AgeStructure.t) := dict AGE_MAP_items.

Definition PSEUDO_MAP_items : list (pyval individual.CHILD.t * pyval Pseudo.t) :=
  [(Val individual.CHILD.YES, Val Pseudo.SINGLETON);
   (Val individual.CHILD.NO, Val Pseudo.SINGLETON);
   (NaN, Val Pseudo.SINGLETON)].

Definition PSEUDO_MAP : gmap (pyval individual.CHILD.t) (pyval Pseudo.t) := dict PSEUDO_MAP_items.

Definition CARER_MAP_items : list (pyval individual.PROVCARE.t * pyval Carer.t) :=
  [(Val individual.PROVCARE.YES, Val Carer.CARER);
   (Val individual.PROVCARE.NO, Val Carer.NO_CARER);
   (Val individual.PROVCARE.DKREFUSE, NaN)].

Definition CARER_MAP : gmap (pyval individual.PROVCARE.t) (pyval Carer.t) := dict CARER_MAP_items.

Definition PERSONAL_INCOME_MAP_items : list (pyval individual.TOTPINC.t * pyval PersonalIncome.t) :=
  [(Val individual.TOTPINC.INELIGIBLE___UNDER_16YRS, Val PersonalIncome.BELOW_16);
   (Val individual.TOTPINC.INELIGIBLE___NOT_CURRENTLY_EMPLOYED_SELF_EMPLOYED, NaN);
   (Val individual.TOTPINC._TOTPINC_____________LESS_THAN_GBP__215, Val PersonalIncome.LESS_THAN_GBP_215);
   (Val individual.TOTPINC.GBP4580_TO_LESS_THAN_GBP6670, Val PersonalIncome.BETWEEN_GBP_4590_AND_6670);
   (Val individual.TOTPINC.GBP6670_OR_MORE, Val PersonalIncome.ABOVE_GBP_6670);
   (Val individual.TOTPINC.ELIGIBLE_CURRENT_EMPLOYEE_OR_SELF_EMP___DK_REFUSE_INCOME, NaN);
   (Val individual.TOTPINC.GBP__215_TO_LESS_THAN_GBP__435, Val PersonalIncome.BETWEEN_GBP_215_AND_435);
   (Val individual.TOTPINC.GBP__435_TO_LESS_THAN_GBP__870, Val PersonalIncome.BETWEEN_GBP_435_AND_870);
   (Val individual.TOTPINC.GBP__870_TO_LESS_THAN_GBP1305, Val PersonalIncome.BETWEEN_GBP_870_AND_1305);
   (Val individual.TOTPINC.GBP1305_TO_LESS_THAN_GBP1740, Val PersonalIncome.BETWEEN_GBP_1305_AND_1740);
   (Val individual.TOTPINC.GBP1740_TO_LESS_THAN_GBP2820, Val PersonalIncome.BETWEEN_GBP_1740_AND_2820);
   (Val individual.TOTPINC.GBP2820_TO_LESS_THAN_GBP3420, Val PersonalIncome.BETWEEN_GBP_2820_AND_3420);
   (Val individual.TOTPINC.GBP3420_TO_LESS_THAN_GBP3830, Val PersonalIncome.BETWEEN_GBP_3420_AND_3830);
   (Val individual.TOTPINC.GBP3830_TO_LESS_THAN_GBP4580, Val PersonalIncome.BETWEEN_GBP_3830_AND_4580)].

Definition PERSONAL_INCOME_MAP : gmap (pyval individual.TOTPINC.t) (pyval PersonalIncome.t) := dict PERSONAL_INCOME_MAP_items.

Definition POPULATION_DENSITY_MAP_items : list (pyval individual.POP_DEN2.t * pyval PopulationDensity.t) :=
  [(Val individual.POP_DEN2.MISSING, NaN);
   (Val individual.POP_DEN2._POP_DEN2____0______249, Val PopulationDensity.UP_TO_249);
   (Val individual.POP_DEN2._250______999, Val PopulationDensity.BETWEEN_250_AND_999);
   (Val individual.POP_DEN2.N1000___1999, Val PopulationDensity.BETWEEN_1000_AND_1999);
   (Val individual.POP_DEN2.N2000___2999, Val PopulationDensity.BETWEEN_2000_AND_2999);
   (Val individual.POP_DEN2.N3000___3999, Val PopulationDensity.BETWEEN_3000_AND_3999);
   (Val individual.POP_DEN2.N4000___4999, Val PopulationDensity.BETWEEN_4000_AND_4999);
   (Val individual.POP_DEN2.N5000_OR_MORE_MAX_WAS_JUST_OVER_10_000, Val PopulationDensity.MORE_THAN_5000)].

Definition POPULATION_DENSITY_MAP : gmap (pyval individual.POP_DEN2.t) (pyval PopulationDensity.t) := dict POPULATION_DENSITY_MAP_items.

Definition REGION_MAP_items : list (pyval individual.GORPAF.t * pyval Region.t) :=
  [(Val individual.GORPAF.NORTH_EAST, Val Region.NORTH_EAST);
   (Val individual.GORPAF.WALES, Val Region.WALES);
   (Val individual.GORPAF.SCOTLAND, Val Region.SCOTLAND);
   (Val individual.GORPAF.NORTHERN_IRELAND, Val Region.NORTHERN_IRELAND);
   (Val individual.GORPAF.NORTH_WEST_INCL_MERSEYSIDE, Val Region.NORTH_WEST_INCL_MERSEYSIDE);
   (Val individual.GORPAF.YORKSHIRE_AND_HUMBERSIDE, Val Region.YORKSHIRE_AND_HUMBERSIDE);
   (Val individual.GORPAF.EAST_MIDLANDS, Val Region.EAST_MIDLANDS);
   (Val individual.GORPAF.WEST_MIDLANDS, Val Region.WEST_MIDLANDS);
   (Val individual.GORPAF.EASTERN, Val Region.EASTERN);
   (Val individual.GORPAF.LONDON, Val Region.LONDON);
   (Val individual.GORPAF.SOUTH_EAST_EXCL_LONDON, Val Region.SOUTH_EAST_EXCL_LONDON);
   (Val individual.GORPAF.SOUTH_WEST, Val Region.SOUTH_WEST)].

Definition REGION_MAP : gmap (pyval individual.GORPAF.t) (pyval Region.t) := dict REGION_MAP_items.

(** The tables as one family *)
Record code_mapping : Type := CodeMapping {
  mapping_name : string;
  raw : Type;
  raw_eq_dec :: EqDecision raw;
  raw_countable :: Countable raw;
  uo : Type;
  items : list (pyval raw * pyval uo);
}.

Definition table (m : code_mapping) : gmap (pyval (raw m)) (pyval (uo m)) :=
  dict (items m).

Definition keys (m : code_mapping) : list (pyval (raw m)) := (items m).*1.

(** The codes that a table lists with [np.nan] *)
Definition null_codes (m : code_mapping) : list (pyval (raw m)) :=
  (filter (λ kv, isnull kv.2) (items m)).*1.

Definition LOCATION_MAPPING : code_mapping :=
  CodeMapping "LOCATION_MAP" _ _ _ _ LOCATION_MAP_items.

Definition ACTIVITY_MAPPING : code_mapping :=
  CodeMapping "ACTIVITY_MAP" _ _ _ _ ACTIVITY_MAP_items.

Definition ECONOMIC_ACTIVITY_MAPPING : code_mapping :=
  CodeMapping "ECONOMIC_ACTIVITY_MAP" _ _ _ _ ECONOMIC_ACTIVITY_MAP_items.

Definition QUALIFICATION_MAPPING : code_mapping :=
  CodeMapping "QUALIFICATION_MAP" _ _ _ _ QUALIFICATION_MAP_items.

Definition HOUSEHOLDTYPE_MAPPING : code_mapping :=
  CodeMapping "HOUSEHOLDTYPE_MAP" _ _ _ _ HOUSEHOLDTYPE_MAP_items.

Definition AGE_MAPPING : code_mapping :=
  CodeMapping "AGE_MAP" _ _ _ _ AGE_MAP_items.

Definition PSEUDO_MAPPING : code_mapping :=
  CodeMapping "PSEUDO_MAP" _ _ _ _ PSEUDO_MAP_items.

Definition CARER_MAPPING : code_mapping :=
  CodeMapping "CARER_MAP" _ _ _ _ CARER_MAP_items.

Definition PERSONAL_INCOME_MAPPING : code_mapping :=
  CodeMapping "PERSONAL_INCOME_MAP" _ _ _ _ PERSONAL_INCOME_MAP_items.

Definition POPULATION_DENSITY_MAPPING : code_mapping :=
  CodeMapping "POPULATION_DENSITY_MAP" _ _ _ _ POPULATION_DENSITY_MAP_items.

Definition REGION_MAPPING : code_mapping :=
  CodeMapping "REGION_MAP" _ _ _ _ REGION_MAP_items.

Definition CODE_MAPPINGS : list code_mapping :=
  [LOCATION_MAPPING; ACTIVITY_MAPPING; ECONOMIC_ACTIVITY_MAPPING; QUALIFICATION_MAPPING;
   HOUSEHOLDTYPE_MAPPING; AGE_MAPPING; PSEUDO_MAPPING; CARER_MAPPING; PERSONAL_INCOME_MAPPING;
   POPULATION_DENSITY_MAPPING; REGION_MAPPING].

(** Modelled from the spec: the application of a mapping table to one raw
    code.  The method [tus_value_to_uo_value] of the feature enumerations,
    which applies the tables, is not among the sources; by sections 4.1
    and 7 of the specification a code that the table does not list is
    silently converted to null. *)
Definition map_code {K V : Type} `{Countable K}
    (d : gmap (pyval K) (pyval V)) (code : pyval K) : pyval V :=
  default NaN (d !! code).

(** The clause of the specification on the codes of a question that does
    not apply to the respondent, for one table and for one reading
    [not_applicable] of which codes these are: such a code yields null. *)
Definition not_applicable_yields_null (m : code_mapping) (not_applicable : raw m → bool)
    : Prop :=
  ∀ c : raw m, not_applicable c = true → isnull (map_code (table m) (Val c)) = true.

(** ** The dwelling type decision table *)

Definition dwellingtype_map
    (row : pyval household.HQ13A.t * pyval household.HQ13B.t *
           pyval household.HQ13C.t * pyval household.HQ13D.t) : pyval DwellingType.t :=
  let '(hq13a, hq13b, hq13c, hq13d) := row in
  if bool_decide (hq13a = Val household.HQ13A.A_HOUSE_OR_BUNGALOW) then
    if bool_decide (hq13b = Val household.HQ13B.DETACHED) then
      Val DwellingType.DETACHED_WHOLE_HOUSE_OR_BUNGALOW
    else if bool_decide (hq13b = Val household.HQ13B.SEMI_DETACHED) then
      Val DwellingType.SEMI_DETACHED_WHOLE_HOUSE_OR_BUNGALOW
    else if bool_decide (hq13b = Val household.HQ13B.OR_TERRACEEND_OF_TERRACE) then
      Val DwellingType.TERRACED_WHOLE_HOUSE_OR_BUNGALOW
    else PyNone
  else if bool_decide (hq13a = Val household.HQ13A.A_FLAT_OR_MAISONETTE) then
    if bool_decide (hq13c = Val household.HQ13C.A_PURPOSE_BUILT_BLOCK) then
      Val DwellingType.FLAT_PURPOSE_BUILT_BLOCK
    else if bool_decide
              (hq13c = Val household.HQ13C.A_CONVERTED_HOUSESOME_OTHER_KIND_OF_BUILDING) then
      Val DwellingType.FLAT_CONVERTED_OR_SHARED_HOUSE
    else PyNone
  else if bool_decide (hq13a = Val household.HQ13A.OTHER) then
    if bool_decide (hq13d = Val household.HQ13D.A_CARAVAN__MOBILE_HOME_OR_HOUSEBOAT) then
      Val DwellingType.CARAVAN
    else if bool_decide (hq13d = Val household.HQ13D.SOME_OTHER_KIND_OF_ACCOMMODATION) then
      Val DwellingType.OTHER
    else PyNone
  else if bool_decide (hq13a = Val household.HQ13A.MISSING1) then NaN
  else if bool_decide (hq13a = Val household.HQ13A.A_ROOMROOMS) then Val DwellingType.OTHER
  else PyNone.

(** ** Age bands

    The band of a category, as [AGE_MAP] declares it: the ages that the
    table maps to the category, from the least to the greatest. *)
Definition band_ages (band : AgeStructure.t) : list Z :=
  omap (λ kv, match kv.1 with
              | Val age => if bool_decide (kv.2 = Val band) then Some age else None
              | _ => None
              end) AGE_MAP_items.

Definition band_lo (band : AgeStructure.t) : Z := foldr Z.min 99%Z (band_ages band).
Definition band_hi (band : AgeStructure.t) : Z := foldr Z.max 8%Z (band_ages band).

(** The values of the seed: a category of one of the enumerations. *)
Inductive uo_value : Set :=
| OfEconomicActivity (x : EconomicActivity.t)
| OfQualification (x : Qualification.t)
| OfHouseholdType (x : HouseholdType.t)
| OfAgeStructure (x : AgeStructure.t)
| OfPseudo (x : Pseudo.t)
| OfCarer (x : Carer.t)
| OfPersonalIncome (x : PersonalIncome.t)
| OfPopulationDensity (x : PopulationDensity.t)
| OfRegion (x : Region.t)
| OfDwellingType (x : DwellingType.t).

#[global] Instance uo_value_eq_dec : EqDecision uo_value.
Proof. solve_decision. Defined.

(** ** Exceptions *)

Inductive exn : Set :=
| KeyError
| AttributeError
| ValueError
| AssertionError
| Fault.  (* a dangling reference: no Python program reaches it *)

Inductive result (A : Type) : Type :=
| Ok (a : A)
| Raise (e : exn).

Arguments Ok {A} a.
Arguments Raise {A} e.

#[global] Instance result_ret : MRet result := @Ok.

#[global] Instance result_bind : MBind result := λ A B f r,
  match r with
  | Ok a => f a
  | Raise e => Raise e
  end.

#[global] Instance result_fmap : FMap result := λ A B f r,
  match r with
  | Ok a => Ok (f a)
  | Raise e => Raise e
  end.

(** *** The row of [dwellingtype_map]

    [dwellingtype_map] unpacks its row into four fields, which raises a
    [ValueError] for a row of any other length.  A field holds a member of
    one of the four enumerations of the household questionnaire, or a
    missing value.  The body compares the first field with members of
    [HQ13A] only, the second with members of [HQ13B] only, and so on: a
    field with a member of another enumeration equals none of them, as a
    field with [None] does. *)
Inductive hq_field : Set :=
| OfHQ13A (x : household.HQ13A.t)
| OfHQ13B (x : household.HQ13B.t)
| OfHQ13C (x : household.HQ13C.t)
| OfHQ13D (x : household.HQ13D.t).

Definition as_HQ13A (c : pyval hq_field) : pyval household.HQ13A.t :=
  match c with
  | Val (OfHQ13A x) => Val x
  | NaN => NaN
  | _ => PyNone
  end.

Definition as_HQ13B (c : pyval hq_field) : pyval household.HQ13B.t :=
  match c with
  | Val (OfHQ13B x) => Val x
  | NaN => NaN
  | _ => PyNone
  end.

Definition as_HQ13C (c : pyval hq_field) : pyval household.HQ13C.t :=
  match c with
  | Val (OfHQ13C x) => Val x
  | NaN => NaN
  | _ => PyNone
  end.

Definition as_HQ13D (c : pyval hq_field) : pyval household.HQ13D.t :=
  match c with
  | Val (OfHQ13D x) => Val x
  | NaN => NaN
  | _ => PyNone
  end.

(** [hq13a, hq13b, hq13c, hq13d = row], then the decisions *)
Definition dwellingtype_map_row (row : list (pyval hq_field)) : result (pyval DwellingType.t) :=
  match row with
  | [hq13a; hq13b; hq13c; hq13d] =>
      Ok (dwellingtype_map (as_HQ13A hq13a, as_HQ13B hq13b, as_HQ13C hq13c, as_HQ13D hq13d))
  | _ => Raise ValueError
  end.

(** ** Tables as values

    An individual is keyed by the household id [(SN1, SN2)] and the number
    [SN3] of the person within the household.  A table has its column
    names and its rows, every row with its index label and its cells.  A
    name may label several columns and an index label several rows.  In a
    well-formed table a row has one cell per column; a cell that a row
    lacks reads as missing. *)

Definition Key : Type := Z * Z * Z.

Definition household_id (k : Key) : Z * Z := k.1.

Record DataFrame (V : Type) : Type := mkDataFrame {
  columns : list string;
  rows : list (Key * list (pyval V));
}.

Arguments mkDataFrame {V} columns rows.
Arguments columns {V} d.
Arguments rows {V} d.

Section frames.
Context {V : Type}.

Definition index (df : DataFrame V) : list Key := (rows df).*1.

(** [df.shape[0]] *)
Definition shape0 (df : DataFrame V) : nat := length (rows df).

(** The position of the first column of a name *)
Definition column_position (df : DataFrame V) (name : string) : option nat :=
  fst <$> list_find (λ c, c = name) (columns df).

(** The positions of all columns of a name, from position [i] on *)
Fixpoint positions_from (i : nat) (cols : list string) (name : string) : list nat :=
  match cols with
  | [] => []
  | c :: cols =>
      if decide (c = name) then i :: positions_from (S i) cols name
      else positions_from (S i) cols name
  end.

Definition column_positions (df : DataFrame V) (name : string) : list nat :=
  positions_from 0 (columns df) name.

(** The cells of a row at the given column positions. *)
Definition restrict (positions : list nat) (r : Key * list (pyval V)) : Key * list (pyval V) :=
  (r.1, (λ p, default NaN (r.2 !! p)) <$> positions).

(** [df[features]] for a list of column names: for each name of the list
    in turn the columns of that name, every one of them where several
    columns have the name; a [KeyError] when no column has a name of the
    list. *)
Definition getitem_columns (df : DataFrame V) (features : list string) : result (DataFrame V) :=
  if bool_decide (Forall (λ name, name ∈ columns df) features) then
    let positions := features ≫= column_positions df in
    Ok (mkDataFrame (omap (λ p, columns df !! p) positions) (restrict positions <$> rows df))
  else Raise KeyError.

(** [df.dropna(axis='index', how='any')] *)
Definition dropna (df : DataFrame V) : DataFrame V :=
  mkDataFrame (columns df) (filter (λ r, forallb notnull r.2) (rows df)).

(** [df[mask]] for a mask over the index labels *)
Definition select_rows (keep : Key → bool) (df : DataFrame V) : DataFrame V :=
  mkDataFrame (columns df) (filter (λ r, keep r.1) (rows df)).

(** *** [tus.filter_features_and_drop_nan] *)

Inductive features_arg : Type :=
| FeatureTuple (features : list string)
| FeatureList (features : list string).

(** [list(features)] for a tuple, the list itself otherwise *)
Definition feature_list (features : features_arg) : list string :=
  match features with
  | FeatureTuple features => features
  | FeatureList features => features
  end.

(** A row with a value in every column of the table that has one of the
    names: none of these cells is missing. *)
Definition complete (seed : DataFrame V) (names : list string) (r : Key * list (pyval V))
    : Prop :=
  ∀ name p, name ∈ names → columns seed !! p = Some name →
            isnull (default NaN (r.2 !! p)) = false.

Definition filter_features_and_drop_nan (seed : DataFrame V) (features : features_arg)
    : result (DataFrame V) :=
  let features := feature_list features in
  filtered_seed ← dropna <$> getitem_columns seed features;
  if bool_decide (0 < shape0 filtered_seed) then Ok filtered_seed
  else Raise AssertionError.

End frames.

(** *** [tus.filter_features]

    The time series is indexed by individual, day type and time of day.
    [str] is the name of a feature, from the feature enumerations. *)
Section filter_features.
Context {V W Feature D T : Type}.
Variable str : Feature → string.

Definition droplevel (i : Key * D * T) : Key := i.1.1.

Definition filter_features (seed : DataFrame V) (markov_ts : list (Key * D * T * W))
    (features : list Feature) : result (DataFrame V * list (Key * D * T * W)) :=
  seed ← filter_features_and_drop_nan seed (FeatureList (str <$> features));
  let markov_ts :=
    filter (λ r, bool_decide (droplevel r.1 ∈ index seed)) markov_ts in
  let seed :=
    select_rows (λ k, bool_decide (k ∈ droplevel <$> markov_ts.*1)) seed in
  Ok (seed, markov_ts).

End filter_features.

(** ** The household validator of [seed.py] *)
Section household_validator.
Variable HOUSEHOLD_TYPE_FEATURE_NAME : string.

(** [seed.groupby((SN1, SN2))]: the household ids, with the rows of each *)
Definition groupby_household (seed : DataFrame uo_value)
    : list (Z * Z * list (Key * list (pyval uo_value))) :=
  (λ h, (h, filter (λ r, household_id r.1 = h) (rows seed)))
    <$> remove_dups (household_id <$> index seed).

(** The aggregations [first] and [count] of a group's column.  [first]
    is the first entry that is not [np.nan], and [np.nan] when there is
    none; an entry [None] is not skipped.  [count] is the number of the
    entries that are not missing. *)
Definition agg_first (cells : list (pyval uo_value)) : pyval uo_value :=
  default NaN (head (filter (λ c, c ≠ NaN) cells)).

Definition agg_count (cells : list (pyval uo_value)) : nat :=
  length (filter (λ c, notnull c) cells).

(** A row of [households]: the household id, and the columns [type]
    (renamed from [first]) and [count]. *)
Record household : Type := mkHousehold {
  hh_id : Z * Z;
  type : pyval uo_value;
  count : nat;
}.

Definition agg_households (position : nat)
    (hh_groups : list (Z * Z * list (Key * list (pyval uo_value)))) : list household :=
  (λ g, let cells := (λ r : Key * list (pyval uo_value), default NaN (r.2 !! position)) <$> g.2 in
        mkHousehold g.1 (agg_first cells) (agg_count cells)) <$> hh_groups.

(** [households.size]: the attribute [size] of a DataFrame, the number of
    its elements, rows times columns.  [households] has the two columns
    [type] and [count]. *)
Definition size (households : list household) : nat := length households * 2.

(** [households[(households.type == ty) & cond]], where [cond] is one
    boolean for the whole table *)
Definition select_type (households : list household) (ty : HouseholdType.t) (cond : bool)
    : list household :=
  filter (λ h, bool_decide (type h = Val (OfHouseholdType ty)) && cond) households.

(** [seed.drop(labels, level=None)] for household ids as labels, on a
    table in which no index label occurs twice and the rows of a household
    are adjacent: the rows of the listed households go.  The properties
    below that depend on it are stated for such tables ([grouped]); on
    other tables [MultiIndex.drop] may remove a range of positions or
    raise. *)
Definition drop (seed : DataFrame uo_value) (labels : list (Z * Z)) : DataFrame uo_value :=
  mkDataFrame (columns seed) (filter (λ r, household_id r.1 ∉ labels) (rows seed)).

(** [invalids] is the [|] of the four selections; of it the validator
    uses the index only, the household ids of all four. *)
Definition _filter_invalid_households (seed : DataFrame uo_value)
    : result (DataFrame uo_value) :=
  match column_position seed HOUSEHOLD_TYPE_FEATURE_NAME with
  | None => Raise KeyError
  | Some position =>
    let hh_groups := groupby_household seed in
    let households := agg_households position hh_groups in
    let invalids :=
      select_type households HouseholdType.COUPLE_WITH_DEPENDENT_CHILDREN
        (size households <=? 2)
      ++ select_type households HouseholdType.COUPLE_WITHOUT_DEPENDENT_CHILDREN
        (negb (size households =? 2))
      ++ select_type households HouseholdType.LONE_PARENT_WITH_DEPENDENT_CHILDREN
        (size households <? 2)
      ++ select_type households HouseholdType.MULTI_PERSON_HOUSEHOLD
        (size households <? 2) in
    Ok (drop seed (hh_id <$> invalids))
  end.

End household_validator.

(** ** The rule of the specification for households

    The rule as section 4.3 of the specification and the docstring of
    [read_seed] word it, on the type of a household and the number of its
    members; for comparison with [_filter_invalid_households]. *)
Definition spec_invalid_household (ty : pyval uo_value) (members : nat) : bool :=
  bool_decide (ty = Val (OfHouseholdType HouseholdType.COUPLE_WITH_DEPENDENT_CHILDREN))
    && (members <=? 2)
  || bool_decide (ty = Val (OfHouseholdType HouseholdType.COUPLE_WITHOUT_DEPENDENT_CHILDREN))
    && negb (members =? 2)
  || bool_decide (ty = Val (OfHouseholdType HouseholdType.LONE_PARENT_WITH_DEPENDENT_CHILDREN))
    && (members <? 2)
  || bool_decide (ty = Val (OfHouseholdType HouseholdType.MULTI_PERSON_HOUSEHOLD))
    && (members <? 2).

(** The rows of a household in a table, and the household type of its
    first member in the column at [position] *)
Definition household_rows (df : DataFrame uo_value) (h : Z * Z)
    : list (Key * list (pyval uo_value)) :=
  filter (λ r, household_id r.1 = h) (rows df).

Definition household_type (df : DataFrame uo_value) (position : nat) (h : Z * Z)
    : pyval uo_value :=
  default NaN (r ← head (household_rows df h); r.2 !! position).

(** ** Tables as objects

    The row transformer builds its result by assigning columns to a new
    DataFrame.  Here a DataFrame is an object of a store: it has its index
    and, per column name, a reference to the block that holds the cells of
    the column.  A Series refers to a block as well, so that a column taken
    from a table shares its cells with the table. *)

Definition loc : Type := nat.

Inductive object (V : Type) : Type :=
| Block (values : list (pyval V))
| Frame (index : list Key) (cols : list (string * loc)).

Arguments Block {V} values.
Arguments Frame {V} index cols.

Record Series : Type := mkSeries {
  series_index : list Key;
  series_values : loc;
}.

(** What [individual_data[name]] gives: a Series for one column name, a
    DataFrame for a list of column names. *)
Inductive pandas : Type :=
| OfSeries (s : Series)
| OfFrame (df : loc).

Inductive variable_name : Type :=
| Column (name : string)
| Columns (names : list string).

(** Computations on the store that may raise *)
Definition M (V A : Type) : Type := gmap loc (object V) → result (A * gmap loc (object V)).

#[global] Instance M_ret {V : Type} : MRet (M V) := λ A a σ, Ok (a, σ).

#[global] Instance M_bind {V : Type} : MBind (M V) := λ A B f m σ,
  match m σ with
  | Ok (a, σ') => f a σ'
  | Raise e => Raise e
  end.

#[global] Instance M_fmap {V : Type} : FMap (M V) := λ A B f m σ,
  match m σ with
  | Ok (a, σ') => Ok (f a, σ')
  | Raise e => Raise e
  end.

Section objects.
Context {V : Type}.

Definition raise {A : Type} (e : exn) : M V A := λ _, Raise e.

Definition alloc (o : object V) : M V loc := λ σ,
  let l := fresh (dom σ) in Ok (l, <[l := o]> σ).

Definition store (l : loc) (o : object V) : M V unit := λ σ, Ok ((), <[l := o]> σ).

Definition read_block (l : loc) : M V (list (pyval V)) := λ σ,
  match σ !! l with
  | Some (Block values) => Ok (values, σ)
  | _ => Raise Fault
  end.

Definition read_frame (l : loc) : M V (list Key * list (string * loc)) := λ σ,
  match σ !! l with
  | Some (Frame index cols) => Ok ((index, cols), σ)
  | _ => Raise Fault
  end.

Fixpoint for_each {A : Type} (l : list A) (body : A → M V unit) : M V unit :=
  match l with
  | [] => mret ()
  | x :: l => _ ← body x; for_each l body
  end.

Definition find_column (name : string) (cols : list (string * loc)) : option loc :=
  snd <$> head (filter (λ c, c.1 = name) cols).

(** [df.name] and [df[name]]: the column as a Series on the block of the
    table; [e] is the exception for a name that is no column. *)
Definition column (df : loc) (name : string) (e : exn) : M V Series :=
  '(index, cols) ← read_frame df;
  match find_column name cols with
  | Some block => mret (mkSeries index block)
  | None => raise e
  end.

(** [df[names]]: a new table with copies of the columns *)
Definition copy_column (cols : list (string * loc)) (name : string) : M V (string * loc) :=
  match find_column name cols with
  | Some block =>
      values ← read_block block;
      new_block ← alloc (Block values);
      mret (name, new_block)
  | None => raise KeyError
  end.

Definition copy_columns (df : loc) (names : list string) : M V loc :=
  '(index, cols) ← read_frame df;
  new_cols ← mapM (copy_column cols) names;
  alloc (Frame index new_cols).

Definition getitem (df : loc) (name : variable_name) : M V pandas :=
  match name with
  | Column name => OfSeries <$> column df name KeyError
  | Columns names => OfFrame <$> copy_columns df names
  end.

(** [pd.DataFrame(index=df.index)] *)
Definition DataFrame_of_index (df : loc) : M V loc :=
  '(index, _) ← read_frame df;
  alloc (Frame index []).

(** [value.reindex(index)]: the value at each label, missing where the
    Series has none *)
Definition reindex (index : list Key) (labels : list Key) (values : list (pyval V))
    : list (pyval V) :=
  (λ k, default NaN (snd <$> head (filter (λ kv, kv.1 = k) (zip labels values)))) <$> index.

Definition set_column (name : string) (block : loc) (cols : list (string * loc))
    : list (string * loc) :=
  if bool_decide (name ∈ cols.*1)
  then (λ c, if bool_decide (c.1 = name) then (name, block) else c) <$> cols
  else cols ++ [(name, block)].

(** A column of missing values, for the name of [c] *)
Definition missing_column (rows : nat) (c : string * loc) : M V (string * loc) :=
  block ← alloc (Block (replicate rows NaN));
  mret (c.1, block).

(** [df[name] = value] for a Series [value].  A table without rows takes
    the index of the value, its columns are filled with missing values.
    The cells of the value are aligned with the index and copied into a
    new block; a value that has a label twice cannot be aligned. *)
Definition setitem (df : loc) (name : string) (value : Series) : M V unit :=
  '(index, cols) ← read_frame df;
  values ← read_block (series_values value);
  '(index, cols) ←
    (if bool_decide (index = [])
     then
       cols ← mapM (missing_column (length (series_index value))) cols;
       mret (series_index value, cols)
     else mret (index, cols));
  aligned ←
    (if bool_decide (series_index value = index) then mret values
     else if bool_decide (NoDup (series_index value))
          then mret (reindex index (series_index value) values)
          else raise ValueError);
  block ← alloc (Block aligned);
  store df (Frame index (set_column name block cols)).

(** *** [seed._map_to_internal_types]

    The feature enumerations are not among the sources: [features] stands
    for [chain(PeopleFeature, HouseholdFeature)], and [str],
    [tus_variable_name] and [tus_value_to_uo_value] for the name, the
    attribute and the method of a feature. *)
Section map_to_internal_types.
Context {Feature : Type}.
Variable features : list Feature.
Variable str : Feature → string.
Variable tus_variable_name : Feature → variable_name.
Variable tus_value_to_uo_value : Feature → pandas → Series → M V Series.

(** The body of the loop over the features *)
Definition map_feature (individual_data : loc) (age : Series) (seed : loc)
    (feature : Feature) : M V unit :=
  raw_values ← getitem individual_data (tus_variable_name feature);
  uo_values ← tus_value_to_uo_value feature raw_values age;
  setitem seed (str feature) uo_values.

Definition _map_to_internal_types (individual_data : loc) : M V loc :=
  age ← column individual_data "IAGE" AttributeError;
  seed ← DataFrame_of_index individual_data;
  _ ← for_each features (map_feature individual_data age seed);
  mret seed.

End map_to_internal_types.

End objects.

(** ** Well-formed references

    A table refers to blocks, a Series to a block; the index of what
    [individual_data[name]] gives. *)
Section references.
Context {V : Type}.
Implicit Types (σ : gmap loc (object V)).

Definition is_block σ (l : loc) : Prop := ∃ values, σ !! l = Some (Block values).

Definition series_valid σ (s : Series) : Prop := is_block σ (series_values s).

Definition frame_valid σ (df : loc) : Prop :=
  ∃ index cols, σ !! df = Some (Frame index cols) ∧ ∀ c, c ∈ cols → is_block σ c.2.

Definition pandas_valid σ (x : pandas) : Prop :=
  match x with
  | OfSeries s => series_valid σ s
  | OfFrame df => frame_valid σ df
  end.

Definition pandas_index σ (x : pandas) : list Key :=
  match x with
  | OfSeries s => series_index s
  | OfFrame df =>
      match σ !! df with
      | Some (Frame index _) => index
      | _ => []
      end
  end.

Definition variable_names (name : variable_name) : list string :=
  match name with
  | Column name => [name]
  | Columns names => names
  end.

End references.

(** The index of a table of the store, and [df.shape[0]], the number of
    its rows *)
Definition frame_index {V : Type} (σ : gmap loc (object V)) (df : loc) : option (list Key) :=
  match σ !! df with
  | Some (Frame index _) => Some index
  | _ => None
  end.

Definition frame_shape0 {V : Type} (σ : gmap loc (object V)) (df : loc) : option nat :=
  length <$> frame_index σ df.

(** The invariants of the loop of the row transformer.  [constructing]:
    the objects of the store [σ0] before the call are as they were, and the
    table under construction refers to new blocks only.  [indexed]: the
    table under construction has, besides, the index of the input. *)
Definition constructing {V : Type} (σ0 : gmap loc (object V)) (seed : loc)
    (σ : gmap loc (object V)) : Prop :=
  σ0 ⊆ σ ∧ ∃ index cols, σ !! seed = Some (Frame index cols) ∧ ∀ c, c ∈ cols → c.2 ∉ dom σ0.

Definition indexed {V : Type} (σ0 : gmap loc (object V)) (individual_data seed : loc)
    (σ : gmap loc (object V)) : Prop :=
  constructing σ0 seed σ ∧ is_Some (frame_index σ0 individual_data)
  ∧ frame_index σ seed = frame_index σ0 individual_data.

(** ** Example tables *)

Definition household_type_name : string := "HouseholdFeature.HOUSEHOLD_TYPE".

Definition household_type_cell (ty : HouseholdType.t) : list (pyval uo_value) :=
  [Val (OfHouseholdType ty)].

(** A couple with dependent children of one member, and a second household *)
Definition seed_small_family : DataFrame uo_value :=
  mkDataFrame [household_type_name]
    [((1, 1, 1)%Z, household_type_cell HouseholdType.COUPLE_WITH_DEPENDENT_CHILDREN);
     ((2, 1, 1)%Z, household_type_cell HouseholdType.ONE_PERSON_HOUSEHOLD)].

(** A couple without dependent children of two members, and a second
    household *)
Definition seed_couple : DataFrame uo_value :=
  mkDataFrame [household_type_name]
    [((1, 1, 1)%Z, household_type_cell HouseholdType.COUPLE_WITHOUT_DEPENDENT_CHILDREN);
     ((1, 1, 2)%Z, household_type_cell HouseholdType.COUPLE_WITHOUT_DEPENDENT_CHILDREN);
     ((2, 1, 1)%Z, household_type_cell HouseholdType.ONE_PERSON_HOUSEHOLD)].

(** A single household, a couple without dependent children of one member *)
Definition seed_single_partner : DataFrame uo_value :=
  mkDataFrame [household_type_name]
    [((1, 1, 1)%Z, household_type_cell HouseholdType.COUPLE_WITHOUT_DEPENDENT_CHILDREN)].

(** A lone parent with a child, a couple without dependent children, and
    a person alone *)
Definition seed_three_households : DataFrame uo_value :=
  mkDataFrame [household_type_name]
    [((1, 1, 1)%Z, household_type_cell HouseholdType.LONE_PARENT_WITH_DEPENDENT_CHILDREN);
     ((1, 1, 2)%Z, household_type_cell HouseholdType.LONE_PARENT_WITH_DEPENDENT_CHILDREN);
     ((2, 1, 1)%Z, household_type_cell HouseholdType.COUPLE_WITHOUT_DEPENDENT_CHILDREN);
     ((2, 1, 2)%Z, household_type_cell HouseholdType.COUPLE_WITHOUT_DEPENDENT_CHILDREN);
     ((3, 1, 1)%Z, household_type_cell HouseholdType.ONE_PERSON_HOUSEHOLD)].

(** Two individuals, the carer status of the second unknown; a diary slot
    of the first and one of an individual who is not in the seed *)
Definition seed_carers : DataFrame uo_value :=
  mkDataFrame ["age"; "carer"]
    [((1, 1, 1)%Z, [Val (OfAgeStructure AgeStructure.AGE_30_TO_44); Val (OfCarer Carer.CARER)]);
     ((1, 1, 2)%Z, [Val (OfAgeStructure AgeStructure.AGE_10_TO_14); NaN])].

(** Two columns of the name [carer]: the first individual lacks the value
    of the second one, the second individual has both. *)
Definition seed_two_carer_columns : DataFrame uo_value :=
  mkDataFrame ["carer"; "age"; "carer"]
    [((1, 1, 1)%Z, [Val (OfCarer Carer.CARER); Val (OfAgeStructure AgeStructure.AGE_30_TO_44);
                    NaN]);
     ((1, 1, 2)%Z, [Val (OfCarer Carer.NO_CARER);
                    Val (OfAgeStructure AgeStructure.AGE_10_TO_14);
                    Val (OfCarer Carer.NO_CARER)])].

(** One individual, the carer status unknown *)
Definition seed_unknown_carer : DataFrame uo_value :=
  mkDataFrame ["age"; "carer"]
    [((1, 1, 1)%Z, [Val (OfAgeStructure AgeStructure.AGE_30_TO_44); NaN])].

Definition markov_ts_example : list (Key * string * nat * Activity.t) :=
  [((1, 1, 1)%Z, "weekday", 0, Activity.SLEEP);
   ((3, 1, 1)%Z, "weekday", 0, Activity.OTHER)].

(** ** An instance of the row transformer

    The carer status as the only feature.  A cell holds a raw code of
    [PROVCARE] or a category of [Carer]; the method of the feature maps the
    column through [CARER_MAP] into a new Series. *)
Definition carer_cell : Type := individual.PROVCARE.t + Carer.t.

Definition carer_value (c : pyval carer_cell) : pyval carer_cell :=
  match c with
  | Val (inl code) =>
      match map_code CARER_MAP (Val code) with
      | Val category => Val (inr category)
      | NaN => NaN
      | PyNone => PyNone
      end
  | _ => NaN
  end.

Definition carer_to_uo_value (feature : unit) (x : pandas) (age : Series)
    : M carer_cell Series :=
  match x with
  | OfSeries s =>
      values ← read_block (series_values s);
      block ← alloc (Block (carer_value <$> values));
      mret (mkSeries (series_index s) block)
  | OfFrame df =>
      '(index, _) ← read_frame df;
      block ← alloc (Block (replicate (length index) NaN));
      mret (mkSeries index block)
  end.

(** Two individuals of one household, with their ages and carer status *)
Definition individual_data_example : gmap loc (object carer_cell) :=
  {[ 0 := Frame [(1, 1, 1)%Z; (1, 1, 2)%Z] [("IAGE", 1); ("PROVCARE", 2)];
     1 := Block [NaN; NaN];
     2 := Block [Val (inl individual.PROVCARE.YES); Val (inl individual.PROVCARE.DKREFUSE)] ]}.

Definition seed_example : gmap loc (object carer_cell) :=
  <[ 3 := Frame [(1, 1, 1)%Z; (1, 1, 2)%Z] [("carer", 5)] ]>
    (<[ 4 := Block [Val (inr Carer.CARER); NaN] ]>
       (<[ 5 := Block [Val (inr Carer.CARER); NaN] ]> individual_data_example)).

(** ** Further notions for the properties *)

(** A table as the feature filter leaves it for the features [names]:
    every name is a column, the columns of the names, taken in the order
    of the names, are all the columns in their order, and every row has
    one cell per column, none of them missing. *)
Definition clean {V : Type} (names : list string) (df : DataFrame V) : Prop :=
  (∀ name, name ∈ names → name ∈ columns df)
  ∧ names ≫= column_positions df = seq 0 (length (columns df))
  ∧ Forall (λ r, length r.2 = length (columns df) ∧ Forall (λ c, isnull c = false) r.2)
      (rows df).

(** An individual with a value in every feature of [names]: some row of
    the seed with its label has no missing cell in the columns of these
    names. *)
Definition has_features {V : Type} (seed : DataFrame V) (names : list string) (k : Key)
    : Prop :=
  ∃ r, r ∈ rows seed ∧ r.1 = k ∧ complete seed names r.

(** The household ids of a table's rows, one for each run of adjacent
    rows of the same household *)
Fixpoint runs (ids : list (Z * Z)) : list (Z * Z) :=
  match ids with
  | [] => []
  | h :: ids =>
      match ids with
      | [] => [h]
      | h' :: _ => if decide (h = h') then runs ids else h :: runs ids
      end
  end.

(** A table on which [drop] is what [seed.drop] does: the names of the
    columns are distinct, no index label occurs twice, and the rows of a
    household are adjacent. *)
Definition grouped (seed : DataFrame uo_value) : Prop :=
  NoDup (columns seed) ∧ NoDup (index seed) ∧ NoDup (runs (household_id <$> index seed)).

(** No entry of the column at [position] is [None]: an entry is a
    category or [np.nan], as the code mappings give it. *)
Definition typed (seed : DataFrame uo_value) (position : nat) : Prop :=
  Forall (λ r, r.2 !! position ≠ Some PyNone) (rows seed).

(** The type of a household as the validator aggregates it: the first
    household type among its members that is not [np.nan] *)
Definition group_type (seed : DataFrame uo_value) (position : nat) (h : Z * Z)
    : pyval uo_value :=
  agg_first ((λ r : Key * list (pyval uo_value), default NaN (r.2 !! position))
               <$> household_rows seed h).

(** The households of a table *)
Definition households_of (seed : DataFrame uo_value) : list (Z * Z) :=
  remove_dups (household_id <$> index seed).

(** The names of the columns after the assignment of a column: a new
    name comes last, a name that the table has stays in its place. *)
Definition add_name (names : list string) (name : string) : list string :=
  if bool_decide (name ∈ names) then names else names ++ [name].

(** The table under construction has the names of the features assigned
    so far. *)
Definition named {V Feature : Type} (str : Feature → string) (seed : loc)
    (pre : list Feature) (σ : gmap loc (object V)) : Prop :=
  ∃ index cols, σ !! seed = Some (Frame index cols)
                ∧ cols.*1 = foldl add_name [] (str <$> pre).

(** * Properties *)

(** ** Dict literals *)
Section dict_facts.
Context {K : Type} `{Countable K} {V : Type}.
Implicit Types (items : list (K * V)) (k : K) (v : V).

Lemma dict_snoc items k v : dict (items ++ [(k, v)]) = <[k := v]> (dict items).
Proof. unfold dict. by rewrite foldl_snoc. Qed.

Lemma dict_lookup_None items k : dict items !! k = None ↔ k ∉ items.*1.
Proof.
  induction items as [| [k' v'] items IH] using rev_ind.
  - split; [intros _; apply not_elem_of_nil | done].
  - rewrite dict_snoc, fmap_app, elem_of_app, lookup_insert_None, IH. simpl.
    rewrite list_elem_of_singleton. intuition congruence.
Qed.

Lemma dict_lookup_elem items k v : dict items !! k = Some v → (k, v) ∈ items.
Proof.
  induction items as [| [k' v'] items IH] using rev_ind; [done |].
  rewrite dict_snoc, elem_of_app, list_elem_of_singleton.
  intros [[-> ->] | [_ Hin]]%lookup_insert_Some; auto.
Qed.

Lemma dict_lookup_NoDup items k v :
  NoDup items.*1 → (k, v) ∈ items → dict items !! k = Some v.
Proof.
  induction items as [| [k' v'] items IH] using rev_ind; [by intros _ ?%elem_of_nil |].
  rewrite fmap_app, NoDup_app, dict_snoc, elem_of_app, list_elem_of_singleton. simpl.
  intros (Hnd & Hfresh & _) [Hin | [= -> ->]].
  - rewrite lookup_insert_ne; [by apply IH |].
    intros ->. apply (Hfresh k); [| by apply list_elem_of_singleton].
    by apply (list_elem_of_fmap_2 fst _ (k, v)).
  - apply lookup_insert_eq.
Qed.

End dict_facts.

(** ** The mapping tables *)

Ltac by_computation := compute_done.

Lemma CODE_MAPPINGS_NoDup : Forall (λ m, NoDup (keys m)) CODE_MAPPINGS.
Proof. unfold CODE_MAPPINGS. repeat (constructor; [by_computation |]). constructor. Qed.

Lemma CODE_MAPPINGS_values :
  Forall (λ m, Forall (λ kv, kv.2 ≠ PyNone) (items m)) CODE_MAPPINGS.
Proof.
  unfold CODE_MAPPINGS.
  repeat (constructor;
          [apply (Forall_impl (λ kv, isnull kv.2 = false ∨ kv.2 = NaN));
           [by_computation | by intros [k [v | |]] [? | ?]] |]).
  constructor.
Qed.

Lemma CODE_MAPPINGS_elem (P : code_mapping → Prop) (m : code_mapping) :
  Forall P CODE_MAPPINGS → m ∈ CODE_MAPPINGS → P m.
Proof. intros HP Hm. by apply (proj1 (Forall_forall P CODE_MAPPINGS) HP). Qed.

Lemma table_lookup_item (m : code_mapping) (code : pyval (raw m)) (v : pyval (uo m)) :
  m ∈ CODE_MAPPINGS → (code, v) ∈ items m → table m !! code = Some v.
Proof.
  intros Hm Hin. apply dict_lookup_NoDup; [| done].
  by apply (CODE_MAPPINGS_elem (λ m, NoDup (keys m)) m CODE_MAPPINGS_NoDup).
Qed.

(** A code that the table does not list yields null, a listed code yields
    what the table says: a category or [np.nan]. *)
Lemma map_code_cases (m : code_mapping) (code : pyval (raw m)) :
  m ∈ CODE_MAPPINGS →
  (map_code (table m) code = NaN ∧ code ∉ keys m)
  ∨ (map_code (table m) code = NaN ∧ (code, NaN) ∈ items m)
  ∨ (∃ c, map_code (table m) code = Val c ∧ (code, Val c) ∈ items m).
Proof.
  intros Hm. unfold map_code, table.
  destruct (dict (items m) !! code) as [v |] eqn:Hlookup; simpl.
  - right. pose proof (dict_lookup_elem _ _ _ Hlookup) as Hin.
    pose proof (CODE_MAPPINGS_elem _ m CODE_MAPPINGS_values Hm) as Hvalues.
    rewrite Forall_forall in Hvalues. specialize (Hvalues _ Hin).
    destruct v as [c | |]; [right; by exists c | by left | done].
  - left. split; [done |]. by apply dict_lookup_None in Hlookup.
Qed.

Lemma map_code_item (m : code_mapping) (code : pyval (raw m)) (v : pyval (uo m)) :
  m ∈ CODE_MAPPINGS → (code, v) ∈ items m → map_code (table m) code = v.
Proof. intros Hm Hin. unfold map_code. by rewrite (table_lookup_item m code v Hm Hin). Qed.

Lemma null_codes_elem (m : code_mapping) (code : pyval (raw m)) :
  code ∈ null_codes m ↔ ∃ v, (code, v) ∈ items m ∧ isnull v = true.
Proof.
  unfold null_codes. rewrite list_elem_of_fmap. split.
  - intros ([k v] & -> & [Hnull Hin]%list_elem_of_filter). exists v. split; [done |].
    simpl in Hnull. by destruct (isnull v).
  - intros (v & Hin & Hnull). exists (code, v). split; [done |].
    apply list_elem_of_filter. split; [| done]. simpl. by rewrite Hnull.
Qed.

(** The codes that yield null: those that the table does not list and
    those that it lists with [np.nan] *)
Lemma map_code_null (m : code_mapping) (code : pyval (raw m)) :
  m ∈ CODE_MAPPINGS →
  isnull (map_code (table m) code) = true ↔ code ∉ keys m ∨ code ∈ null_codes m.
Proof.
  intros Hm. rewrite null_codes_elem.
  destruct (map_code_cases m code Hm) as [[-> Hcode] | [[-> Hin] | (c & -> & Hin)]].
  - split; [by left | done].
  - split; [| done]. intros _. right. by exists NaN.
  - split; [done |]. intros [Hcode | (v & Hin' & Hnull)].
    + exfalso. apply Hcode. unfold keys. by apply (list_elem_of_fmap_2 fst _ (code, Val c)).
    + pose proof (table_lookup_item m code _ Hm Hin) as H1.
      pose proof (table_lookup_item m code _ Hm Hin') as H2.
      rewrite H1 in H2. injection H2 as <-. done.
Qed.

Ltac by_position := repeat first [apply list_elem_of_here | apply list_elem_of_further].

(** C4, as the specification states it, fails: the code of [TOTPINC] for
    respondents under 16, to whom the income question does not apply, is
    listed with the category [BELOW_16] and yields it, not null.  Whatever
    codes are read as not applicable, when this one is among them the
    clause of the specification does not hold of [PERSONAL_INCOME_MAP]. *)
Lemma ineligible_under_16_is_mapped :
  (Val individual.TOTPINC.INELIGIBLE___UNDER_16YRS, Val PersonalIncome.BELOW_16)
    ∈ PERSONAL_INCOME_MAP_items
  ∧ map_code PERSONAL_INCOME_MAP (Val individual.TOTPINC.INELIGIBLE___UNDER_16YRS)
    = Val PersonalIncome.BELOW_16
  ∧ isnull (map_code PERSONAL_INCOME_MAP (Val individual.TOTPINC.INELIGIBLE___UNDER_16YRS))
    = false
  ∧ ∀ not_applicable : individual.TOTPINC.t → bool,
      not_applicable individual.TOTPINC.INELIGIBLE___UNDER_16YRS = true →
      ¬ not_applicable_yields_null PERSONAL_INCOME_MAPPING not_applicable.
Proof.
  split; [by_position |]. split; [vm_compute; reflexivity |].
  split; [vm_compute; reflexivity |].
  intros not_applicable Hcode Hclaim.
  specialize (Hclaim individual.TOTPINC.INELIGIBLE___UNDER_16YRS Hcode).
  vm_compute in Hclaim. discriminate Hclaim.
Qed.

(** C4, amended: every mapping is total.  Applied to any raw code, a table
    gives a category that it lists for the code, or null, and no
    exception.  A listed code gives what the table lists for it.  A code
    gives null exactly when the table does not list it or lists it with
    [np.nan]; these are the 22 codes below, and no code of
    [HOUSEHOLDTYPE_MAP], [AGE_MAP], [PSEUDO_MAP] and [REGION_MAP].  The
    other codes for respondents who do not know, cannot be classified or
    to whom the question does not apply give a category: [BELOW_16] for
    the respondents under 16, [INACTIVE_OTHER], [MULTI_PERSON_HOUSEHOLD],
    [IMPLICIT] and [TRAVELLING], and [SINGLETON] for a missing value under
    [PSEUDO_MAP].  The dwelling type decision table gives a category or
    null for every row of four fields, whatever they hold, and null where
    the first field is [MISSING1]; only a row that has not four fields
    raises, a [ValueError]. *)
Theorem code_mappings_total :
  (∀ (m : code_mapping) (code : pyval (raw m)),
      m ∈ CODE_MAPPINGS →
      (map_code (table m) code = NaN
       ∨ ∃ c, map_code (table m) code = Val c ∧ (code, Val c) ∈ items m)
      ∧ (code ∉ keys m → map_code (table m) code = NaN)
      ∧ (∀ v, (code, v) ∈ items m → map_code (table m) code = v)
      ∧ (isnull (map_code (table m) code) = true ↔ code ∉ keys m ∨ code ∈ null_codes m))
  ∧ (null_codes LOCATION_MAPPING
       = [Val diary.WHER_001._MISSING; Val diary.WHER_001.MISSING2;
          Val diary.WHER_001._UNSPECIFIED_LOCATION;
          Val diary.WHER_001._UNSPECIFIED_LOCATION_NOT_TRAVELLING;
          Val diary.WHER_001._OTHER_SPECIFIED_LOCATION_NOT_TRAVELLING;
          Val diary.WHER_001._ILLEGIBLE_LOCATION_OR_TRANSPORT_MODE]
     ∧ null_codes ACTIVITY_MAPPING
       = [Val diary.ACT1_001.NO_MAIN_ACTIVITY__NO_IDEA_WHAT_IT_MIGHT_BE;
          Val diary.ACT1_001.NO_MAIN_ACTIVITY__SOME_IDEA_WHAT_IT_MIGHT_BE;
          Val diary.ACT1_001.ILLEGIBLE_ACTIVITY;
          Val diary.ACT1_001.UNSPECIFIED_TIME_USE;
          Val diary.ACT1_001.MISSING1]
     ∧ null_codes ECONOMIC_ACTIVITY_MAPPING
       = [Val individual.ECONACT2.ADULT___NOT_CLASSIFIABLE_EITHER_EMP__UNEMP_OR_INACTIVE;
          Val individual.ECONACT2.ECON_ACTIVE___DK_EMPSELFFULLPART]
     ∧ null_codes QUALIFICATION_MAPPING
       = [Val individual.HIQUAL4.QUALIFICATIONS___CITY_AND_GUILDS___DK_LEVEL;
          Val individual.HIQUAL4.QUALIFICATIONS___OTHER___BUT_DK_GRADELEVEL;
          Val individual.HIQUAL4.ELIGIBLE___NO_ANSWER;
          Val individual.HIQUAL4.QUALIFICATIONS___BUT_DK_WHICH;
          Val individual.HIQUAL4.QUALIFICATIONS___GCSE___BUT_DK_GRADE]
     ∧ null_codes HOUSEHOLDTYPE_MAPPING = []
     ∧ null_codes AGE_MAPPING = []
     ∧ null_codes PSEUDO_MAPPING = []
     ∧ null_codes CARER_MAPPING = [Val individual.PROVCARE.DKREFUSE]
     ∧ null_codes PERSONAL_INCOME_MAPPING
       = [Val individual.TOTPINC.INELIGIBLE___NOT_CURRENTLY_EMPLOYED_SELF_EMPLOYED;
          Val individual.TOTPINC.ELIGIBLE_CURRENT_EMPLOYEE_OR_SELF_EMP___DK_REFUSE_INCOME]
     ∧ null_codes POPULATION_DENSITY_MAPPING = [Val individual.POP_DEN2.MISSING]
     ∧ null_codes REGION_MAPPING = [])
  ∧ (map_code PERSONAL_INCOME_MAP (Val individual.TOTPINC.INELIGIBLE___UNDER_16YRS)
       = Val PersonalIncome.BELOW_16
     ∧ map_code ECONOMIC_ACTIVITY_MAP
         (Val individual.ECONACT2.UNDER_16YRS___INELIGIBLE_FOR_EMPLOYMENT_QUESTIONS)
       = Val EconomicActivity.BELOW_16
     ∧ map_code ECONOMIC_ACTIVITY_MAP (Val individual.ECONACT2.ECON_INACTIVE___DK_REASONS)
       = Val EconomicActivity.INACTIVE_OTHER
     ∧ map_code QUALIFICATION_MAP
         (Val individual.HIQUAL4.UNDER_16YRS___INELIGIBLE_FOR_QUALIFICATIONS_QUESTIONS)
       = Val Qualification.BELOW_16
     ∧ map_code HOUSEHOLDTYPE_MAP
         (Val individual.HHTYPE4.UNCLASSIFIED___MARRIED_COUPLES_IN_COMPLEX_HHLDS)
       = Val HouseholdType.MULTI_PERSON_HOUSEHOLD
     ∧ map_code HOUSEHOLDTYPE_MAP
         (Val individual.HHTYPE4.UNCLASSIFIED___COHABITING_COUPLES_IN_COMPLEX_HHLDS)
       = Val HouseholdType.MULTI_PERSON_HOUSEHOLD
     ∧ map_code HOUSEHOLDTYPE_MAP
         (Val individual.HHTYPE4.UNCLASSIFIED___SINGLE_PARENTS_IN_COMPLEX_HHLDS)
       = Val HouseholdType.MULTI_PERSON_HOUSEHOLD
     ∧ map_code HOUSEHOLDTYPE_MAP
         (Val individual.HHTYPE4.UNCLASSIFIED___OTHER_HHLDS_WITHOUT_COUPLES_EG_BROTHERS_DK)
       = Val HouseholdType.MULTI_PERSON_HOUSEHOLD
     ∧ map_code LOCATION_MAP
         (Val diary.WHER_001.MAIN_ACTVTY_EQUAL_SLEEPWORKSTUDY___NO_CODE_REQUIRED)
       = Val Location.IMPLICIT
     ∧ map_code LOCATION_MAP (Val diary.WHER_001._UNSPECIFIED_PRIVATE_TRANSPORT_MODE)
       = Val Location.TRAVELLING
     ∧ map_code LOCATION_MAP
         (Val diary.WHER_001._TRAVELLING_BY_PASSENGER_CAR_DRIVER_STATUS_UNSPECIFIED)
       = Val Location.TRAVELLING
     ∧ map_code LOCATION_MAP (Val diary.WHER_001._UNSPECIFIED_PUBLIC_TRANSPORT_MODE)
       = Val Location.TRAVELLING
     ∧ map_code LOCATION_MAP (Val diary.WHER_001._UNSPECIFIED_TRANSPORT_MODE)
       = Val Location.TRAVELLING
     ∧ map_code PSEUDO_MAP NaN = Val Pseudo.SINGLETON)
  ∧ (∀ hq13a hq13b hq13c hq13d,
        ∃ v, dwellingtype_map_row [hq13a; hq13b; hq13c; hq13d] = Ok v
             ∧ ((∃ c, v = Val c) ∨ isnull v = true))
  ∧ (∀ row, length row ≠ 4 → dwellingtype_map_row row = Raise ValueError)
  ∧ (∀ row, (∃ c, dwellingtype_map row = Val c) ∨ isnull (dwellingtype_map row) = true)
  ∧ (∀ hq13b hq13c hq13d,
        dwellingtype_map (Val household.HQ13A.MISSING1, hq13b, hq13c, hq13d) = NaN).
Proof.
  split; [| split; [| split; [| split; [| split; [| split]]]]].
  - intros m code Hm. split; [| split; [| split]].
    + destruct (map_code_cases m code Hm) as [[? _] | [[? _] | [c ?]]]; eauto.
    + intros Hcode. unfold map_code, table.
      by rewrite (proj2 (dict_lookup_None (items m) code) Hcode).
    + intros v. by apply map_code_item.
    + by apply map_code_null.
  - repeat split; vm_compute; reflexivity.
  - repeat split; vm_compute; reflexivity.
  - intros hq13a hq13b hq13c hq13d. eexists. split; [reflexivity |].
    destruct (dwellingtype_map _) as [c | |]; eauto.
  - intros [| a [| b [| c [| d [| e row]]]]] Hlen; simpl in *; done.
  - intros row. destruct (dwellingtype_map row) as [c | |]; eauto.
  - done.
Qed.

Lemma code_mappings_total_witness :
  CARER_MAPPING ∈ CODE_MAPPINGS
  ∧ (map_code CARER_MAP (Val individual.PROVCARE.DKREFUSE) = NaN
     ∨ ∃ c, map_code CARER_MAP (Val individual.PROVCARE.DKREFUSE) = Val c
            ∧ (Val individual.PROVCARE.DKREFUSE, Val c) ∈ CARER_MAP_items)
  ∧ (Val individual.PROVCARE.DKREFUSE ∉ keys CARER_MAPPING →
     map_code CARER_MAP (Val individual.PROVCARE.DKREFUSE) = NaN)
  ∧ (∀ v, (Val individual.PROVCARE.DKREFUSE, v) ∈ CARER_MAP_items →
          map_code CARER_MAP (Val individual.PROVCARE.DKREFUSE) = v)
  ∧ (isnull (map_code CARER_MAP (Val individual.PROVCARE.DKREFUSE)) = true ↔
     Val individual.PROVCARE.DKREFUSE ∉ keys CARER_MAPPING
     ∨ Val individual.PROVCARE.DKREFUSE ∈ null_codes CARER_MAPPING).
Proof.
  split; [by_position |].
  apply (proj1 code_mappings_total CARER_MAPPING (Val individual.PROVCARE.DKREFUSE)).
  by_position.
Defined.

(** C8: every mapping table is deterministic.  Whatever category a table
    lists for a raw code, looking the code up gives that category, so that
    two applications to the code agree. *)
Theorem mapping_deterministic (m : code_mapping) (code : pyval (raw m))
    (v1 v2 : pyval (uo m)) :
  m ∈ CODE_MAPPINGS → (code, v1) ∈ items m → (code, v2) ∈ items m →
  table m !! code = Some v1 ∧ table m !! code = Some v2 ∧ v1 = v2.
Proof.
  intros Hm Hin1 Hin2.
  pose proof (table_lookup_item m code v1 Hm Hin1) as H1.
  pose proof (table_lookup_item m code v2 Hm Hin2) as H2.
  repeat split; [done | done | congruence].
Qed.

Lemma mapping_deterministic_witness :
  table ECONOMIC_ACTIVITY_MAPPING !! Val individual.ECONACT2.ECON_INACTIVE___RETIRED
    = Some (Val EconomicActivity.RETIRED)
  ∧ table ECONOMIC_ACTIVITY_MAPPING !! Val individual.ECONACT2.ECON_INACTIVE___RETIRED
    = Some (Val EconomicActivity.RETIRED)
  ∧ Val EconomicActivity.RETIRED = Val EconomicActivity.RETIRED.
Proof.
  apply (mapping_deterministic ECONOMIC_ACTIVITY_MAPPING
           (Val individual.ECONACT2.ECON_INACTIVE___RETIRED)); by_position.
Defined.

(** ** The age bands *)

Lemma band_ranges :
  (λ band, (band_lo band, band_hi band)) <$> AgeStructure.members
  = [(8, 9); (10, 14); (15, 15); (16, 17); (18, 19); (20, 24); (25, 29); (30, 44);
     (45, 59); (60, 64); (65, 74); (75, 84); (85, 89); (90, 99)]%Z.
Proof. vm_compute. reflexivity. Qed.

Lemma AGE_MAP_band (band : AgeStructure.t) (age : Z) :
  (band_lo band ≤ age ≤ band_hi band)%Z → AGE_MAP !! Val age = Some (Val band).
Proof.
  intros Hage.
  assert (Hall : Forall (λ age, AGE_MAP !! Val age = Some (Val band))
                   (seqZ (band_lo band) (band_hi band - band_lo band + 1))).
  { destruct band; compute_done. }
  rewrite Forall_forall in Hall. apply Hall, elem_of_seqZ. lia.
Qed.

Lemma AGE_MAP_defined (age : Z) :
  (8 ≤ age ≤ 99)%Z →
  ∃ band, AGE_MAP !! Val age = Some (Val band) ∧ (band_lo band ≤ age ≤ band_hi band)%Z.
Proof.
  intros Hage.
  assert (Hall : Forall (λ age, Exists (λ band,
                     AGE_MAP !! Val age = Some (Val band)
                     ∧ (band_lo band ≤ age ≤ band_hi band)%Z) AgeStructure.members)
                   (seqZ 8 92)).
  { compute_done. }
  rewrite Forall_forall in Hall.
  destruct (proj1 (Exists_exists _ _) (Hall age ltac:(apply elem_of_seqZ; lia)))
    as (band & _ & Hband).
  by exists band.
Qed.

(** C6: the age mapping is a lookup in bands.  Ages 8 and 9 map to
    [AGE_8_TO_9], the ages from 10 to 14 to [AGE_10_TO_14], any two ages
    within the range of one band map to the category of the band, and
    every age from 8 to 99 lies in a band and is mapped. *)
Theorem age_mapping_banded :
  AGE_MAP !! Val 8%Z = Some (Val AgeStructure.AGE_8_TO_9)
  ∧ AGE_MAP !! Val 9%Z = Some (Val AgeStructure.AGE_8_TO_9)
  ∧ (∀ age : Z, (10 ≤ age ≤ 14)%Z → AGE_MAP !! Val age = Some (Val AgeStructure.AGE_10_TO_14))
  ∧ (∀ (band : AgeStructure.t) (age1 age2 : Z),
        (band_lo band ≤ age1 ≤ band_hi band)%Z → (band_lo band ≤ age2 ≤ band_hi band)%Z →
        AGE_MAP !! Val age1 = Some (Val band) ∧ AGE_MAP !! Val age2 = AGE_MAP !! Val age1)
  ∧ (∀ age : Z, (8 ≤ age ≤ 99)%Z →
        ∃ band, AGE_MAP !! Val age = Some (Val band)
                ∧ (band_lo band ≤ age ≤ band_hi band)%Z).
Proof.
  split; [compute_done |]. split; [compute_done |]. split; [| split].
  - intros age Hage. by apply (AGE_MAP_band AgeStructure.AGE_10_TO_14).
  - intros band age1 age2 H1 H2. by rewrite !(AGE_MAP_band band).
  - apply AGE_MAP_defined.
Qed.

Lemma age_mapping_banded_witness :
  AGE_MAP !! Val 37%Z = Some (Val AgeStructure.AGE_30_TO_44)
  ∧ AGE_MAP !! Val 44%Z = AGE_MAP !! Val 37%Z.
Proof.
  destruct age_mapping_banded as (_ & _ & _ & Hband & _).
  apply (Hband AgeStructure.AGE_30_TO_44 37%Z 44%Z); vm_compute; split; discriminate.
Defined.

(** ** The feature filters of [tus.py] *)
Section filter_facts.
Context {V : Type}.
Implicit Types (seed selected filtered df : DataFrame V) (features : features_arg).
Implicit Types (r : Key * list (pyval V)) (cols names : list string) (name : string).

(** *** The columns of a name *)

Lemma positions_from_elem cols name (i p : nat) :
  p ∈ positions_from i cols name ↔ ∃ j, p = i + j ∧ cols !! j = Some name.
Proof.
  revert i. induction cols as [| c cols IH]; intros i; simpl.
  - split; [by intros ?%elem_of_nil | by intros (j & _ & ?)].
  - destruct (decide (c = name)) as [-> | Hne].
    + rewrite elem_of_cons, IH. split.
      * intros [-> | (j & -> & Hj)]; [exists 0 | exists (S j)]; (split; [lia | done]).
      * intros ([| j] & -> & Hj); [left; lia | right; exists j; split; [lia | done]].
    + rewrite IH. split.
      * intros (j & -> & Hj). exists (S j). split; [lia | done].
      * intros ([| j] & -> & Hj); [simpl in Hj; congruence | exists j; split; [lia | done]].
Qed.

Lemma positions_from_app cols1 cols2 name (i : nat) :
  positions_from i (cols1 ++ cols2) name
  = positions_from i cols1 name ++ positions_from (i + length cols1) cols2 name.
Proof.
  revert i. induction cols1 as [| c cols1 IH]; intros i; simpl.
  - by rewrite Nat.add_0_r.
  - rewrite IH. replace (S i + length cols1) with (i + S (length cols1)) by lia.
    by destruct (decide (c = name)).
Qed.

Lemma positions_from_absent cols name (i : nat) :
  name ∉ cols → positions_from i cols name = [].
Proof.
  revert i. induction cols as [| c cols IH]; intros i Hname; simpl; [done |].
  apply not_elem_of_cons in Hname as [Hne Hname].
  rewrite decide_False by done. by apply IH.
Qed.

Lemma positions_from_replicate (n : nat) name (i : nat) :
  positions_from i (replicate n name) name = seq i n.
Proof.
  revert i. induction n as [| n IH]; intros i; simpl; [done |].
  rewrite decide_True by done. by rewrite IH.
Qed.

Lemma positions_from_NoDup cols name (i : nat) :
  NoDup cols → name ∈ cols → length (positions_from i cols name) = 1.
Proof.
  intros Hcols. revert i. induction Hcols as [| c cols Hc Hcols IH]; intros i Hname.
  - by apply elem_of_nil in Hname.
  - simpl. destruct (decide (c = name)) as [-> | Hne].
    + by rewrite positions_from_absent.
    + apply elem_of_cons in Hname as [-> | Hname]; [done |]. by apply IH.
Qed.

Lemma column_positions_elem seed name (p : nat) :
  p ∈ column_positions seed name ↔ columns seed !! p = Some name.
Proof.
  unfold column_positions. rewrite positions_from_elem. split.
  - by intros (j & -> & ?).
  - intros Hp. by exists p.
Qed.

Lemma selected_positions_elem seed names (p : nat) :
  p ∈ names ≫= column_positions seed ↔
  ∃ name, name ∈ names ∧ columns seed !! p = Some name.
Proof.
  rewrite list_elem_of_bind. split.
  - intros (name & Hp%column_positions_elem & Hname). by exists name.
  - intros (name & Hname & Hp). exists name. split; [| done].
    by apply column_positions_elem.
Qed.

Lemma column_position_Some seed name (p : nat) :
  column_position seed name = Some p → columns seed !! p = Some name.
Proof.
  unfold column_position. destruct (list_find _ _) as [[i c] |] eqn:Hfind; [| done].
  intros [= <-]. by apply list_find_Some in Hfind as (? & -> & _).
Qed.

(** The names of the columns at positions that hold the same name *)
Lemma omap_positions cols name (l : list nat) :
  (∀ p, p ∈ l → cols !! p = Some name) →
  omap (λ p, cols !! p) l = replicate (length l) name.
Proof.
  induction l as [| p l IH]; intros Hall; [done |].
  change (omap (λ p, cols !! p) (p :: l))
    with (match cols !! p with
          | Some c => c :: omap (λ p, cols !! p) l
          | None => omap (λ p, cols !! p) l
          end).
  rewrite (Hall p) by apply list_elem_of_here. simpl. f_equal.
  apply IH. intros q Hq. by apply Hall, list_elem_of_further.
Qed.

Lemma omap_valid cols (l : list nat) :
  (∀ p, p ∈ l → is_Some (cols !! p)) →
  Forall2 (λ name p, cols !! p = Some name) (omap (λ p, cols !! p) l) l.
Proof.
  induction l as [| p l IH]; intros Hall; [constructor |].
  change (omap (λ p, cols !! p) (p :: l))
    with (match cols !! p with
          | Some c => c :: omap (λ p, cols !! p) l
          | None => omap (λ p, cols !! p) l
          end).
  destruct (Hall p) as [c Hc]; [apply list_elem_of_here |]. rewrite Hc.
  constructor; [done |]. apply IH. intros q Hq. by apply Hall, list_elem_of_further.
Qed.

Lemma selected_names cols names :
  omap (λ p, cols !! p) (names ≫= positions_from 0 cols)
  = names ≫= (λ name, replicate (length (positions_from 0 cols name)) name).
Proof.
  induction names as [| name names IH]; [done |].
  rewrite !bind_cons, omap_app, IH. f_equal.
  apply omap_positions. intros p (j & -> & Hj)%positions_from_elem. done.
Qed.

Lemma selected_names_NoDup cols names :
  NoDup cols → (∀ name, name ∈ names → name ∈ cols) →
  names ≫= (λ name, replicate (length (positions_from 0 cols name)) name) = names.
Proof.
  intros Hcols. induction names as [| name names IH]; intros Hall; [done |].
  rewrite bind_cons, IH by (intros ? ?; by apply Hall, list_elem_of_further).
  rewrite positions_from_NoDup; [done | done |]. apply Hall, list_elem_of_here.
Qed.

(** The positions of the blocks of a list of distinct names *)
Lemma blocks_elem (m : string → nat) names name :
  name ∈ names ≫= (λ name, replicate (m name) name) → name ∈ names.
Proof.
  intros (name' & Hname & Hin)%list_elem_of_bind.
  by apply elem_of_replicate in Hname as [-> _].
Qed.

Lemma blocks_positions (m : string → nat) names :
  NoDup names →
  ∀ (i : nat) (pre : list string), (∀ name, name ∈ names → name ∉ pre) →
    names ≫= (λ name,
                positions_from i (pre ++ names ≫= (λ name, replicate (m name) name)) name)
    = seq (i + length pre) (length (names ≫= (λ name, replicate (m name) name))).
Proof.
  induction 1 as [| name names Hname Hnames IH]; intros i pre Hpre; [done |].
  assert (∀ l : list string,
    l = names ≫= (λ name, replicate (m name) name) →
    (name :: names) ≫= (λ name', positions_from i (pre ++ replicate (m name) name ++ l) name')
    = seq (i + length pre) (length (replicate (m name) name ++ l))) as Hblocks.
  { intros l Hl. rewrite bind_cons.
    rewrite !positions_from_app, positions_from_replicate.
    rewrite (positions_from_absent pre) by (apply Hpre, list_elem_of_here).
    rewrite (positions_from_absent l)
      by (rewrite Hl; intros Hin%blocks_elem; by apply Hname).
    rewrite app_nil_l, app_nil_r, length_app, length_replicate, seq_app. f_equal.
    assert (∀ l', l' = pre ++ replicate (m name) name →
      names ≫= (λ name', positions_from i (pre ++ replicate (m name) name ++ l) name')
      = names ≫= (λ name', positions_from i (l' ++ l) name')) as Hassoc.
    { intros l' ->. by rewrite <- app_assoc. }
    rewrite (Hassoc _ eq_refl), Hl, IH.
    - rewrite length_app, length_replicate. f_equal. lia.
    - intros name' Hname' [Hin | Hin%elem_of_replicate]%elem_of_app.
      + by apply (Hpre name'); [apply list_elem_of_further |].
      + destruct Hin as [-> _]. by apply Hname. }
  rewrite (bind_cons (λ name, replicate (m name) name)). exact (Hblocks _ eq_refl).
Qed.

Lemma omap_lookup_seq {A : Type} (pre l : list A) :
  omap (λ p, (pre ++ l) !! p) (seq (length pre) (length l)) = l.
Proof.
  revert pre. induction l as [| x l IH]; intros pre; [done |].
  change (omap (λ p, (pre ++ x :: l) !! p) (seq (length pre) (length (x :: l))))
    with (match (pre ++ x :: l) !! length pre with
          | Some c => c :: omap (λ p, (pre ++ x :: l) !! p) (seq (S (length pre)) (length l))
          | None => omap (λ p, (pre ++ x :: l) !! p) (seq (S (length pre)) (length l))
          end).
  rewrite list_lookup_middle by done. f_equal.
  specialize (IH (pre ++ [x])). rewrite length_app, <- app_assoc in IH. simpl in IH.
  by rewrite Nat.add_1_r in IH.
Qed.

Lemma restrict_seq r (n : nat) : length r.2 = n → restrict (seq 0 n) r = r.
Proof.
  destruct r as [k cells]. unfold restrict. simpl. intros <-. f_equal.
  apply list_eq. intros i. rewrite list_lookup_fmap.
  destruct (decide (i < length cells)) as [Hlt | Hge].
  - rewrite lookup_seq_lt by done. simpl.
    destruct (lookup_lt_is_Some_2 cells i Hlt) as [c Hc]. by rewrite Hc.
  - rewrite lookup_seq_ge by lia. simpl. symmetry. apply lookup_ge_None. lia.
Qed.

(** *** The selection and the filter *)

Lemma getitem_columns_Ok seed names selected :
  getitem_columns seed names = Ok selected ↔
  (∀ name, name ∈ names → name ∈ columns seed)
  ∧ selected = mkDataFrame (omap (λ p, columns seed !! p) (names ≫= column_positions seed))
                 (restrict (names ≫= column_positions seed) <$> rows seed).
Proof.
  unfold getitem_columns. rewrite <- Forall_forall.
  destruct (bool_decide _) eqn:Hall.
  - apply bool_decide_eq_true in Hall. split; [by intros [= <-] | by intros [_ ->]].
  - apply bool_decide_eq_false in Hall. split; [done | by intros [? _]].
Qed.

Lemma getitem_columns_Raise seed names (e : exn) :
  getitem_columns seed names = Raise e ↔
  e = KeyError ∧ ∃ name, name ∈ names ∧ name ∉ columns seed.
Proof.
  unfold getitem_columns. destruct (bool_decide _) eqn:Hall.
  - apply bool_decide_eq_true in Hall. rewrite Forall_forall in Hall.
    split; [done |]. intros (_ & name & Hname & Hcol). exfalso. by apply Hcol, Hall.
  - apply bool_decide_eq_false in Hall.
    apply not_Forall_Exists, Exists_exists in Hall as (name & Hname & Hcol); [| apply _].
    split; [intros [= <-]; split; [done | by exists name] | by intros [-> _]].
Qed.

Lemma filter_features_and_drop_nan_cases seed features :
  match getitem_columns seed (feature_list features) with
  | Raise e => filter_features_and_drop_nan seed features = Raise e
  | Ok selected =>
      if decide (shape0 (dropna selected) = 0)
      then filter_features_and_drop_nan seed features = Raise AssertionError
      else filter_features_and_drop_nan seed features = Ok (dropna selected)
  end.
Proof.
  unfold filter_features_and_drop_nan.
  destruct (getitem_columns seed (feature_list features)) as [selected | e]; simpl; [| done].
  destruct (decide (shape0 (dropna selected) = 0)) as [Hzero | Hpos].
  - rewrite bool_decide_eq_false_2; [done | lia].
  - rewrite bool_decide_eq_true_2; [done | lia].
Qed.

(** A restricted row has no missing cell exactly when the row of the seed
    has none in the columns of the names. *)
Lemma restrict_complete seed names r :
  forallb notnull (restrict (names ≫= column_positions seed) r).2 ↔ complete seed names r.
Proof.
  rewrite forallb_True. simpl. rewrite Forall_fmap, Forall_forall. unfold complete. split.
  - intros Hall name p Hname Hp.
    assert (p ∈ names ≫= column_positions seed) as Hin
      by (apply selected_positions_elem; by exists name).
    specialize (Hall p Hin). simpl in Hall. unfold notnull in Hall.
    by destruct (isnull _).
  - intros Hcomplete p (name & Hname & Hp)%selected_positions_elem. simpl.
    unfold notnull. by rewrite (Hcomplete name p).
Qed.

(** The rows that [dropna] leaves of the selection *)
Lemma dropna_selected_rows seed names (cols : list string) r :
  r ∈ rows (dropna (mkDataFrame cols (restrict (names ≫= column_positions seed) <$> rows seed)))
  ↔ ∃ r0, r0 ∈ rows seed ∧ complete seed names r0
          ∧ r = restrict (names ≫= column_positions seed) r0.
Proof.
  unfold dropna. simpl. rewrite list_elem_of_filter, list_elem_of_fmap. split.
  - intros [Hnotnull (r0 & -> & Hr0)]. exists r0. split; [done |].
    split; [by apply restrict_complete | done].
  - intros (r0 & Hr0 & Hcomplete & ->). split; [by apply restrict_complete |].
    by exists r0.
Qed.

Lemma dropna_selected_empty seed names (cols : list string) :
  shape0 (dropna (mkDataFrame cols (restrict (names ≫= column_positions seed) <$> rows seed)))
  = 0 ↔
  ∀ r, r ∈ rows seed → ¬ complete seed names r.
Proof.
  unfold shape0. split.
  - intros Hzero%nil_length_inv r Hr Hcomplete.
    assert (restrict (names ≫= column_positions seed) r ∈ @nil (Key * list (pyval V)))
      as Hin by (rewrite <- Hzero; apply dropna_selected_rows; by exists r).
    by apply elem_of_nil in Hin.
  - intros Hnone.
    assert (rows (dropna (mkDataFrame cols
                            (restrict (names ≫= column_positions seed) <$> rows seed))) = [])
      as ->; [| done].
    apply elem_of_nil_inv. intros r (r0 & Hr0 & Hcomplete & _)%dropna_selected_rows.
    by apply (Hnone r0).
Qed.

Lemma dropna_selected_row seed names (cols : list string) :
  shape0 (dropna (mkDataFrame cols (restrict (names ≫= column_positions seed) <$> rows seed)))
  ≠ 0 →
  ∃ r, r ∈ rows seed ∧ complete seed names r.
Proof.
  unfold shape0.
  destruct (rows (dropna (mkDataFrame cols
                            (restrict (names ≫= column_positions seed) <$> rows seed))))
    as [| r rs] eqn:Hrows; [done |]. intros _.
  assert (r ∈ r :: rs) as Hin by apply list_elem_of_here.
  rewrite <- Hrows in Hin. apply dropna_selected_rows in Hin as (r0 & ? & ? & _).
  by exists r0.
Qed.

(** What the filter returns, and when *)
Lemma filter_features_and_drop_nan_Ok seed features filtered :
  filter_features_and_drop_nan seed features = Ok filtered ↔
  (∀ name, name ∈ feature_list features → name ∈ columns seed)
  ∧ (∃ r, r ∈ rows seed ∧ complete seed (feature_list features) r)
  ∧ filtered
    = dropna (mkDataFrame
                (omap (λ p, columns seed !! p) (feature_list features ≫= column_positions seed))
                (restrict (feature_list features ≫= column_positions seed) <$> rows seed)).
Proof.
  pose proof (filter_features_and_drop_nan_cases seed features) as Hcases.
  destruct (getitem_columns seed (feature_list features)) as [selected | e] eqn:Hsel.
  - apply getitem_columns_Ok in Hsel as [Hall ->].
    destruct (decide _) as [Hzero | Hpos]; rewrite Hcases.
    + split; [done |]. intros (_ & (r & Hr & Hcomplete) & _). exfalso.
      by apply (proj1 (dropna_selected_empty seed (feature_list features) _) Hzero r Hr).
    + split; [| by intros (_ & _ & ->)]. intros [= <-]. split; [done |]. split; [| done].
      exact (dropna_selected_row seed (feature_list features) _ Hpos).
  - apply getitem_columns_Raise in Hsel as (-> & name & Hname & Hcol). rewrite Hcases.
    split; [done |]. intros (Hall & _). exfalso. by apply Hcol, Hall.
Qed.

(** C5: the feature filter raises an assertion error exactly when every
    chosen feature is a column of the seed and every row of the seed has a
    missing value in a column of a chosen feature, so that no row remains.
    When a row of the seed has a value in all these columns, the filter
    returns a table with a row; its rows are the rows of the seed without
    a missing value, restricted to the columns of the features. *)
Theorem filter_features_and_drop_nan_assertion seed features :
  (filter_features_and_drop_nan seed features = Raise AssertionError ↔
   (∀ name, name ∈ feature_list features → name ∈ columns seed)
   ∧ ∀ r, r ∈ rows seed → ¬ complete seed (feature_list features) r)
  ∧ ((∀ name, name ∈ feature_list features → name ∈ columns seed) →
     (∃ r, r ∈ rows seed ∧ complete seed (feature_list features) r) →
     ∃ filtered,
       filter_features_and_drop_nan seed features = Ok filtered
       ∧ 0 < shape0 filtered
       ∧ ∀ r, r ∈ rows filtered ↔
              ∃ r0, r0 ∈ rows seed ∧ complete seed (feature_list features) r0
                    ∧ r = restrict (feature_list features ≫= column_positions seed) r0).
Proof.
  split.
  - pose proof (filter_features_and_drop_nan_cases seed features) as Hcases.
    destruct (getitem_columns seed (feature_list features)) as [selected | e] eqn:Hsel.
    + apply getitem_columns_Ok in Hsel as [Hall ->].
      destruct (decide _) as [Hzero | Hpos]; rewrite Hcases.
      * split; [intros _ | done]. split; [done |].
        exact (proj1 (dropna_selected_empty seed (feature_list features) _) Hzero).
      * split; [done |]. intros [_ Hnone]. exfalso. apply Hpos.
        exact (proj2 (dropna_selected_empty seed (feature_list features) _) Hnone).
    + apply getitem_columns_Raise in Hsel as (-> & name & Hname & Hcol). rewrite Hcases.
      split; [done |]. intros [Hall _]. exfalso. by apply Hcol, Hall.
  - intros Hall (r & Hr & Hcomplete). eexists.
    split; [apply filter_features_and_drop_nan_Ok; split; [done |]; split; [| done];
            by exists r |].
    split.
    + assert (shape0 (dropna (mkDataFrame
                (omap (λ p, columns seed !! p)
                   (feature_list features ≫= column_positions seed))
                (restrict (feature_list features ≫= column_positions seed) <$> rows seed)))
              ≠ 0); [| lia].
      intros Hzero.
      by apply (proj1 (dropna_selected_empty seed (feature_list features) _) Hzero r).
    + intros r'. apply dropna_selected_rows.
Qed.

(** C9: in a table that the feature filter returns, the columns are the
    columns of the seed that have the name of a chosen feature, in the
    order of the features (every column of a name that several columns
    have; just the chosen features when the names of the seed's columns
    are distinct).  Each of its rows has a value in every one of these
    columns, and is a row of the input restricted to them, with the values
    of the input, in the order of the input. *)
Theorem filter_features_and_drop_nan_rows seed features filtered :
  filter_features_and_drop_nan seed features = Ok filtered →
  (∀ p, p ∈ feature_list features ≫= column_positions seed ↔
        ∃ name, name ∈ feature_list features ∧ columns seed !! p = Some name)
  ∧ Forall2 (λ name p, columns seed !! p = Some name)
      (columns filtered) (feature_list features ≫= column_positions seed)
  ∧ (∀ name, name ∈ feature_list features → name ∈ columns filtered)
  ∧ (NoDup (columns seed) → columns filtered = feature_list features)
  ∧ rows filtered
      `sublist_of` (restrict (feature_list features ≫= column_positions seed) <$> rows seed)
  ∧ ∀ r, r ∈ rows filtered →
      length r.2 = length (columns filtered)
      ∧ Forall (λ c, isnull c = false) r.2
      ∧ ∃ r0, r0 ∈ rows seed
              ∧ complete seed (feature_list features) r0
              ∧ r = restrict (feature_list features ≫= column_positions seed) r0.
Proof.
  intros (Hall & _ & ->)%filter_features_and_drop_nan_Ok.
  assert (Forall2 (λ name p, columns seed !! p = Some name)
            (omap (λ p, columns seed !! p) (feature_list features ≫= column_positions seed))
            (feature_list features ≫= column_positions seed)) as Hnames.
  { apply omap_valid. intros p (name & _ & Hp)%selected_positions_elem. by exists name. }
  split; [intros p; apply selected_positions_elem |]. split; [done |].
  split; [| split; [| split]].
  - intros name Hname. simpl. apply list_elem_of_omap.
    destruct (proj1 (list_elem_of_lookup _ _) (Hall name Hname)) as [p Hp].
    exists p. split; [| done]. apply selected_positions_elem. by exists name.
  - intros Hcols. simpl. unfold column_positions. rewrite selected_names.
    by apply selected_names_NoDup.
  - apply sublist_filter.
  - intros r Hr. pose proof Hr as (r0 & Hr0 & Hcomplete & ->)%dropna_selected_rows.
    split; [| split].
    + simpl. rewrite length_fmap. symmetry. by eapply Forall2_length.
    + apply restrict_complete, forallb_True in Hcomplete.
      eapply Forall_impl; [exact Hcomplete |]. intros c. unfold notnull.
      by destruct (isnull c).
    + by exists r0.
Qed.

End filter_facts.

Section filter_features_facts.
Context {V W Feature D T : Type}.
Variable str : Feature → string.

(** C10: the seed and the time series that [filter_features] returns
    have the same individuals. *)
Theorem filter_features_consistent (seed : DataFrame V) (markov_ts : list (Key * D * T * W))
    (features : list Feature) (seed' : DataFrame V) (markov_ts' : list (Key * D * T * W)) :
  filter_features str seed markov_ts features = Ok (seed', markov_ts') →
  (∀ k, k ∈ index seed' → k ∈ droplevel <$> markov_ts'.*1)
  ∧ (∀ k, k ∈ droplevel <$> markov_ts'.*1 → k ∈ index seed').
Proof.
  unfold filter_features.
  destruct (filter_features_and_drop_nan seed _) as [filtered | e]; simpl; [| done].
  intros [= <- <-]. split; intros k.
  - unfold index, select_rows. simpl.
    intros (r & -> & [Hkeep _]%list_elem_of_filter)%list_elem_of_fmap.
    by apply bool_decide_unpack in Hkeep.
  - intros Hk. pose proof Hk as Hk'.
    apply list_elem_of_fmap in Hk' as (i & -> & (r & -> & Hr)%list_elem_of_fmap).
    apply list_elem_of_filter in Hr as [Hin%bool_decide_unpack _].
    unfold index in Hin. apply list_elem_of_fmap in Hin as (r0 & Heq & Hr0).
    unfold index, select_rows. simpl. rewrite Heq.
    apply list_elem_of_fmap_2, list_elem_of_filter. split; [| done].
    apply bool_decide_pack. by rewrite <- Heq.
Qed.

End filter_features_facts.

Lemma filter_features_and_drop_nan_assertion_witness :
  filter_features_and_drop_nan seed_unknown_carer (FeatureList ["carer"])
    = Raise AssertionError
  ∧ ∃ filtered,
      filter_features_and_drop_nan seed_carers (FeatureList ["carer"]) = Ok filtered
      ∧ 0 < shape0 filtered
      ∧ ∀ r, r ∈ rows filtered ↔
             ∃ r0, r0 ∈ rows seed_carers ∧ complete seed_carers ["carer"] r0
                   ∧ r = restrict (["carer"] ≫= column_positions seed_carers) r0.
Proof.
  split.
  - apply (proj1 (filter_features_and_drop_nan_assertion seed_unknown_carer
                    (FeatureList ["carer"]))).
    split.
    + intros name ->%list_elem_of_singleton. by_position.
    + intros r ->%list_elem_of_singleton Hcomplete.
      specialize (Hcomplete "carer" 1 (list_elem_of_here _ _) eq_refl). discriminate Hcomplete.
  - apply (proj2 (filter_features_and_drop_nan_assertion seed_carers (FeatureList ["carer"]))).
    + intros name ->%list_elem_of_singleton. by_position.
    + exists ((1, 1, 1)%Z, [Val (OfAgeStructure AgeStructure.AGE_30_TO_44);
                            Val (OfCarer Carer.CARER)]).
      split; [by_position |]. intros name [| [| [| p]]] _ Hp; by inversion Hp.
Defined.

Lemma filter_features_and_drop_nan_rows_witness :
  (filter_features_and_drop_nan seed_two_carer_columns (FeatureTuple ["carer"])
     = Ok (mkDataFrame ["carer"; "carer"]
             [((1, 1, 2)%Z, [Val (OfCarer Carer.NO_CARER); Val (OfCarer Carer.NO_CARER)])])
   ∧ ["carer"] ≫= column_positions seed_two_carer_columns = [0; 2]
   ∧ (∀ p, p ∈ ["carer"] ≫= column_positions seed_two_carer_columns ↔
           ∃ name, name ∈ ["carer"] ∧ columns seed_two_carer_columns !! p = Some name)
   ∧ Forall2 (λ name p, columns seed_two_carer_columns !! p = Some name)
       ["carer"; "carer"] (["carer"] ≫= column_positions seed_two_carer_columns)
   ∧ (∀ name, name ∈ ["carer"] → name ∈ ["carer"; "carer"])
   ∧ (NoDup (columns seed_two_carer_columns) → ["carer"; "carer"] = ["carer"])
   ∧ [((1, 1, 2)%Z, [Val (OfCarer Carer.NO_CARER); Val (OfCarer Carer.NO_CARER)])]
       `sublist_of` (restrict (["carer"] ≫= column_positions seed_two_carer_columns)
                       <$> rows seed_two_carer_columns)
   ∧ ∀ r, r ∈ [((1, 1, 2)%Z, [Val (OfCarer Carer.NO_CARER); Val (OfCarer Carer.NO_CARER)])] →
       length r.2 = 2
       ∧ Forall (λ c, isnull c = false) r.2
       ∧ ∃ r0, r0 ∈ rows seed_two_carer_columns
               ∧ complete seed_two_carer_columns ["carer"] r0
               ∧ r = restrict (["carer"] ≫= column_positions seed_two_carer_columns) r0)
  ∧ (filter_features_and_drop_nan seed_carers (FeatureList ["carer"; "age"])
       = Ok (mkDataFrame ["carer"; "age"]
               [((1, 1, 1)%Z, [Val (OfCarer Carer.CARER);
                               Val (OfAgeStructure AgeStructure.AGE_30_TO_44)])])
     ∧ NoDup (columns seed_carers)
     ∧ ["carer"; "age"] ≫= column_positions seed_carers = [1; 0]
     ∧ (∀ p, p ∈ ["carer"; "age"] ≫= column_positions seed_carers ↔
             ∃ name, name ∈ ["carer"; "age"] ∧ columns seed_carers !! p = Some name)
     ∧ Forall2 (λ name p, columns seed_carers !! p = Some name)
         ["carer"; "age"] (["carer"; "age"] ≫= column_positions seed_carers)
     ∧ (∀ name, name ∈ ["carer"; "age"] → name ∈ ["carer"; "age"])
     ∧ (NoDup (columns seed_carers) → ["carer"; "age"] = ["carer"; "age"])
     ∧ [((1, 1, 1)%Z, [Val (OfCarer Carer.CARER);
                       Val (OfAgeStructure AgeStructure.AGE_30_TO_44)])]
         `sublist_of` (restrict (["carer"; "age"] ≫= column_positions seed_carers)
                         <$> rows seed_carers)
     ∧ ∀ r, r ∈ [((1, 1, 1)%Z, [Val (OfCarer Carer.CARER);
                                 Val (OfAgeStructure AgeStructure.AGE_30_TO_44)])] →
         length r.2 = 2
         ∧ Forall (λ c, isnull c = false) r.2
         ∧ ∃ r0, r0 ∈ rows seed_carers
                 ∧ complete seed_carers ["carer"; "age"] r0
                 ∧ r = restrict (["carer"; "age"] ≫= column_positions seed_carers) r0).
Proof.
  split.
  - split; [vm_compute; reflexivity |]. split; [vm_compute; reflexivity |].
    apply (filter_features_and_drop_nan_rows seed_two_carer_columns (FeatureTuple ["carer"])
             (mkDataFrame ["carer"; "carer"]
                [((1, 1, 2)%Z, [Val (OfCarer Carer.NO_CARER); Val (OfCarer Carer.NO_CARER)])])).
    vm_compute. reflexivity.
  - split; [vm_compute; reflexivity |]. split; [by_computation |].
    split; [vm_compute; reflexivity |].
    apply (filter_features_and_drop_nan_rows seed_carers (FeatureList ["carer"; "age"])
             (mkDataFrame ["carer"; "age"]
                [((1, 1, 1)%Z, [Val (OfCarer Carer.CARER);
                                Val (OfAgeStructure AgeStructure.AGE_30_TO_44)])])).
    vm_compute. reflexivity.
Defined.

Lemma filter_features_consistent_witness :
  filter_features (λ name : string, name) seed_carers markov_ts_example ["carer"]
    = Ok (mkDataFrame ["carer"] [((1, 1, 1)%Z, [Val (OfCarer Carer.CARER)])],
          [((1, 1, 1)%Z, "weekday", 0, Activity.SLEEP)])
  ∧ (∀ k, k ∈ [(1, 1, 1)%Z] → k ∈ [(1, 1, 1)%Z])
  ∧ (∀ k, k ∈ [(1, 1, 1)%Z] → k ∈ [(1, 1, 1)%Z]).
Proof.
  split; [vm_compute; reflexivity |].
  apply (filter_features_consistent (λ name : string, name) seed_carers markov_ts_example
           ["carer"] (mkDataFrame ["carer"] [((1, 1, 1)%Z, [Val (OfCarer Carer.CARER)])])
           [((1, 1, 1)%Z, "weekday", 0, Activity.SLEEP)]).
  vm_compute. reflexivity.
Defined.

(** ** The household validator *)
Section household_validator_facts.
Variable name : string.

Lemma select_type_false (households : list household) (ty : HouseholdType.t) :
  select_type households ty false = [].
Proof.
  unfold select_type. induction households as [| h households IH]; [done |].
  rewrite filter_cons_False; [done |]. rewrite andb_false_r. by intros [].
Qed.

(** The validator only removes rows. *)
Lemma filter_invalid_households_sublist (seed out : DataFrame uo_value) :
  _filter_invalid_households name seed = Ok out →
  columns out = columns seed ∧ rows out `sublist_of` rows seed.
Proof.
  unfold _filter_invalid_households. destruct (column_position seed name); [| done].
  intros [= <-]. split; [done |]. apply sublist_filter.
Qed.

(** What the comparisons with [households.size] amount to: in a table of
    two or more households the validator removes the couples without
    dependent children, whatever the number of their members, and no
    other household. *)
Lemma filter_invalid_households_many (seed : DataFrame uo_value) (position : nat) :
  column_position seed name = Some position →
  1 < length (groupby_household seed) →
  _filter_invalid_households name seed
  = Ok (drop seed
          (hh_id <$> select_type (agg_households position (groupby_household seed))
                       HouseholdType.COUPLE_WITHOUT_DEPENDENT_CHILDREN true)).
Proof.
  intros Hpos Hmany. unfold _filter_invalid_households. rewrite Hpos.
  set (households := agg_households position (groupby_household seed)).
  assert (Hsize : 2 < size households).
  { unfold size, households, agg_households. rewrite length_fmap. lia. }
  replace (size households <=? 2) with false by (symmetry; apply Nat.leb_gt; lia).
  replace (size households =? 2) with false by (symmetry; apply Nat.eqb_neq; lia).
  replace (size households <? 2) with false by (symmetry; apply Nat.ltb_ge; lia).
  by rewrite !select_type_false, app_nil_r.
Qed.

End household_validator_facts.

(** C1 fails on the code.  In a table of two households the validator
    keeps a couple with dependent children of one member, which the rule
    of the specification makes invalid, and removes a couple without
    dependent children of two members, which the rule makes valid. *)
Theorem filter_invalid_households_ignores_members :
  spec_invalid_household (household_type seed_small_family 0 (1, 1)%Z)
    (length (household_rows seed_small_family (1, 1)%Z)) = true
  ∧ _filter_invalid_households household_type_name seed_small_family = Ok seed_small_family
  ∧ spec_invalid_household (household_type seed_couple 0 (1, 1)%Z)
      (length (household_rows seed_couple (1, 1)%Z)) = false
  ∧ _filter_invalid_households household_type_name seed_couple
    = Ok (mkDataFrame [household_type_name]
            [((2, 1, 1)%Z, household_type_cell HouseholdType.ONE_PERSON_HOUSEHOLD)]).
Proof. repeat split; vm_compute; reflexivity. Qed.

(** C2 fails on the code.  The table that the validator returns for a
    single couple without dependent children of one member has that
    household with one row, and the table it returns for
    [seed_small_family] has a couple with dependent children with one
    row. *)
Theorem filter_invalid_households_wrong_sizes :
  (∃ out, _filter_invalid_households household_type_name seed_single_partner = Ok out
          ∧ household_type out 0 (1, 1)%Z
            = Val (OfHouseholdType HouseholdType.COUPLE_WITHOUT_DEPENDENT_CHILDREN)
          ∧ length (household_rows out (1, 1)%Z) = 1)
  ∧ (∃ out, _filter_invalid_households household_type_name seed_small_family = Ok out
            ∧ household_type out 0 (1, 1)%Z
              = Val (OfHouseholdType HouseholdType.COUPLE_WITH_DEPENDENT_CHILDREN)
            ∧ length (household_rows out (1, 1)%Z) = 1).
Proof.
  split.
  - exists seed_single_partner. repeat split; vm_compute; reflexivity.
  - exists seed_small_family. repeat split; vm_compute; reflexivity.
Qed.

(** ** Tables as objects: the operations *)
Section object_facts.
Context {V : Type}.
Implicit Types (σ : gmap loc (object V)) (l df : loc) (o : object V).

Lemma ret_Ok {A : Type} (a b : A) σ σ' :
  (mret a : M V A) σ = Ok (b, σ') ↔ b = a ∧ σ' = σ.
Proof. unfold mret, M_ret. split; [by intros [= -> ->] | by intros [-> ->]]. Qed.

Lemma bind_Ok {A B : Type} (m : M V A) (f : A → M V B) σ (b : B) σ'' :
  (m ≫= f) σ = Ok (b, σ'') ↔ ∃ a σ', m σ = Ok (a, σ') ∧ f a σ' = Ok (b, σ'').
Proof.
  unfold mbind, M_bind. destruct (m σ) as [[a σ'] | e]; split.
  - intros Hf. by exists a, σ'.
  - by intros (? & ? & [= <- <-] & Hf).
  - done.
  - by intros (? & ? & [=] & _).
Qed.

Lemma fmap_Ok {A B : Type} (f : A → B) (m : M V A) σ (b : B) σ' :
  (f <$> m) σ = Ok (b, σ') ↔ ∃ a, m σ = Ok (a, σ') ∧ b = f a.
Proof.
  unfold fmap, M_fmap. destruct (m σ) as [[a σ1] | e]; split.
  - intros [= <- <-]. by exists a.
  - by intros (? & [= <- <-] & ->).
  - done.
  - by intros (? & [=] & _).
Qed.

Lemma alloc_Ok o σ l σ' :
  alloc o σ = Ok (l, σ') ↔ l = fresh (dom σ) ∧ σ' = <[l := o]> σ.
Proof. unfold alloc. split; [by intros [= <- <-] | by intros [-> ->]]. Qed.

Lemma alloc_fresh o σ l σ' : alloc o σ = Ok (l, σ') → l ∉ dom σ.
Proof. intros [-> _]%alloc_Ok. apply is_fresh. Qed.

Lemma alloc_extends o σ l σ' : alloc o σ = Ok (l, σ') → σ ⊆ σ'.
Proof.
  intros Halloc. pose proof (alloc_fresh _ _ _ _ Halloc) as Hfresh.
  apply alloc_Ok in Halloc as [_ ->]. by apply insert_subseteq, not_elem_of_dom.
Qed.

Lemma alloc_lookup o σ l σ' : alloc o σ = Ok (l, σ') → σ' !! l = Some o.
Proof. intros [_ ->]%alloc_Ok. apply lookup_insert_eq. Qed.

Lemma read_frame_Ok df σ (r : list Key * list (string * loc)) σ' :
  read_frame df σ = Ok (r, σ') ↔ σ' = σ ∧ σ !! df = Some (Frame r.1 r.2).
Proof.
  unfold read_frame. destruct (σ !! df) as [[values | index cols] |]; split;
    try done; try (by intros [_ [=]]).
  - by intros [= <- <-].
  - destruct r. by intros [-> [= -> ->]].
Qed.

Lemma read_block_Ok l σ (values : list (pyval V)) σ' :
  read_block l σ = Ok (values, σ') ↔ σ' = σ ∧ σ !! l = Some (Block values).
Proof.
  unfold read_block. destruct (σ !! l) as [[values' | index cols] |]; split;
    try done; try (by intros [_ [=]]).
  - by intros [= <- <-].
  - by intros [-> [= ->]].
Qed.

Lemma fresh_weaken σ σ' l : σ ⊆ σ' → l ∉ dom σ' → l ∉ dom σ.
Proof. intros Hsub Hl Hin. by apply Hl, (subseteq_dom σ σ' Hsub). Qed.

Lemma find_column_elem (name : string) (cols : list (string * loc)) (block : loc) :
  find_column name cols = Some block → (name, block) ∈ cols.
Proof.
  unfold find_column. destruct (head _) as [[n b] |] eqn:Hhead; [| done].
  intros [= <-]. apply head_Some_elem_of, list_elem_of_filter in Hhead as [Hn Hin].
  simpl in Hn. by subst.
Qed.

Lemma find_column_is_Some (name : string) (cols : list (string * loc)) :
  name ∈ cols.*1 → is_Some (find_column name cols).
Proof.
  intros (c & -> & Hc)%list_elem_of_fmap. unfold find_column.
  destruct (filter (λ c0 : string * loc, c0.1 = c.1) cols) as [| c' ?] eqn:Hfilter.
  - assert (c ∈ filter (λ c0 : string * loc, c0.1 = c.1) cols) as Hin
      by (by apply list_elem_of_filter).
    rewrite Hfilter in Hin. by apply elem_of_nil in Hin.
  - by eexists.
Qed.

Lemma set_column_elem (name : string) (block : loc) (cols : list (string * loc))
    (c : string * loc) :
  c ∈ set_column name block cols → c = (name, block) ∨ c ∈ cols.
Proof.
  unfold set_column. case_bool_decide.
  - intros (c' & -> & Hc')%list_elem_of_fmap. case_bool_decide; auto.
  - rewrite elem_of_app, list_elem_of_singleton. tauto.
Qed.

Lemma column_Ok df (name : string) (e : exn) σ (s : Series) σ' :
  column df name e σ = Ok (s, σ') →
  σ' = σ ∧ ∃ cols, σ !! df = Some (Frame (series_index s) cols)
                   ∧ (name, series_values s) ∈ cols.
Proof.
  unfold column. intros ([index cols] & σ1 & [-> Hframe]%read_frame_Ok & Hfind)%bind_Ok.
  simpl in *. destruct (find_column name cols) as [block |] eqn:Hcol; [| done].
  apply ret_Ok in Hfind as [-> ->]. split; [done |]. exists cols.
  split; [done |]. by apply find_column_elem.
Qed.

Lemma column_total df (name : string) (e : exn) σ index cols :
  σ !! df = Some (Frame index cols) → name ∈ cols.*1 →
  ∃ block, column df name e σ = Ok (mkSeries index block, σ) ∧ (name, block) ∈ cols.
Proof.
  intros Hframe [block Hblock]%find_column_is_Some. exists block.
  split; [| by apply find_column_elem].
  unfold column, mbind, M_bind, read_frame. rewrite Hframe. simpl. by rewrite Hblock.
Qed.

(** [mapM] over computations that only allocate *)
Lemma mapM_Ok_extends {A B : Type} (g : A → M V B) (P Q : gmap loc (object V) → B → Prop)
    (xs : list A) σ (ys : list B) σ' :
  (∀ x σ1 y σ2, x ∈ xs → g x σ1 = Ok (y, σ2) → σ1 ⊆ σ2 ∧ P σ1 y ∧ Q σ2 y) →
  (∀ σ1 σ2 y, σ1 ⊆ σ2 → P σ2 y → P σ1 y) →
  (∀ σ1 σ2 y, σ1 ⊆ σ2 → Q σ1 y → Q σ2 y) →
  mapM g xs σ = Ok (ys, σ') →
  σ ⊆ σ' ∧ Forall (P σ) ys ∧ Forall (Q σ') ys ∧ length ys = length xs.
Proof.
  intros Hg Hanti Hmono. revert σ ys.
  induction xs as [| x xs IH]; intros σ ys; simpl.
  - by intros [-> ->]%ret_Ok.
  - intros (y & σ1 & Hy & (k & σ2 & Hk & [-> ->]%ret_Ok)%bind_Ok)%bind_Ok.
    apply Hg in Hy as (Hsub & HP & HQ); [| by left].
    apply IH in Hk as (Hsub' & HPs & HQs & Hlen);
      [| intros; eapply Hg; [by right | done]].
    split; [by etrans |]. split; [| split; [| simpl; by rewrite Hlen]].
    + constructor; [done |]. eapply Forall_impl; [exact HPs |]. intros ?. by apply Hanti.
    + constructor; [by eapply Hmono |]. done.
Qed.

Lemma mapM_total_extends {A B : Type} (g : A → M V B) (xs : list A) σ :
  (∀ x σ1, x ∈ xs → σ ⊆ σ1 → ∃ y σ2, g x σ1 = Ok (y, σ2) ∧ σ1 ⊆ σ2) →
  ∃ ys σ', mapM g xs σ = Ok (ys, σ') ∧ σ ⊆ σ'.
Proof.
  revert σ. induction xs as [| x xs IH]; intros σ Hg; simpl.
  - by exists [], σ.
  - destruct (Hg x σ) as (y & σ1 & Hy & Hsub); [by left | done |].
    destruct (IH σ1) as (ys & σ2 & Hys & Hsub').
    { intros x' σ' Hx' Hσ'. apply Hg; [by right | by etrans]. }
    exists (y :: ys), σ2. split; [| by etrans].
    apply bind_Ok. exists y, σ1. split; [done |].
    apply bind_Ok. exists ys, σ2. split; [done |]. by apply ret_Ok.
Qed.

Lemma is_block_weaken σ σ' l : σ ⊆ σ' → is_block σ l → is_block σ' l.
Proof. intros Hsub [values Hl]. exists values. by eapply lookup_weaken. Qed.

Lemma copy_column_Ok (cols : list (string * loc)) (name : string) σ (c : string * loc) σ' :
  copy_column cols name σ = Ok (c, σ') →
  σ ⊆ σ' ∧ (c.2 ∉ dom σ) ∧ is_block σ' c.2.
Proof.
  unfold copy_column. destruct (find_column name cols) as [block |]; [| done].
  intros (values & σ1 & [-> _]%read_block_Ok
          & (b & σ2 & Halloc & [-> ->]%ret_Ok)%bind_Ok)%bind_Ok.
  split; [by eapply alloc_extends |]. split; [by eapply alloc_fresh |].
  exists values. by eapply alloc_lookup.
Qed.

Lemma copy_columns_Ok df (names : list string) σ l σ' :
  copy_columns df names σ = Ok (l, σ') →
  σ ⊆ σ' ∧ (l ∉ dom σ)
  ∧ ∃ index cols cols', σ !! df = Some (Frame index cols)
                        ∧ σ' !! l = Some (Frame index cols')
                        ∧ ∀ c, c ∈ cols' → is_block σ' c.2.
Proof.
  unfold copy_columns.
  intros ([index cols] & σ0 & [-> Hframe]%read_frame_Ok
          & (new_cols & σ1 & HmapM & Halloc)%bind_Ok)%bind_Ok. simpl in *.
  apply (mapM_Ok_extends _ (λ σ c, c.2 ∉ dom σ) (λ σ c, is_block σ c.2)) in HmapM
    as (Hsub & _ & Hblocks & _).
  - pose proof (alloc_extends _ _ _ _ Halloc) as Hsub'.
    split; [by etrans |]. split.
    { eapply fresh_weaken; [exact Hsub |]. by eapply alloc_fresh. }
    exists index, cols, new_cols. split; [done |]. split; [by eapply alloc_lookup |].
    intros c Hc. rewrite Forall_forall in Hblocks.
    eapply is_block_weaken; [exact Hsub' |]. by apply Hblocks.
  - intros name σ2 c σ3 _. apply copy_column_Ok.
  - intros σ2 σ3 c. apply fresh_weaken.
  - intros σ2 σ3 c. apply is_block_weaken.
Qed.

Lemma copy_columns_total df (names : list string) σ index cols :
  σ !! df = Some (Frame index cols) → (∀ c, c ∈ cols → is_block σ c.2) →
  names ⊆ cols.*1 →
  ∃ l σ', copy_columns df names σ = Ok (l, σ').
Proof.
  intros Hframe Hblocks Hnames. unfold copy_columns.
  destruct (mapM_total_extends (copy_column cols) names σ)
    as (new_cols & σ1 & HmapM & _); last first.
  - eexists _, _. apply bind_Ok. exists (index, cols), σ.
    split; [by apply read_frame_Ok |]. simpl.
    apply bind_Ok. exists new_cols, σ1. split; [exact HmapM |]. reflexivity.
  - intros name σ1 Hname Hsub. unfold copy_column.
    destruct (find_column_is_Some name cols (Hnames _ Hname)) as [block Hblock].
    rewrite Hblock. apply find_column_elem, Hblocks in Hblock as [values Hvalues].
    eexists _, _. split.
    + apply bind_Ok. exists values, σ1.
      split; [apply read_block_Ok; split; [done | by eapply lookup_weaken] |].
      apply bind_Ok. eexists _, _. split; [reflexivity |]. by apply ret_Ok.
    + apply insert_subseteq, not_elem_of_dom, is_fresh.
Qed.

Lemma getitem_Ok df (name : variable_name) σ (x : pandas) σ' :
  getitem df name σ = Ok (x, σ') →
  σ ⊆ σ'
  ∧ (∀ index cols, σ !! df = Some (Frame index cols) → pandas_index σ' x = index)
  ∧ (frame_valid σ df → pandas_valid σ' x).
Proof.
  destruct name as [name | names]; simpl.
  - intros (s & (-> & cols & Hframe & Hcol)%column_Ok & ->)%fmap_Ok. split; [done |].
    split; [intros ?? ?; simpl; congruence |].
    intros (index' & cols' & Hframe' & Hblocks). simpl.
    rewrite Hframe in Hframe'. injection Hframe' as _ <-. apply (Hblocks _ Hcol).
  - intros (l & (Hsub & _ & index & cols & cols' & Hframe & Hl & Hblocks)%copy_columns_Ok
            & ->)%fmap_Ok.
    split; [done |]. split.
    + intros ?? ?. simpl. rewrite Hl. congruence.
    + intros _. by exists index, cols'.
Qed.

Lemma getitem_total df (name : variable_name) σ index cols :
  σ !! df = Some (Frame index cols) → (∀ c, c ∈ cols → is_block σ c.2) →
  variable_names name ⊆ cols.*1 →
  ∃ x σ', getitem df name σ = Ok (x, σ').
Proof.
  intros Hframe Hblocks Hnames. destruct name as [name | names]; simpl in *.
  - destruct (column_total df name KeyError σ index cols Hframe) as (block & Hcol & _).
    { apply Hnames. by left. }
    eexists _, _. apply fmap_Ok. eexists. split; [exact Hcol | done].
  - destruct (copy_columns_total df names σ index cols) as (l & σ' & Hcopy); try done.
    eexists _, _. apply fmap_Ok. eexists. split; [exact Hcopy | done].
Qed.

Lemma DataFrame_of_index_Ok df σ l σ' :
  DataFrame_of_index df σ = Ok (l, σ') →
  ∃ index cols, σ !! df = Some (Frame index cols) ∧ (l ∉ dom σ)
                ∧ σ' = <[l := Frame index []]> σ.
Proof.
  unfold DataFrame_of_index.
  intros ([index cols] & σ0 & [-> Hframe]%read_frame_Ok & Halloc)%bind_Ok. simpl in *.
  exists index, cols. split; [done |]. split; [by eapply alloc_fresh |].
  by apply alloc_Ok in Halloc as [_ ->].
Qed.

Lemma missing_column_Ok (n : nat) (c c' : string * loc) σ σ' :
  missing_column n c σ = Ok (c', σ') → σ ⊆ σ' ∧ (c'.2 ∉ dom σ) ∧ True.
Proof.
  unfold missing_column. intros (b & σ1 & Halloc & [-> ->]%ret_Ok)%bind_Ok.
  split; [by eapply alloc_extends |]. split; [by eapply alloc_fresh | done].
Qed.

Lemma aligned_Ok (index : list Key) (value : Series) (values aligned : list (pyval V)) σ σ' :
  (if bool_decide (series_index value = index) then mret values
   else if bool_decide (NoDup (series_index value))
        then mret (reindex index (series_index value) values)
        else raise ValueError) σ = Ok (aligned, σ') →
  σ' = σ.
Proof. repeat case_bool_decide; [by intros [_ ->]%ret_Ok | by intros [_ ->]%ret_Ok | done]. Qed.

Lemma setitem_Ok df (name : string) (value : Series) σ (u : unit) σ' :
  setitem df name value σ = Ok (u, σ') →
  ∃ index cols cols',
    σ !! df = Some (Frame index cols)
    ∧ σ' !! df
      = Some (Frame (if bool_decide (index = []) then series_index value else index) cols')
    ∧ (∀ l o, l ≠ df → σ !! l = Some o → σ' !! l = Some o)
    ∧ (∀ c, c ∈ cols' → c.2 ∉ dom σ ∨ c ∈ cols).
Proof.
  unfold setitem.
  intros ([index cols] & σ0 & [-> Hframe]%read_frame_Ok
          & (values & σ0' & [-> Hvalues]%read_block_Ok
             & ([index1 cols1] & σ1 & Hcols
                & (aligned & σ2 & ->%aligned_Ok
                   & (block & σ3 & Halloc & Hstore)%bind_Ok)%bind_Ok)%bind_Ok)%bind_Ok)%bind_Ok.
  simpl in *. injection Hstore as _ <-.
  assert (σ ⊆ σ1 ∧ index1 = (if bool_decide (index = []) then series_index value else index)
          ∧ ∀ c, c ∈ cols1 → c.2 ∉ dom σ ∨ c ∈ cols) as (Hsub & -> & Hcols1).
  { case_bool_decide.
    - apply bind_Ok in Hcols as (new_cols & σ4 & HmapM & [[= <- <-] ->]%ret_Ok).
      apply (mapM_Ok_extends _ (λ σ c, c.2 ∉ dom σ) (λ _ _, True)) in HmapM
        as (Hsub & Hfresh & _ & _).
      + split; [done |]. split; [done |]. intros c Hc. left.
        rewrite Forall_forall in Hfresh. by apply Hfresh.
      + intros c σ5 c' σ6 _. apply missing_column_Ok.
      + intros σ5 σ6 c. apply fresh_weaken.
      + done.
    - apply ret_Ok in Hcols as [[= <- <-] ->]. split; [done |]. split; [done |]. auto. }
  pose proof (alloc_fresh _ _ _ _ Halloc) as Hblock.
  apply alloc_Ok in Halloc as [_ ->].
  exists index, cols, (set_column name block cols1). split; [done |].
  split; [apply lookup_insert_eq |]. split.
  - intros l o Hl Hlookup. rewrite lookup_insert_ne by done.
    rewrite lookup_insert_ne; [by eapply lookup_weaken |].
    intros <-. apply Hblock, elem_of_dom. exists o. by eapply lookup_weaken.
  - intros c [-> | Hc]%set_column_elem; [| by apply Hcols1].
    left. simpl. by eapply fresh_weaken.
Qed.

Lemma setitem_total df (name : string) (value : Series) σ index cols :
  σ !! df = Some (Frame index cols) → series_valid σ value →
  index = [] ∨ series_index value = index →
  ∃ σ', setitem df name value σ = Ok ((), σ').
Proof.
  intros Hframe [values Hvalues] Hindex. unfold setitem.
  assert (∃ cols1 σ1,
    (if bool_decide (index = [])
     then cols ← mapM (missing_column (length (series_index value))) cols;
          mret (series_index value, cols)
     else mret (index, cols)) σ
    = Ok ((if bool_decide (index = []) then series_index value else index, cols1), σ1))
    as (cols1 & σ1 & Hcols).
  { case_bool_decide; [| by eexists _, _].
    destruct (mapM_total_extends (missing_column (length (series_index value))) cols σ)
      as (cols1 & σ1 & HmapM & _).
    - intros c σ1 _ _. eexists _, _. split.
      + apply bind_Ok. eexists _, _. split; [reflexivity |]. by apply ret_Ok.
      + apply insert_subseteq, not_elem_of_dom, is_fresh.
    - exists cols1, σ1. apply bind_Ok. exists cols1, σ1. split; [done |]. by apply ret_Ok. }
  eexists. apply bind_Ok. exists (index, cols), σ. split; [by apply read_frame_Ok |].
  simpl. apply bind_Ok. exists values, σ. split; [by apply read_block_Ok |].
  apply bind_Ok. eexists _, σ1. split; [exact Hcols |]. simpl.
  apply bind_Ok. exists values, σ1. split.
  { rewrite bool_decide_eq_true_2; [done |].
    case_bool_decide; [done |]. by destruct Hindex. }
  apply bind_Ok. eexists _, _. split; reflexivity.
Qed.

Lemma for_each_Ok {A : Type} (I : gmap loc (object V) → Prop) (xs : list A)
    (body : A → M V unit) σ (u : unit) σ' :
  (∀ x σ1 u1 σ2, x ∈ xs → I σ1 → body x σ1 = Ok (u1, σ2) → I σ2) →
  I σ → for_each xs body σ = Ok (u, σ') → I σ'.
Proof.
  revert σ. induction xs as [| x xs IH]; intros σ Hbody HI; simpl.
  - by intros [_ ->]%ret_Ok.
  - intros (u1 & σ1 & Hx & Hxs)%bind_Ok. eapply IH; [| | exact Hxs].
    + intros x' ?; intros. eapply Hbody; [by right | done..].
    + eapply Hbody; [by left | done..].
Qed.

Lemma for_each_total {A : Type} (I : gmap loc (object V) → Prop) (xs : list A)
    (body : A → M V unit) σ :
  (∀ x σ1, x ∈ xs → I σ1 → ∃ σ2, body x σ1 = Ok ((), σ2) ∧ I σ2) →
  I σ → ∃ σ', for_each xs body σ = Ok ((), σ') ∧ I σ'.
Proof.
  revert σ. induction xs as [| x xs IH]; intros σ Hbody HI; simpl.
  - by exists σ.
  - destruct (Hbody x σ) as (σ1 & Hx & HI1); [by left | done |].
    destruct (IH σ1) as (σ2 & Hxs & HI2); [| done |].
    { intros x' ? ? ?. apply Hbody; [by right | done]. }
    exists σ2. split; [| done]. apply bind_Ok. by exists (), σ1.
Qed.

End object_facts.

(** ** The row transformer *)
Section map_to_internal_types_facts.
Context {V Feature : Type}.
Variable features : list Feature.
Variable str : Feature → string.
Variable tus_variable_name : Feature → variable_name.
Variable tus_value_to_uo_value : Feature → pandas → Series → M V Series.
Implicit Types (σ : gmap loc (object V)) (seed individual_data : loc).

(** What is assumed of the method of the features: it changes no object
    of the store (section 4.2 of the specification: no side effect), its
    result has the index of the values it is given (it maps every
    record), and it returns a Series for well-formed arguments. *)
Hypothesis mapping_pure : ∀ feature x age σ s σ',
  tus_value_to_uo_value feature x age σ = Ok (s, σ') → σ ⊆ σ'.
Hypothesis mapping_index : ∀ feature x age σ s σ',
  tus_value_to_uo_value feature x age σ = Ok (s, σ') → series_index s = pandas_index σ x.
Hypothesis mapping_total : ∀ feature x age σ,
  pandas_valid σ x → series_valid σ age →
  ∃ s σ', tus_value_to_uo_value feature x age σ = Ok (s, σ') ∧ series_valid σ' s.

Local Abbreviation loop_body := (map_feature str tus_variable_name tus_value_to_uo_value).

Lemma map_to_internal_types_unfold individual_data σ seed σ' :
  _map_to_internal_types features str tus_variable_name tus_value_to_uo_value
    individual_data σ = Ok (seed, σ') ↔
  ∃ age index cols σ1 (u : unit),
    column individual_data "IAGE" AttributeError σ = Ok (age, σ)
    ∧ σ !! individual_data = Some (Frame index cols)
    ∧ (seed ∉ dom σ)
    ∧ σ1 = <[seed := Frame index []]> σ
    ∧ DataFrame_of_index individual_data σ = Ok (seed, σ1)
    ∧ for_each features (loop_body individual_data age seed) σ1 = Ok (u, σ').
Proof.
  unfold _map_to_internal_types. split.
  - intros (age & σ0 & Hage
            & (seed' & σ1 & Hseed & (u & σ2 & Hloop & [-> ->]%ret_Ok)%bind_Ok)%bind_Ok)%bind_Ok.
    pose proof (column_Ok _ _ _ _ _ _ Hage) as [-> _].
    pose proof (DataFrame_of_index_Ok _ _ _ _ Hseed) as (index & cols & Hframe & Hfresh & ->).
    by exists age, index, cols, (<[seed' := Frame index []]> σ), u.
  - intros (age & index & cols & σ1 & u & Hage & _ & _ & _ & Hseed & Hloop).
    apply bind_Ok. exists age, σ. split; [done |].
    apply bind_Ok. exists seed, σ1. split; [done |].
    apply bind_Ok. exists u, σ'. split; [done |]. by apply ret_Ok.
Qed.

Lemma map_feature_constructing σ0 individual_data age seed feature σ1 (u : unit) σ2 :
  seed ∉ dom σ0 → constructing σ0 seed σ1 →
  loop_body individual_data age seed feature σ1 = Ok (u, σ2) →
  constructing σ0 seed σ2.
Proof.
  intros Hseed (Hsub & index & cols & Hframe & Hfresh).
  intros (x & σa & (Hsuba & _)%getitem_Ok
          & (s & σb & Hsubb%mapping_pure & Hset)%bind_Ok)%bind_Ok.
  apply setitem_Ok in Hset as (index' & cols' & cols'' & Hframe' & Hframe'' & Hother & Hcols).
  assert (σ0 ⊆ σb) as Hsub0 by (by etrans; [| etrans]).
  assert (σb !! seed = Some (Frame index cols)) as Hseedb
    by (eapply lookup_weaken; [exact Hframe | by etrans]).
  rewrite Hseedb in Hframe'. injection Hframe' as <- <-.
  split.
  - apply map_subseteq_spec. intros l o Hl. apply Hother.
    + intros ->. apply Hseed, elem_of_dom. by exists o.
    + by eapply lookup_weaken.
  - eexists _, cols''. split; [exact Hframe'' |].
    intros c [Hc | Hc]%Hcols; [by eapply fresh_weaken | by apply Hfresh].
Qed.

(** C7: the row transformer has no side effect on its input.  When it
    returns, every object of the store before the call, the input table
    with its index and the blocks of its columns among them, is as it was;
    the table returned is a new object, and so is the block of each of its
    columns. *)
Theorem map_to_internal_types_no_side_effect individual_data σ seed σ' :
  _map_to_internal_types features str tus_variable_name tus_value_to_uo_value
    individual_data σ = Ok (seed, σ') →
  σ ⊆ σ'
  ∧ (seed ∉ dom σ)
  ∧ ∃ index cols, σ' !! seed = Some (Frame index cols) ∧ ∀ c, c ∈ cols → c.2 ∉ dom σ.
Proof.
  intros (age & index & cols & σ1 & u & _ & _ & Hseed & -> & _ & Hloop)
    %map_to_internal_types_unfold.
  assert (constructing σ seed σ') as [Hsub Hcols]; [| done].
  eapply (for_each_Ok (constructing σ seed)); [| | exact Hloop].
  - intros feature σa ua σb _. by apply map_feature_constructing.
  - split; [by apply insert_subseteq, not_elem_of_dom |].
    exists index, []. split; [apply lookup_insert_eq |]. by intros c ?%elem_of_nil.
Qed.

Lemma frame_index_Some σ df index :
  frame_index σ df = Some index ↔ ∃ cols, σ !! df = Some (Frame index cols).
Proof.
  unfold frame_index. destruct (σ !! df) as [[values | index' cols] |]; split;
    try done; try (by intros [? [=]]).
  - intros [= ->]. by exists cols.
  - by intros [? [= -> _]].
Qed.

Lemma map_feature_indexed σ0 individual_data age seed feature σ1 (u : unit) σ2 index :
  seed ∉ dom σ0 → frame_index σ0 individual_data = Some index →
  index ≠ []
  ∨ (∀ x σ s σ', tus_value_to_uo_value feature x age σ = Ok (s, σ') →
       series_index s = pandas_index σ x) →
  indexed σ0 individual_data seed σ1 →
  loop_body individual_data age seed feature σ1 = Ok (u, σ2) →
  indexed σ0 individual_data seed σ2.
Proof.
  intros Hseed Hindex Hkeeps (Hcons & _ & Hsame) Hbody.
  split; [by eapply map_feature_constructing |]. split; [by exists index |].
  destruct Hcons as (Hsub & _).
  rewrite Hindex in Hsame |- *.
  apply frame_index_Some in Hindex as [cols0 Hdata], Hsame as [cols Hframe].
  destruct (proj1 (bind_Ok _ _ _ _ _) Hbody)
    as (x & σa & Hget & (s & σb & Hmap & Hset)%bind_Ok).
  pose proof (getitem_Ok _ _ _ _ _ Hget) as (Hsuba & Hx & _).
  pose proof (mapping_pure _ _ _ _ _ _ Hmap) as Hsubb.
  apply setitem_Ok in Hset as (index' & cols' & cols'' & Hframe' & Hframe'' & _).
  assert (σb !! seed = Some (Frame index cols)) as Hseedb
    by (eapply lookup_weaken; [exact Hframe | by etrans]).
  rewrite Hseedb in Hframe'. injection Hframe' as <- <-.
  apply frame_index_Some. exists cols''. rewrite Hframe''.
  case_bool_decide as Hempty; [| done].
  destruct Hkeeps as [Hne | Hkeeps]; [done |].
  rewrite (Hkeeps _ _ _ _ Hmap), (Hx index cols0) by (by eapply lookup_weaken). done.
Qed.

Lemma map_feature_total σ0 individual_data age seed feature σ1 index cols :
  seed ∉ dom σ0 →
  σ0 !! individual_data = Some (Frame index cols) →
  (∀ c, c ∈ cols → is_block σ0 c.2) →
  series_valid σ0 age →
  variable_names (tus_variable_name feature) ⊆ cols.*1 →
  indexed σ0 individual_data seed σ1 →
  ∃ σ2, loop_body individual_data age seed feature σ1 = Ok ((), σ2).
Proof.
  intros Hseed Hdata Hblocks Hage Hnames ((Hsub & _) & _ & Hsame).
  unfold frame_index at 2 in Hsame. rewrite Hdata in Hsame.
  apply frame_index_Some in Hsame as [cols1 Hframe].
  assert (σ1 !! individual_data = Some (Frame index cols)) as Hdata1
    by (by eapply lookup_weaken).
  assert (∀ c, c ∈ cols → is_block σ1 c.2) as Hblocks1
    by (intros c Hc; eapply is_block_weaken; [exact Hsub | by apply Hblocks]).
  destruct (getitem_total individual_data (tus_variable_name feature) σ1 index cols)
    as (x & σa & Hget); [done.. |].
  pose proof (getitem_Ok _ _ _ _ _ Hget) as (Hsuba & Hx & Hvalid).
  destruct (mapping_total feature x age σa) as (s & σb & Hmap & Hs).
  { apply Hvalid. by exists index, cols. }
  { eapply is_block_weaken; [| exact Hage]. by etrans. }
  pose proof (mapping_pure _ _ _ _ _ _ Hmap) as Hsubb.
  destruct (setitem_total seed (str feature) s σb index cols1) as [σ2 Hset].
  { eapply lookup_weaken; [exact Hframe | by etrans]. }
  { done. }
  { right. rewrite (mapping_index _ _ _ _ _ _ Hmap). by apply (Hx index cols). }
  exists σ2. apply bind_Ok. exists x, σa. split; [done |].
  apply bind_Ok. by exists s, σb.
Qed.

(** Whenever the row transformer returns, its table has the index of the
    input: for an input with rows whatever the method of the features
    gives, since the assignment of a column aligns the values with the
    index of the table, and for an input without rows when the method
    keeps the index. *)
Lemma map_to_internal_types_index individual_data σ seed σ' index :
  frame_index σ individual_data = Some index →
  index ≠ []
  ∨ (∀ feature x age σ s σ', tus_value_to_uo_value feature x age σ = Ok (s, σ') →
       series_index s = pandas_index σ x) →
  _map_to_internal_types features str tus_variable_name tus_value_to_uo_value
    individual_data σ = Ok (seed, σ') →
  frame_index σ' seed = Some index ∧ frame_index σ' individual_data = Some index.
Proof.
  intros Hindex Hkeeps.
  intros (age & index' & cols & σ1 & u & _ & Hdata & Hseed & -> & _ & Hloop)
    %map_to_internal_types_unfold.
  assert (index' = index) as ->.
  { apply frame_index_Some in Hindex as [cols' Hdata']. congruence. }
  assert (indexed σ individual_data seed σ') as ((Hsub & _) & _ & Hsame).
  { eapply (for_each_Ok (indexed σ individual_data seed)); [| | exact Hloop].
    - intros feature σa ua σb _. apply (map_feature_indexed _ _ _ _ _ _ _ _ index); try done.
      destruct Hkeeps as [? | Hkeeps]; [by left | right].
      intros x σ2 s σ3 Hmap. by eapply Hkeeps.
    - split; [| split; [by exists index |]].
      + split; [by apply insert_subseteq, not_elem_of_dom |].
        exists index, []. split; [apply lookup_insert_eq |]. by intros c ?%elem_of_nil.
      + rewrite Hindex. apply frame_index_Some. exists []. apply lookup_insert_eq. }
  split; [congruence |]. apply frame_index_Some. exists cols. by eapply lookup_weaken.
Qed.

(** C3: the row transformer keeps the rows.  For an input table that has
    the age column and the columns of the features, it returns a table
    with the index of the input, and so with as many rows. *)
Theorem map_to_internal_types_rows individual_data σ index cols :
  σ !! individual_data = Some (Frame index cols) →
  (∀ c, c ∈ cols → is_block σ c.2) →
  "IAGE" ∈ cols.*1 →
  (∀ feature, feature ∈ features →
     variable_names (tus_variable_name feature) ⊆ cols.*1) →
  ∃ seed σ',
    _map_to_internal_types features str tus_variable_name tus_value_to_uo_value
      individual_data σ = Ok (seed, σ')
    ∧ frame_index σ' seed = Some index
    ∧ frame_index σ individual_data = Some index
    ∧ frame_shape0 σ' seed = frame_shape0 σ individual_data.
Proof.
  intros Hdata Hblocks Hage Hfeatures.
  destruct (column_total individual_data "IAGE" AttributeError σ index cols)
    as (block & Hcolumn & Hblock); [done.. |].
  set (seed := fresh (dom σ)). set (σ1 := <[seed := Frame index []]> σ).
  assert (seed ∉ dom σ) as Hseed by apply is_fresh.
  assert (frame_index σ individual_data = Some index) as Hindex
    by (apply frame_index_Some; by exists cols).
  destruct (for_each_total (indexed σ individual_data seed) features
              (loop_body individual_data (mkSeries index block) seed) σ1)
    as (σ' & Hloop & _).
  - intros feature σa Hfeature Ha.
    destruct (map_feature_total σ individual_data (mkSeries index block) seed feature σa
                index cols) as [σb Hb]; try done.
    { by apply (Hblocks ("IAGE", block)). }
    { by apply Hfeatures. }
    exists σb. split; [done |].
    apply (map_feature_indexed σ individual_data (mkSeries index block) seed feature σa ()
             σb index); try done.
    right. intros x σ2 s σ3 Hmap. by eapply mapping_index.
  - split; [| split; [by exists index |]].
    + split; [by apply insert_subseteq, not_elem_of_dom |].
      exists index, []. split; [apply lookup_insert_eq |]. by intros c ?%elem_of_nil.
    + rewrite Hindex. apply frame_index_Some. exists []. apply lookup_insert_eq.
  - assert (_map_to_internal_types features str tus_variable_name tus_value_to_uo_value
              individual_data σ = Ok (seed, σ')) as Hrun.
    { apply map_to_internal_types_unfold.
      exists (mkSeries index block), index, cols, σ1, (). repeat split; try done.
      unfold DataFrame_of_index, mbind, M_bind, read_frame. by rewrite Hdata. }
    exists seed, σ'. split; [done |].
    destruct (map_to_internal_types_index individual_data σ seed σ' index)
      as [Hsame _]; [done | by right | done |].
    unfold frame_shape0. by rewrite Hsame, Hindex.
Qed.

End map_to_internal_types_facts.

(** *** The instance *)

Lemma carer_to_uo_value_pure (feature : unit) (x : pandas) (age : Series)
    (σ : gmap loc (object carer_cell)) (s : Series) (σ' : gmap loc (object carer_cell)) :
  carer_to_uo_value feature x age σ = Ok (s, σ') → σ ⊆ σ'.
Proof.
  destruct x as [s0 | df]; simpl.
  - intros (values & σ0 & [-> _]%read_block_Ok
            & (b & σ1 & Halloc & [_ ->]%ret_Ok)%bind_Ok)%bind_Ok.
    by eapply alloc_extends.
  - intros ([index cols] & σ0 & [-> _]%read_frame_Ok
            & (b & σ1 & Halloc & [_ ->]%ret_Ok)%bind_Ok)%bind_Ok.
    by eapply alloc_extends.
Qed.

Lemma carer_to_uo_value_index (feature : unit) (x : pandas) (age : Series)
    (σ : gmap loc (object carer_cell)) (s : Series) (σ' : gmap loc (object carer_cell)) :
  carer_to_uo_value feature x age σ = Ok (s, σ') → series_index s = pandas_index σ x.
Proof.
  destruct x as [s0 | df]; simpl.
  - intros (values & σ0 & [-> _]%read_block_Ok
            & (b & σ1 & Halloc & [-> _]%ret_Ok)%bind_Ok)%bind_Ok. done.
  - intros ([index cols] & σ0 & [-> Hframe]%read_frame_Ok
            & (b & σ1 & Halloc & [-> _]%ret_Ok)%bind_Ok)%bind_Ok.
    simpl in *. by rewrite Hframe.
Qed.

Lemma carer_to_uo_value_total (feature : unit) (x : pandas) (age : Series)
    (σ : gmap loc (object carer_cell)) :
  pandas_valid σ x → series_valid σ age →
  ∃ s σ', carer_to_uo_value feature x age σ = Ok (s, σ') ∧ series_valid σ' s.
Proof.
  intros Hx _. destruct x as [s0 | df]; simpl in *.
  - destruct Hx as [values Hvalues]. eexists _, _. split.
    + apply bind_Ok. exists values, σ. split; [by apply read_block_Ok |].
      apply bind_Ok. eexists _, _. split; [reflexivity |]. by apply ret_Ok.
    + eexists. apply lookup_insert_eq.
  - destruct Hx as (index & cols & Hframe & _). eexists _, _. split.
    + apply bind_Ok. exists (index, cols), σ. split; [by apply read_frame_Ok |].
      simpl. apply bind_Ok. eexists _, _. split; [reflexivity |]. by apply ret_Ok.
    + eexists. apply lookup_insert_eq.
Qed.

Lemma map_to_internal_types_no_side_effect_witness :
  _map_to_internal_types [()] (λ _, "carer") (λ _, Column "PROVCARE") carer_to_uo_value
    0 individual_data_example = Ok (3, seed_example)
  ∧ individual_data_example ⊆ seed_example
  ∧ (3 ∉ dom individual_data_example)
  ∧ ∃ index cols, seed_example !! 3 = Some (Frame index cols)
                  ∧ ∀ c, c ∈ cols → c.2 ∉ dom individual_data_example.
Proof.
  split; [vm_compute; reflexivity |].
  apply (map_to_internal_types_no_side_effect [()] (λ _, "carer") (λ _, Column "PROVCARE")
           carer_to_uo_value carer_to_uo_value_pure 0 individual_data_example 3 seed_example).
  vm_compute. reflexivity.
Defined.

Lemma map_to_internal_types_rows_witness :
  ∃ seed σ',
    _map_to_internal_types [()] (λ _, "carer") (λ _, Column "PROVCARE") carer_to_uo_value
      0 individual_data_example = Ok (seed, σ')
    ∧ frame_index σ' seed = Some [(1, 1, 1)%Z; (1, 1, 2)%Z]
    ∧ frame_index individual_data_example 0 = Some [(1, 1, 1)%Z; (1, 1, 2)%Z]
    ∧ frame_shape0 σ' seed = frame_shape0 individual_data_example 0.
Proof.
  apply (map_to_internal_types_rows [()] (λ _, "carer") (λ _, Column "PROVCARE")
           carer_to_uo_value carer_to_uo_value_pure carer_to_uo_value_index
           carer_to_uo_value_total 0 individual_data_example
           [(1, 1, 1)%Z; (1, 1, 2)%Z] [("IAGE", 1); ("PROVCARE", 2)]).
  - vm_compute. reflexivity.
  - intros c [-> | [-> | []%elem_of_nil]%elem_of_cons]%elem_of_cons;
      eexists; vm_compute; reflexivity.
  - simpl. by_position.
  - intros [] _ name ->%list_elem_of_singleton. simpl. by_position.
Defined.

(** * Further properties *)

(** ** Filters of lists *)
Section filter_lists.
Context {A : Type}.

Lemma filter_all (P : A → Prop) `{!∀ x, Decision (P x)} (l : list A) :
  (∀ x, x ∈ l → P x) → filter P l = l.
Proof.
  induction l as [| x l IH]; intros Hall; [done |].
  rewrite filter_cons_True by (apply Hall; by left).
  rewrite IH; [done |]. intros y Hy. apply Hall. by right.
Qed.

Lemma filter_none (P : A → Prop) `{!∀ x, Decision (P x)} (l : list A) :
  (∀ x, x ∈ l → ¬ P x) → filter P l = [].
Proof.
  induction l as [| x l IH]; intros Hnone; [done |].
  rewrite filter_cons_False by (apply Hnone; by left).
  apply IH. intros y Hy. apply Hnone. by right.
Qed.

Lemma filter_iff_elem (P Q : A → Prop) `{!∀ x, Decision (P x), !∀ x, Decision (Q x)}
    (l : list A) :
  (∀ x, x ∈ l → P x ↔ Q x) → filter P l = filter Q l.
Proof.
  induction l as [| x l IH]; intros Hiff; [done |].
  assert (filter P l = filter Q l) as Htail by (apply IH; intros y Hy; apply Hiff; by right).
  destruct (decide (P x)) as [HP | HP].
  - rewrite !filter_cons_True; [by rewrite Htail | by apply Hiff; [left |] | done].
  - rewrite !filter_cons_False; [done | | done]. intros HQ. by apply HP, Hiff; [left |].
Qed.

End filter_lists.

(** ** The feature filter *)
Section filter_more.
Context {V : Type}.
Implicit Types (seed selected filtered df : DataFrame V) (features : features_arg).

Lemma column_position_None seed (name : string) :
  column_position seed name = None ↔ name ∉ columns seed.
Proof.
  unfold column_position. destruct (list_find _ _) as [[i c] |] eqn:Hfind; simpl.
  - split; [done |]. intros Hname. apply list_find_Some in Hfind as (Hi & -> & _).
    exfalso. apply Hname. by eapply list_elem_of_lookup_2.
  - split; [| done]. intros _ Hname. apply list_find_None in Hfind.
    rewrite Forall_forall in Hfind. by apply (Hfind name).
Qed.

Lemma column_position_first seed (name : string) (p : nat) :
  column_position seed name = Some p ↔
  columns seed !! p = Some name ∧ ∀ j, j < p → columns seed !! j ≠ Some name.
Proof.
  unfold column_position. split.
  - destruct (list_find _ _) as [[i c] |] eqn:Hfind; [| done]. intros [= <-].
    apply list_find_Some in Hfind as (Hi & -> & Hmin). split; [done |].
    intros j Hj Hname. by apply (Hmin j name).
  - intros [Hp Hmin].
    assert (list_find (λ c, c = name) (columns seed) = Some (p, name)) as ->; [| done].
    apply list_find_Some. split; [done |]. split; [done |].
    intros j c Hc Hj ->. by apply (Hmin j).
Qed.

Lemma filtered_index seed features filtered (k : Key) :
  filter_features_and_drop_nan seed features = Ok filtered →
  k ∈ index filtered ↔ has_features seed (feature_list features) k.
Proof.
  intros (_ & _ & ->)%filter_features_and_drop_nan_Ok.
  unfold index, has_features. rewrite list_elem_of_fmap. split.
  - intros (r & -> & (r0 & Hr0 & Hcomplete & ->)%dropna_selected_rows). by exists r0.
  - intros (r0 & Hr0 & <- & Hcomplete).
    exists (restrict (feature_list features ≫= column_positions seed) r0).
    split; [done |]. apply dropna_selected_rows. by exists r0.
Qed.

(** X1: an individual is in the table that the feature filter returns
    exactly when a row of the seed with its label has a value in every
    column of a chosen feature. *)
Theorem filter_features_and_drop_nan_keeps seed features filtered (k : Key) :
  filter_features_and_drop_nan seed features = Ok filtered →
  k ∈ index filtered ↔ has_features seed (feature_list features) k.
Proof. apply filtered_index. Qed.

(** X2: the feature filter raises a key error exactly when a chosen
    feature is no column of the seed, and no error besides a key error and
    an assertion error. *)
Theorem filter_features_and_drop_nan_KeyError seed features :
  (filter_features_and_drop_nan seed features = Raise KeyError ↔
   ∃ name, name ∈ feature_list features ∧ name ∉ columns seed)
  ∧ ∀ e, filter_features_and_drop_nan seed features = Raise e →
         e = KeyError ∨ e = AssertionError.
Proof.
  pose proof (filter_features_and_drop_nan_cases seed features) as Hcases.
  destruct (getitem_columns seed (feature_list features)) as [selected | e] eqn:Hsel.
  - apply getitem_columns_Ok in Hsel as [Hall _].
    assert (¬ ∃ name, name ∈ feature_list features ∧ name ∉ columns seed) as Hnone.
    { intros (name & Hname & Hcol). by apply Hcol, Hall. }
    destruct (decide _); rewrite Hcases; (split; [split; [done | by intros ?] |]).
    + intros err Herr. right. congruence.
    + done.
  - apply getitem_columns_Raise in Hsel as (-> & name & Hname & Hcol). rewrite Hcases.
    split; [| intros err Herr; left; congruence].
    split; [intros _ | done]. by exists name.
Qed.

Lemma filter_clean (names : list string) df :
  clean names df →
  filter_features_and_drop_nan df (FeatureList names)
  = if decide (shape0 df = 0) then Raise AssertionError else Ok df.
Proof.
  intros (Hall & Hpositions & Hrows).
  pose proof (filter_features_and_drop_nan_cases df (FeatureList names)) as Hcases.
  simpl in Hcases.
  assert (getitem_columns df names = Ok df) as Hsel.
  { apply getitem_columns_Ok. split; [done |]. rewrite Hpositions.
    pose proof (omap_lookup_seq [] (columns df)) as Hnames. simpl in Hnames.
    rewrite Hnames. clear Hnames.
    destruct df as [cols rs]. simpl in *. f_equal.
    rewrite <- (list_fmap_id rs) at 1. apply Forall_fmap_ext_1.
    eapply Forall_impl; [exact Hrows |]. intros r [Hlen _]. simpl.
    symmetry. by apply restrict_seq. }
  rewrite Hsel in Hcases.
  assert (dropna df = df) as Hdrop.
  { unfold dropna. destruct df as [cols rs]. simpl in *. f_equal.
    apply filter_all. intros r Hr. rewrite Forall_forall in Hrows.
    destruct (Hrows r Hr) as [_ Hnotnull]. apply forallb_True.
    eapply Forall_impl; [exact Hnotnull |]. intros c Hc. unfold notnull. by rewrite Hc. }
  rewrite Hdrop in Hcases. by destruct (decide (shape0 df = 0)).
Qed.

Lemma filter_features_and_drop_nan_clean seed features filtered :
  NoDup (feature_list features) →
  filter_features_and_drop_nan seed features = Ok filtered →
  clean (feature_list features) filtered ∧ 0 < shape0 filtered.
Proof.
  intros Hnames Hfilter.
  destruct (filter_features_and_drop_nan_rows seed features filtered Hfilter)
    as (_ & Hcolumns & Hall & _ & _ & Hrows).
  pose proof Hfilter as (_ & Hrow & Hfiltered)%filter_features_and_drop_nan_Ok.
  split.
  - split; [done |]. split; [| apply Forall_forall; intros r Hr; by destruct (Hrows r Hr) as (? & ? & _)].
    assert (columns filtered
            = feature_list features
                ≫= (λ name, replicate (length (positions_from 0 (columns seed) name)) name))
      as Hblocks by (rewrite Hfiltered; simpl; apply selected_names).
    pose proof (blocks_positions
                  (λ name, length (positions_from 0 (columns seed) name))
                  (feature_list features) Hnames 0 [] (λ name _, not_elem_of_nil name))
      as Hseq.
    cbn [app length Nat.add] in Hseq. rewrite <- Hblocks in Hseq. exact Hseq.
  - destruct Hrow as (r & Hr & Hcomplete).
    assert (restrict (feature_list features ≫= column_positions seed) r ∈ rows filtered) as Hin
      by (rewrite Hfiltered; apply dropna_selected_rows; by exists r).
    unfold shape0. destruct (rows filtered); [by apply elem_of_nil in Hin | simpl; lia].
Qed.

(** X3: for distinct features the feature filter is idempotent: applied
    with the same features to a table that it has returned, it returns
    that table.  (With a feature named twice the table returned has two
    columns of that name, and the second application selects both of them
    for each occurrence of the name.) *)
Theorem filter_features_and_drop_nan_idempotent seed features filtered :
  NoDup (feature_list features) →
  filter_features_and_drop_nan seed features = Ok filtered →
  filter_features_and_drop_nan filtered features = Ok filtered.
Proof.
  intros Hnames Hfilter.
  destruct (filter_features_and_drop_nan_clean _ _ _ Hnames Hfilter) as [Hclean Hshape].
  pose proof (filter_clean (feature_list features) filtered Hclean) as Hagain.
  destruct (decide _) as [Hzero |]; [lia |]. by destruct features.
Qed.

(** X4: with no feature chosen the filter drops no individual: it returns
    the index of the seed with no column, and raises the assertion error
    for a seed without rows. *)
Theorem filter_features_and_drop_nan_no_feature seed :
  filter_features_and_drop_nan seed (FeatureList [])
  = if decide (rows seed = []) then Raise AssertionError
    else Ok (mkDataFrame [] ((λ r, (r.1, [])) <$> rows seed)).
Proof.
  assert (dropna (mkDataFrame [] (restrict [] <$> rows seed))
          = mkDataFrame [] ((λ r, (r.1, [])) <$> rows seed)) as Hdrop.
  { unfold dropna. simpl. f_equal. induction (rows seed) as [| r rs IH]; [done |].
    rewrite fmap_cons, filter_cons_True by done. by rewrite IH. }
  pose proof (filter_features_and_drop_nan_cases seed (FeatureList [])) as Hcases.
  assert (getitem_columns seed [] = Ok (mkDataFrame [] (restrict [] <$> rows seed))) as Hsel.
  { apply getitem_columns_Ok. split; [by intros ? ?%elem_of_nil | done]. }
  cbn [feature_list] in Hcases. rewrite Hsel, Hdrop in Hcases.
  unfold shape0 in Hcases. simpl in Hcases.
  rewrite length_fmap in Hcases.
  destruct (decide (rows seed = [])) as [Hempty | Hrows].
  - rewrite Hempty in Hcases. by simpl in Hcases.
  - destruct (decide _) as [Hzero |]; [| done]. by apply nil_length_inv in Hzero.
Qed.

End filter_more.

Lemma filter_features_and_drop_nan_keeps_witness :
  ((1, 1, 2)%Z
     ∈ index (mkDataFrame ["carer"; "carer"]
                [((1, 1, 2)%Z, [Val (OfCarer Carer.NO_CARER); Val (OfCarer Carer.NO_CARER)])]) ↔
   has_features seed_two_carer_columns ["carer"] (1, 1, 2)%Z)
  ∧ ((1, 1, 1)%Z
       ∈ index (mkDataFrame ["carer"; "carer"]
                  [((1, 1, 2)%Z,
                    [Val (OfCarer Carer.NO_CARER); Val (OfCarer Carer.NO_CARER)])]) ↔
     has_features seed_two_carer_columns ["carer"] (1, 1, 1)%Z).
Proof.
  split;
    apply (filter_features_and_drop_nan_keeps seed_two_carer_columns (FeatureTuple ["carer"])
             (mkDataFrame ["carer"; "carer"]
                [((1, 1, 2)%Z, [Val (OfCarer Carer.NO_CARER); Val (OfCarer Carer.NO_CARER)])]));
    vm_compute; reflexivity.
Defined.

Lemma filter_features_and_drop_nan_idempotent_witness :
  NoDup ["carer"]
  ∧ filter_features_and_drop_nan
      (mkDataFrame ["carer"; "carer"]
         [((1, 1, 2)%Z, [Val (OfCarer Carer.NO_CARER); Val (OfCarer Carer.NO_CARER)])])
      (FeatureTuple ["carer"])
    = Ok (mkDataFrame ["carer"; "carer"]
            [((1, 1, 2)%Z, [Val (OfCarer Carer.NO_CARER); Val (OfCarer Carer.NO_CARER)])]).
Proof.
  assert (NoDup ["carer"]) as Hnames by (apply NoDup_singleton).
  split; [exact Hnames |].
  apply (filter_features_and_drop_nan_idempotent seed_two_carer_columns
           (FeatureTuple ["carer"]) _ Hnames).
  vm_compute. reflexivity.
Defined.


(** ** The filter of seed and time series *)
Section filter_features_more.
Context {V W Feature D T : Type}.
Variable str : Feature → string.
Implicit Types (seed filtered : DataFrame V) (markov_ts : list (Key * D * T * W))
  (features : list Feature).

Lemma filter_features_Ok seed markov_ts features seed' markov_ts' :
  filter_features str seed markov_ts features = Ok (seed', markov_ts') ↔
  ∃ filtered,
    filter_features_and_drop_nan seed (FeatureList (str <$> features)) = Ok filtered
    ∧ markov_ts' = filter (λ r, bool_decide (droplevel r.1 ∈ index filtered)) markov_ts
    ∧ seed' = select_rows (λ k, bool_decide (k ∈ droplevel <$> markov_ts'.*1)) filtered.
Proof.
  unfold filter_features.
  destruct (filter_features_and_drop_nan seed _) as [filtered | e]; simpl; split.
  - intros [= <- <-]. by exists filtered.
  - by intros (? & [= <-] & -> & ->).
  - done.
  - by intros (? & [=] & _).
Qed.

(** X5: what [filter_features] keeps.  A diary row stays exactly when its
    individual has a value in every column of a chosen feature of the
    seed; an individual stays in the seed exactly when it has these values
    and a diary row. *)
Theorem filter_features_keeps seed markov_ts features seed' markov_ts' :
  filter_features str seed markov_ts features = Ok (seed', markov_ts') →
  (∀ r, r ∈ markov_ts' ↔
        r ∈ markov_ts ∧ has_features seed (str <$> features) (droplevel r.1))
  ∧ (∀ k, k ∈ index seed' ↔
          has_features seed (str <$> features) k ∧ k ∈ droplevel <$> markov_ts.*1).
Proof.
  intros (filtered & Hfilter & -> & ->)%filter_features_Ok.
  pose proof (λ k, filtered_index seed _ filtered k Hfilter) as Hindex. simpl in Hindex.
  assert (∀ r, r ∈ filter (λ r, bool_decide (droplevel r.1 ∈ index filtered)) markov_ts ↔
               r ∈ markov_ts ∧ has_features seed (str <$> features) (droplevel r.1))
    as Hdiary.
  { intros r. rewrite list_elem_of_filter, bool_decide_spec, Hindex. tauto. }
  split; [done |]. intros k. unfold index, select_rows. simpl. split.
  - intros (r & -> & [Hkeep%bool_decide_unpack Hr]%list_elem_of_filter)%list_elem_of_fmap.
    apply list_elem_of_fmap in Hkeep as (i & Hi & (d & -> & Hd%Hdiary)%list_elem_of_fmap).
    destruct Hd as [Hd Hhas]. split; [by rewrite Hi |].
    rewrite Hi. by apply list_elem_of_fmap_2, list_elem_of_fmap_2.
  - intros [Hhas (i & -> & (d & -> & Hd)%list_elem_of_fmap)%list_elem_of_fmap].
    pose proof (proj2 (Hindex _) Hhas) as Hin.
    unfold index in Hin. apply list_elem_of_fmap in Hin as (r & Hkey & Hr).
    rewrite Hkey. apply list_elem_of_fmap_2, list_elem_of_filter. split; [| done].
    apply bool_decide_pack. rewrite <- Hkey.
    apply list_elem_of_fmap_2, list_elem_of_fmap_2, Hdiary. by split.
Qed.

(** X6: [filter_features] asserts nothing about its own result.  When no
    diary row belongs to an individual of the filtered seed, it returns a
    seed without rows and an empty time series. *)
Theorem filter_features_disjoint seed markov_ts features filtered :
  filter_features_and_drop_nan seed (FeatureList (str <$> features)) = Ok filtered →
  (∀ r, r ∈ markov_ts → droplevel r.1 ∉ index filtered) →
  filter_features str seed markov_ts features = Ok (mkDataFrame (columns filtered) [], []).
Proof.
  intros Hfilter Hdisjoint. apply filter_features_Ok. exists filtered.
  split; [done |].
  assert (filter (λ r, bool_decide (droplevel r.1 ∈ index filtered)) markov_ts = [])
    as Hnone.
  { apply filter_none. intros r Hr Hin%bool_decide_unpack. by apply (Hdisjoint r). }
  split; [done |]. unfold select_rows. simpl. f_equal.
  symmetry. apply filter_none. by intros r _ Hin.
Qed.

(** X7: for features with distinct names, [filter_features] applied to
    its own result returns it again when the seed has a row, and raises
    the assertion error when it has none. *)
Theorem filter_features_again seed markov_ts features seed' markov_ts' :
  NoDup (str <$> features) →
  filter_features str seed markov_ts features = Ok (seed', markov_ts') →
  filter_features str seed' markov_ts' features
  = if decide (shape0 seed' = 0) then Raise AssertionError else Ok (seed', markov_ts').
Proof.
  intros Hnames (filtered & Hfilter & Hts & Hseed)%filter_features_Ok.
  pose proof (filter_features_and_drop_nan_clean seed (FeatureList (str <$> features))
                filtered Hnames Hfilter)
    as [(Hall & Hpositions & Hrows) _].
  simpl in Hall, Hpositions, Hrows.
  assert (clean (str <$> features) seed') as Hclean.
  { subst seed'. split; [done |]. split; [done |]. unfold select_rows. simpl.
    apply Forall_forall. intros r [_ Hr]%list_elem_of_filter.
    rewrite Forall_forall in Hrows. by apply Hrows. }
  pose proof (filter_clean _ _ Hclean) as Hagain.
  destruct (decide (shape0 seed' = 0)) as [Hzero | Hpos].
  - unfold filter_features. by rewrite Hagain.
  - apply filter_features_Ok. exists seed'. split; [done |].
    assert (∀ r, r ∈ markov_ts' → droplevel r.1 ∈ index seed') as Hdiary.
    { intros r Hr. pose proof Hr as Hr'. rewrite Hts in Hr'.
      apply list_elem_of_filter in Hr' as [Hin%bool_decide_unpack _].
      unfold index in Hin. apply list_elem_of_fmap in Hin as (r0 & Hkey & Hr0).
      rewrite Hseed. unfold index, select_rows. simpl. rewrite Hkey.
      apply list_elem_of_fmap_2, list_elem_of_filter. split; [| done].
      apply bool_decide_pack. rewrite <- Hkey.
      by apply list_elem_of_fmap_2, list_elem_of_fmap_2. }
    assert (filter (λ r, bool_decide (droplevel r.1 ∈ index seed')) markov_ts' = markov_ts')
      as Hsame.
    { apply filter_all. intros r Hr. by apply bool_decide_pack, Hdiary. }
    split; [done |].
    destruct seed' as [cols rs]. unfold select_rows. simpl. f_equal.
    symmetry. apply filter_all. intros r Hr.
    injection Hseed as _ ->. by apply list_elem_of_filter in Hr as [Hkeep _].
Qed.

End filter_features_more.

Lemma filter_features_keeps_witness :
  (∀ r, r ∈ [((1, 1, 1)%Z, "weekday", 0, Activity.SLEEP)] ↔
        r ∈ markov_ts_example ∧ has_features seed_carers ["carer"] (droplevel r.1))
  ∧ (∀ k, k ∈ index (mkDataFrame ["carer"] [((1, 1, 1)%Z, [Val (OfCarer Carer.CARER)])]) ↔
          has_features seed_carers ["carer"] k
          ∧ k ∈ droplevel <$> markov_ts_example.*1).
Proof.
  apply (filter_features_keeps (λ name : string, name) seed_carers markov_ts_example
           ["carer"] (mkDataFrame ["carer"] [((1, 1, 1)%Z, [Val (OfCarer Carer.CARER)])])
           [((1, 1, 1)%Z, "weekday", 0, Activity.SLEEP)]).
  vm_compute. reflexivity.
Defined.

Lemma filter_features_disjoint_witness :
  filter_features (λ name : string, name) seed_carers
    [((3, 1, 1)%Z, "weekday", 0, Activity.OTHER)] ["carer"]
  = Ok (mkDataFrame ["carer"] [], []).
Proof.
  apply (filter_features_disjoint (λ name : string, name) seed_carers
           [((3, 1, 1)%Z, "weekday", 0, Activity.OTHER)] ["carer"]
           (mkDataFrame ["carer"] [((1, 1, 1)%Z, [Val (OfCarer Carer.CARER)])])).
  - vm_compute. reflexivity.
  - intros r ->%list_elem_of_singleton Hin. vm_compute in Hin.
    apply list_elem_of_singleton in Hin. discriminate Hin.
Defined.

Lemma filter_features_again_witness :
  NoDup ((λ name : string, name) <$> ["carer"])
  ∧ filter_features (λ name : string, name)
      (mkDataFrame ["carer"] [((1, 1, 1)%Z, [Val (OfCarer Carer.CARER)])])
      [((1, 1, 1)%Z, "weekday", 0, Activity.SLEEP)] ["carer"]
    = Ok (mkDataFrame ["carer"] [((1, 1, 1)%Z, [Val (OfCarer Carer.CARER)])],
          [((1, 1, 1)%Z, "weekday", 0, Activity.SLEEP)]).
Proof.
  assert (NoDup ((λ name : string, name) <$> ["carer"])) as Hnames
    by (apply NoDup_singleton).
  split; [exact Hnames |].
  apply (filter_features_again (λ name : string, name) seed_carers markov_ts_example
           ["carer"] (mkDataFrame ["carer"] [((1, 1, 1)%Z, [Val (OfCarer Carer.CARER)])])
           [((1, 1, 1)%Z, "weekday", 0, Activity.SLEEP)] Hnames).
  vm_compute. reflexivity.
Defined.

(** ** The household validator *)
Section household_validator_more.
Variable name : string.
Implicit Types (seed out : DataFrame uo_value) (position : nat) (h : Z * Z).

Lemma agg_households_groups seed position :
  agg_households position (groupby_household seed)
  = (λ h, mkHousehold h (group_type seed position h)
            (agg_count ((λ r : Key * list (pyval uo_value), default NaN (r.2 !! position))
                          <$> household_rows seed h)))
      <$> households_of seed.
Proof.
  unfold agg_households, groupby_household, households_of. by rewrite <- list_fmap_compose.
Qed.

Lemma select_type_ids seed position (ty : HouseholdType.t) h :
  h ∈ hh_id <$> select_type (agg_households position (groupby_household seed)) ty true ↔
  h ∈ households_of seed ∧ group_type seed position h = Val (OfHouseholdType ty).
Proof.
  rewrite agg_households_groups. unfold select_type. rewrite list_elem_of_fmap. split.
  - intros (hh & -> & [Hty Hhh]%list_elem_of_filter).
    rewrite andb_true_r in Hty. apply bool_decide_unpack in Hty.
    apply list_elem_of_fmap in Hhh as (h & -> & Hh). by simpl in *.
  - intros [Hh Hty].
    exists (mkHousehold h (group_type seed position h)
              (agg_count ((λ r : Key * list (pyval uo_value), default NaN (r.2 !! position))
                            <$> household_rows seed h))).
    split; [done |]. apply list_elem_of_filter. split.
    + rewrite andb_true_r. apply bool_decide_pack. simpl. exact Hty.
    + apply list_elem_of_fmap. by exists h.
Qed.

Lemma households_of_row seed (r : Key * list (pyval uo_value)) :
  r ∈ rows seed → household_id r.1 ∈ households_of seed.
Proof.
  intros Hr. unfold households_of, index. apply elem_of_remove_dups.
  rewrite <- list_fmap_compose. by apply (list_elem_of_fmap_2 (household_id ∘ fst)).
Qed.

Lemma size_households seed position :
  size (agg_households position (groupby_household seed)) = 2 * length (households_of seed).
Proof.
  unfold size, agg_households, groupby_household, households_of.
  rewrite !length_fmap. lia.
Qed.

(** The labels that the validator drops, by the number of households of
    the table *)
Lemma invalid_ids seed position h :
  h ∈ hh_id <$>
    (select_type (agg_households position (groupby_household seed))
       HouseholdType.COUPLE_WITH_DEPENDENT_CHILDREN
       (size (agg_households position (groupby_household seed)) <=? 2)
     ++ select_type (agg_households position (groupby_household seed))
          HouseholdType.COUPLE_WITHOUT_DEPENDENT_CHILDREN
          (negb (size (agg_households position (groupby_household seed)) =? 2))
     ++ select_type (agg_households position (groupby_household seed))
          HouseholdType.LONE_PARENT_WITH_DEPENDENT_CHILDREN
          (size (agg_households position (groupby_household seed)) <? 2)
     ++ select_type (agg_households position (groupby_household seed))
          HouseholdType.MULTI_PERSON_HOUSEHOLD
          (size (agg_households position (groupby_household seed)) <? 2)) ↔
  h ∈ households_of seed
  ∧ group_type seed position h
    = Val (OfHouseholdType
             (if decide (length (households_of seed) = 1)
              then HouseholdType.COUPLE_WITH_DEPENDENT_CHILDREN
              else HouseholdType.COUPLE_WITHOUT_DEPENDENT_CHILDREN)).
Proof.
  rewrite size_households.
  destruct (decide (length (households_of seed) = 0)) as [Hnone | Hsome].
  { apply nil_length_inv in Hnone.
    assert (agg_households position (groupby_household seed) = []) as ->.
    { unfold agg_households, groupby_household. fold (households_of seed).
      by rewrite Hnone. }
    unfold select_type. simpl. rewrite Hnone. split; [by intros ?%elem_of_nil |].
    by intros [?%elem_of_nil _]. }
  replace (2 * length (households_of seed) <? 2) with false
    by (symmetry; apply Nat.ltb_ge; lia).
  rewrite !select_type_false, !app_nil_r.
  destruct (decide (length (households_of seed) = 1)) as [Hone | Hmany].
  - replace (2 * length (households_of seed) <=? 2) with true
      by (symmetry; apply Nat.leb_le; lia).
    replace (2 * length (households_of seed) =? 2) with true
      by (symmetry; apply Nat.eqb_eq; lia).
    change (negb true) with false.
    by rewrite select_type_false, app_nil_r, select_type_ids.
  - replace (2 * length (households_of seed) <=? 2) with false
      by (symmetry; apply Nat.leb_gt; lia).
    replace (2 * length (households_of seed) =? 2) with false
      by (symmetry; apply Nat.eqb_neq; lia).
    change (negb false) with true.
    by rewrite select_type_false, app_nil_l, select_type_ids.
Qed.

Lemma filter_invalid_households_rows seed position :
  column_position seed name = Some position →
  _filter_invalid_households name seed
  = Ok (mkDataFrame (columns seed)
          (filter (λ r, ¬ (group_type seed position (household_id r.1)
                           = Val (OfHouseholdType
                                    (if decide (length (households_of seed) = 1)
                                     then HouseholdType.COUPLE_WITH_DEPENDENT_CHILDREN
                                     else HouseholdType.COUPLE_WITHOUT_DEPENDENT_CHILDREN))))
             (rows seed))).
Proof.
  intros Hpos. unfold _filter_invalid_households. rewrite Hpos. f_equal.
  unfold drop. f_equal. apply filter_iff_elem. intros r Hr.
  rewrite invalid_ids. pose proof (households_of_row seed r Hr). tauto.
Qed.

(** The runs of a list have the elements of the list. *)
Lemma runs_elem (ids : list (Z * Z)) (h : Z * Z) : h ∈ runs ids ↔ h ∈ ids.
Proof.
  induction ids as [| a [| b rest] IH]; [done | done |].
  change (runs (a :: b :: rest))
    with (if decide (a = b) then runs (b :: rest) else a :: runs (b :: rest)).
  destruct (decide (a = b)) as [-> | Hne].
  - rewrite IH, !elem_of_cons. tauto.
  - rewrite (elem_of_cons (b :: rest)), elem_of_cons, IH. tauto.
Qed.

(** When no household has two runs, the rows of a household are
    adjacent: a row between two rows of a household is a row of it. *)
Lemma runs_adjacent (ids : list (Z * Z)) :
  NoDup (runs ids) →
  ∀ (i j k : nat) (h : Z * Z),
    i ≤ j → j ≤ k → ids !! i = Some h → ids !! k = Some h → ids !! j = Some h.
Proof.
  induction ids as [| a [| b rest] IH]; intros Hruns i j k h Hij Hjk Hi Hk.
  - done.
  - destruct k as [| k]; [| done]. by replace j with 0 by lia.
  - change (runs (a :: b :: rest))
      with (if decide (a = b) then runs (b :: rest) else a :: runs (b :: rest)) in Hruns.
    destruct (decide (a = b)) as [-> | Hne].
    + destruct j as [| j]; [by replace i with 0 in Hi by lia |].
      destruct k as [| k]; [lia |].
      destruct i as [| i].
      * injection Hi as <-. apply (IH Hruns 0 j k b); [lia | lia | done | done].
      * apply (IH Hruns i j k h); [lia | lia | done | done].
    + apply NoDup_cons in Hruns as [Ha Hruns].
      destruct i as [| i].
      * injection Hi as <-. destruct k as [| k]; [by replace j with 0 by lia |].
        exfalso. apply Ha, runs_elem. by eapply list_elem_of_lookup_2.
      * destruct j as [| j]; [lia |]. destruct k as [| k]; [lia |].
        apply (IH Hruns i j k h); [lia | lia | done | done].
Qed.

(** In a grouped seed a row that lies between two rows of a household is
    a row of that household. *)
Lemma grouped_adjacent seed (i j k : nat) h :
  grouped seed → i ≤ j → j ≤ k →
  (household_id <$> index seed) !! i = Some h →
  (household_id <$> index seed) !! k = Some h →
  (household_id <$> index seed) !! j = Some h.
Proof. intros (_ & _ & Hruns). by apply runs_adjacent. Qed.

(** X8: what the validator removes from a grouped seed whose household
    types are categories or [np.nan].  From a table of exactly one
    household it removes the household when its type is couple with
    dependent children; from any other table it removes the households
    whose type is couple without dependent children.  The number of
    members of a household plays no role. *)
Theorem filter_invalid_households_removes seed position out
    (r : Key * list (pyval uo_value)) :
  grouped seed → typed seed position →
  column_position seed name = Some position →
  _filter_invalid_households name seed = Ok out →
  r ∈ rows out ↔
  r ∈ rows seed
  ∧ group_type seed position (household_id r.1)
    ≠ Val (OfHouseholdType
             (if decide (length (households_of seed) = 1)
              then HouseholdType.COUPLE_WITH_DEPENDENT_CHILDREN
              else HouseholdType.COUPLE_WITHOUT_DEPENDENT_CHILDREN)).
Proof.
  intros _ _ Hpos Hout. rewrite (filter_invalid_households_rows seed position Hpos) in Hout.
  injection Hout as <-. simpl. rewrite list_elem_of_filter. tauto.
Qed.

(** X9: from a grouped seed the validator keeps or removes a household as
    a whole. *)
Theorem filter_invalid_households_whole seed out (r r' : Key * list (pyval uo_value)) :
  grouped seed →
  _filter_invalid_households name seed = Ok out →
  r ∈ rows out → r' ∈ rows seed → household_id r'.1 = household_id r.1 →
  r' ∈ rows out.
Proof.
  intros _ Hout Hr Hr' Hsame.
  destruct (column_position seed name) as [position |] eqn:Hpos;
    [| unfold _filter_invalid_households in Hout; by rewrite Hpos in Hout].
  rewrite (filter_invalid_households_rows seed position Hpos) in Hout.
  injection Hout as <-. simpl in *.
  apply list_elem_of_filter in Hr as [Htype _]. apply list_elem_of_filter.
  split; [| done]. by rewrite Hsame.
Qed.

(** X10: from a grouped seed whose household types are categories or
    [np.nan] the validator never removes a household whose type is neither
    of the two couple types: one-person households, lone parents,
    multi-person households and households without a type all stay. *)
Theorem filter_invalid_households_keeps_others seed position out
    (r : Key * list (pyval uo_value)) :
  grouped seed → typed seed position →
  column_position seed name = Some position →
  _filter_invalid_households name seed = Ok out →
  r ∈ rows seed →
  group_type seed position (household_id r.1)
    ≠ Val (OfHouseholdType HouseholdType.COUPLE_WITH_DEPENDENT_CHILDREN) →
  group_type seed position (household_id r.1)
    ≠ Val (OfHouseholdType HouseholdType.COUPLE_WITHOUT_DEPENDENT_CHILDREN) →
  r ∈ rows out.
Proof.
  intros _ _ Hpos Hout Hr Hwith Hwithout.
  rewrite (filter_invalid_households_rows seed position Hpos) in Hout.
  injection Hout as <-. simpl. apply list_elem_of_filter. split; [| done].
  by destruct (decide _).
Qed.

(** X11: the validator raises a key error when the seed has no household
    type column; for a grouped seed with the column it returns a table
    that has the columns of the seed, and for rows rows of the seed in
    their order. *)
Theorem filter_invalid_households_errors seed :
  (name ∉ columns seed → _filter_invalid_households name seed = Raise KeyError)
  ∧ (name ∈ columns seed → grouped seed →
     ∃ out, _filter_invalid_households name seed = Ok out
            ∧ columns out = columns seed ∧ rows out `sublist_of` rows seed).
Proof.
  split.
  - intros Hname%column_position_None. unfold _filter_invalid_households.
    by rewrite Hname.
  - intros Hname _. destruct (column_position seed name) as [position |] eqn:Hpos.
    + eexists. split; [by apply filter_invalid_households_rows |].
      split; [done |]. apply sublist_filter.
    + by apply column_position_None in Hpos.
Qed.

End household_validator_more.

Lemma seed_three_households_grouped : grouped seed_three_households.
Proof. repeat split; by_computation. Qed.

Lemma seed_couple_grouped : grouped seed_couple.
Proof. repeat split; by_computation. Qed.

Lemma filter_invalid_households_removes_witness :
  grouped seed_three_households
  ∧ typed seed_three_households 0
  ∧ column_position seed_three_households household_type_name = Some 0
  ∧ _filter_invalid_households household_type_name seed_three_households
    = Ok (mkDataFrame [household_type_name]
            [((1, 1, 1)%Z,
              household_type_cell HouseholdType.LONE_PARENT_WITH_DEPENDENT_CHILDREN);
             ((1, 1, 2)%Z,
              household_type_cell HouseholdType.LONE_PARENT_WITH_DEPENDENT_CHILDREN);
             ((3, 1, 1)%Z, household_type_cell HouseholdType.ONE_PERSON_HOUSEHOLD)])
  ∧ (((2, 1, 1)%Z, household_type_cell HouseholdType.COUPLE_WITHOUT_DEPENDENT_CHILDREN)
       ∈ [((1, 1, 1)%Z,
           household_type_cell HouseholdType.LONE_PARENT_WITH_DEPENDENT_CHILDREN);
          ((1, 1, 2)%Z,
           household_type_cell HouseholdType.LONE_PARENT_WITH_DEPENDENT_CHILDREN);
          ((3, 1, 1)%Z, household_type_cell HouseholdType.ONE_PERSON_HOUSEHOLD)] ↔
     ((2, 1, 1)%Z, household_type_cell HouseholdType.COUPLE_WITHOUT_DEPENDENT_CHILDREN)
       ∈ rows seed_three_households
     ∧ group_type seed_three_households 0 (2, 1)%Z
       ≠ Val (OfHouseholdType
                (if decide (length (households_of seed_three_households) = 1)
                 then HouseholdType.COUPLE_WITH_DEPENDENT_CHILDREN
                 else HouseholdType.COUPLE_WITHOUT_DEPENDENT_CHILDREN))).
Proof.
  split; [exact seed_three_households_grouped |]. split; [by_computation |].
  split; [vm_compute; reflexivity |]. split; [vm_compute; reflexivity |].
  apply (filter_invalid_households_removes household_type_name seed_three_households 0
           (mkDataFrame [household_type_name]
              [((1, 1, 1)%Z,
                household_type_cell HouseholdType.LONE_PARENT_WITH_DEPENDENT_CHILDREN);
               ((1, 1, 2)%Z,
                household_type_cell HouseholdType.LONE_PARENT_WITH_DEPENDENT_CHILDREN);
               ((3, 1, 1)%Z, household_type_cell HouseholdType.ONE_PERSON_HOUSEHOLD)])
           ((2, 1, 1)%Z, household_type_cell HouseholdType.COUPLE_WITHOUT_DEPENDENT_CHILDREN)).
  - exact seed_three_households_grouped.
  - by_computation.
  - vm_compute. reflexivity.
  - vm_compute. reflexivity.
Defined.

Lemma filter_invalid_households_whole_witness :
  grouped seed_three_households
  ∧ ((1, 1, 1)%Z, household_type_cell HouseholdType.LONE_PARENT_WITH_DEPENDENT_CHILDREN)
    ≠ ((1, 1, 2)%Z, household_type_cell HouseholdType.LONE_PARENT_WITH_DEPENDENT_CHILDREN)
  ∧ ((1, 1, 2)%Z, household_type_cell HouseholdType.LONE_PARENT_WITH_DEPENDENT_CHILDREN)
    ∈ [((1, 1, 1)%Z, household_type_cell HouseholdType.LONE_PARENT_WITH_DEPENDENT_CHILDREN);
       ((1, 1, 2)%Z, household_type_cell HouseholdType.LONE_PARENT_WITH_DEPENDENT_CHILDREN);
       ((3, 1, 1)%Z, household_type_cell HouseholdType.ONE_PERSON_HOUSEHOLD)].
Proof.
  split; [exact seed_three_households_grouped |]. split; [discriminate |].
  apply (filter_invalid_households_whole household_type_name seed_three_households
           (mkDataFrame [household_type_name]
              [((1, 1, 1)%Z,
                household_type_cell HouseholdType.LONE_PARENT_WITH_DEPENDENT_CHILDREN);
               ((1, 1, 2)%Z,
                household_type_cell HouseholdType.LONE_PARENT_WITH_DEPENDENT_CHILDREN);
               ((3, 1, 1)%Z, household_type_cell HouseholdType.ONE_PERSON_HOUSEHOLD)])
           ((1, 1, 1)%Z, household_type_cell HouseholdType.LONE_PARENT_WITH_DEPENDENT_CHILDREN)
           ((1, 1, 2)%Z,
            household_type_cell HouseholdType.LONE_PARENT_WITH_DEPENDENT_CHILDREN)).
  - exact seed_three_households_grouped.
  - vm_compute. reflexivity.
  - apply list_elem_of_here.
  - apply list_elem_of_further, list_elem_of_here.
  - reflexivity.
Defined.

Lemma filter_invalid_households_keeps_others_witness :
  grouped seed_couple
  ∧ typed seed_couple 0
  ∧ ((2, 1, 1)%Z, household_type_cell HouseholdType.ONE_PERSON_HOUSEHOLD)
    ∈ [((2, 1, 1)%Z, household_type_cell HouseholdType.ONE_PERSON_HOUSEHOLD)].
Proof.
  split; [exact seed_couple_grouped |]. split; [by_computation |].
  apply (filter_invalid_households_keeps_others household_type_name seed_couple 0
           (mkDataFrame [household_type_name]
              [((2, 1, 1)%Z, household_type_cell HouseholdType.ONE_PERSON_HOUSEHOLD)])
           ((2, 1, 1)%Z, household_type_cell HouseholdType.ONE_PERSON_HOUSEHOLD)).
  - exact seed_couple_grouped.
  - by_computation.
  - vm_compute. reflexivity.
  - vm_compute. reflexivity.
  - apply list_elem_of_further, list_elem_of_further, list_elem_of_here.
  - vm_compute. discriminate.
  - vm_compute. discriminate.
Defined.

Lemma filter_invalid_households_errors_witness :
  _filter_invalid_households household_type_name seed_carers = Raise KeyError
  ∧ ∃ out, _filter_invalid_households household_type_name seed_couple = Ok out
           ∧ columns out = columns seed_couple
           ∧ rows out `sublist_of` rows seed_couple.
Proof.
  split.
  - apply (proj1 (filter_invalid_households_errors household_type_name seed_carers)).
    by_computation.
  - apply (proj2 (filter_invalid_households_errors household_type_name seed_couple)).
    + by_position.
    + exact seed_couple_grouped.
Defined.


(** ** The age mapping and the other tables *)

Lemma AGE_MAP_keys :
  Forall (λ kv : pyval Z * pyval AgeStructure.t,
            match kv.1 with
            | Val age => (8 ≤ age ≤ 99)%Z
            | _ => False
            end) AGE_MAP_items.
Proof.
  apply (Forall_impl (λ kv : pyval Z * pyval AgeStructure.t,
           match kv.1 with
           | Val age => bool_decide (8 ≤ age ≤ 99)%Z
           | _ => false
           end = true)); [compute_done |].
  intros [[age | |] v]; simpl; [| done..]. by intros ?%bool_decide_eq_true.
Qed.

(** X12: the domain of the age mapping.  [AGE_MAP] has an entry for an
    age exactly when the age lies between 8 and 99, and none for a missing
    age; the category of an entry is never null. *)
Theorem AGE_MAP_domain :
  (∀ age : Z, is_Some (AGE_MAP !! Val age) ↔ (8 ≤ age ≤ 99)%Z)
  ∧ AGE_MAP !! NaN = None
  ∧ AGE_MAP !! PyNone = None
  ∧ ∀ (code : pyval Z) (v : pyval AgeStructure.t),
      AGE_MAP !! code = Some v → isnull v = false.
Proof.
  split; [| split; [compute_done | split; [compute_done |]]].
  - intros age. split.
    + intros [v Hv]. apply dict_lookup_elem in Hv.
      pose proof AGE_MAP_keys as Hkeys. rewrite Forall_forall in Hkeys.
      apply (Hkeys _ Hv).
    + intros Hage. destruct (AGE_MAP_defined age Hage) as (band & -> & _). by eexists.
  - intros code v Hv%dict_lookup_elem.
    assert (Forall (λ kv : pyval Z * pyval AgeStructure.t, isnull kv.2 = false)
              AGE_MAP_items) as Hvalues by compute_done.
    rewrite Forall_forall in Hvalues. apply (Hvalues _ Hv).
Qed.

Lemma bands_disjoint (band1 band2 : AgeStructure.t) :
  band1 ≠ band2 →
  (band_hi band1 < band_lo band2)%Z ∨ (band_hi band2 < band_lo band1)%Z.
Proof.
  intros Hne.
  assert (bool_decide (band1 = band2)
          || bool_decide (band_hi band1 < band_lo band2)%Z
          || bool_decide (band_hi band2 < band_lo band1)%Z = true) as Hcases
    by (destruct band1, band2; vm_compute; reflexivity).
  apply orb_true_iff in Hcases as [[Heq | Hlt]%orb_true_iff | Hlt].
  - by apply bool_decide_eq_true in Heq.
  - left. by apply bool_decide_eq_true in Hlt.
  - right. by apply bool_decide_eq_true in Hlt.
Qed.

(** X13: the age mapping is monotone: of two ages with an entry the
    greater one is mapped to the same band or to a band of greater ages. *)
Theorem AGE_MAP_monotone (age1 age2 : Z) (band1 band2 : AgeStructure.t) :
  (age1 ≤ age2)%Z →
  AGE_MAP !! Val age1 = Some (Val band1) → AGE_MAP !! Val age2 = Some (Val band2) →
  band1 = band2 ∨ (band_hi band1 < band_lo band2)%Z.
Proof.
  intros Hle H1 H2.
  assert (∀ age band, AGE_MAP !! Val age = Some (Val band) →
            (band_lo band ≤ age ≤ band_hi band)%Z) as Hrange.
  { intros age band Hband.
    assert (8 ≤ age ≤ 99)%Z as Hage.
    { pose proof AGE_MAP_keys as Hkeys. rewrite Forall_forall in Hkeys.
      apply (Hkeys _ (dict_lookup_elem _ _ _ Hband)). }
    destruct (AGE_MAP_defined age Hage) as (band' & Hband' & Hin). congruence. }
  apply Hrange in H1, H2.
  destruct (decide (band1 = band2)) as [| Hne]; [by left | right].
  destruct (bands_disjoint band1 band2 Hne); [done | lia].
Qed.

Lemma AGE_MAP_monotone_witness :
  AgeStructure.AGE_10_TO_14 = AgeStructure.AGE_30_TO_44
  ∨ (band_hi AgeStructure.AGE_10_TO_14 < band_lo AgeStructure.AGE_30_TO_44)%Z.
Proof.
  apply (AGE_MAP_monotone 12 40); [done | vm_compute; reflexivity..].
Defined.

(** X14: every simplified location and every simplified activity is the
    category of some raw diary code. *)
Theorem LOCATION_ACTIVITY_onto :
  (∀ location : Location.t,
      ∃ code, LOCATION_MAP !! Val code = Some (Val location))
  ∧ (∀ activity : Activity.t,
        ∃ code, ACTIVITY_MAP !! Val code = Some (Val activity)).
Proof.
  split.
  - intros [].
    + by exists diary.WHER_001._HOME.
    + by exists diary.WHER_001._SECOND_HOME_OR_WEEKEND_HOUSE.
    + by exists diary.WHER_001._WORKING_PLACE_OR_SCHOOL.
    + by exists diary.WHER_001._RESTAURANT__CAFÉ_OR_PUB.
    + by exists diary.WHER_001._SPORTS_FACILITY.
    + by exists diary.WHER_001._WHER_001__ARTS_OR_CULTURAL_CENTRE.
    + by exists diary.WHER_001._THE_COUNTRY_COUNTRYSIDE__SEASIDE__BEACH_OR_COAST.
    + by exists diary.WHER_001._TRAVELLING_ON_FOOT.
    + by exists diary.WHER_001.MAIN_ACTVTY_EQUAL_SLEEPWORKSTUDY___NO_CODE_REQUIRED.
  - intros [].
    + by exists diary.ACT1_001.SLEEP.
    + by exists diary.ACT1_001.CLASSES_AND_LECTURES.
    + by exists diary.ACT1_001.EATING.
Qed.

(** X15: the tables of region, population density, personal income and
    carer status merge no codes: two raw codes to which one of them gives
    the same category are the same code. *)
Theorem renaming_tables_injective :
  (∀ c1 c2 (v : Region.t),
      REGION_MAP !! Val c1 = Some (Val v) → REGION_MAP !! Val c2 = Some (Val v) → c1 = c2)
  ∧ (∀ c1 c2 (v : PopulationDensity.t),
        POPULATION_DENSITY_MAP !! Val c1 = Some (Val v) →
        POPULATION_DENSITY_MAP !! Val c2 = Some (Val v) → c1 = c2)
  ∧ (∀ c1 c2 (v : PersonalIncome.t),
        PERSONAL_INCOME_MAP !! Val c1 = Some (Val v) →
        PERSONAL_INCOME_MAP !! Val c2 = Some (Val v) → c1 = c2)
  ∧ (∀ c1 c2 (v : Carer.t),
        CARER_MAP !! Val c1 = Some (Val v) → CARER_MAP !! Val c2 = Some (Val v) → c1 = c2).
Proof.
  repeat split; intros c1 c2 v H1 H2;
    destruct c1; vm_compute in H1; try discriminate H1; injection H1 as <-;
    destruct c2; vm_compute in H2; try discriminate H2; reflexivity.
Qed.

(** ** The dwelling type decision table *)

(** X16: the dwelling type depends on the kind of accommodation and on
    the one field that describes this kind: the type of house for a house,
    the kind of building for a flat, the kind of other accommodation for
    other; the remaining fields are not looked at. *)
Theorem dwellingtype_map_relevant_fields
    (hq13b hq13b' : pyval household.HQ13B.t) (hq13c hq13c' : pyval household.HQ13C.t)
    (hq13d hq13d' : pyval household.HQ13D.t) :
  dwellingtype_map (Val household.HQ13A.A_HOUSE_OR_BUNGALOW, hq13b, hq13c, hq13d)
  = dwellingtype_map (Val household.HQ13A.A_HOUSE_OR_BUNGALOW, hq13b, hq13c', hq13d')
  ∧ dwellingtype_map (Val household.HQ13A.A_FLAT_OR_MAISONETTE, hq13b, hq13c, hq13d)
    = dwellingtype_map (Val household.HQ13A.A_FLAT_OR_MAISONETTE, hq13b', hq13c, hq13d')
  ∧ dwellingtype_map (Val household.HQ13A.OTHER, hq13b, hq13c, hq13d)
    = dwellingtype_map (Val household.HQ13A.OTHER, hq13b', hq13c', hq13d)
  ∧ dwellingtype_map (Val household.HQ13A.A_ROOMROOMS, hq13b, hq13c, hq13d)
    = Val DwellingType.OTHER.
Proof. done. Qed.

(** X17: the decision table gives [np.nan] exactly for the missing kind of
    accommodation; every other combination that it does not decide gives
    [None]. *)
Theorem dwellingtype_map_nan
    (row : pyval household.HQ13A.t * pyval household.HQ13B.t *
           pyval household.HQ13C.t * pyval household.HQ13D.t) :
  dwellingtype_map row = NaN ↔ row.1.1.1 = Val household.HQ13A.MISSING1.
Proof.
  destruct row as [[[hq13a hq13b] hq13c] hq13d]. simpl. split.
  - unfold dwellingtype_map. repeat case_bool_decide; congruence.
  - by intros ->.
Qed.

(** ** The row transformer *)
Section object_more.
Context {V : Type}.
Implicit Types (σ : gmap loc (object V)) (l df : loc) (o : object V).

Lemma find_column_None (name : string) (cols : list (string * loc)) :
  name ∉ cols.*1 → find_column name cols = None.
Proof.
  intros Hname. destruct (find_column name cols) as [block |] eqn:Hfind; [| done].
  apply find_column_elem in Hfind. exfalso. apply Hname.
  by apply (list_elem_of_fmap_2 fst _ (name, block)).
Qed.

Lemma mapM_Ok_each {A B : Type} (g : A → M V B) (xs : list A) σ (ys : list B) σ' :
  (∀ x σ1 y σ2, g x σ1 = Ok (y, σ2) → σ1 ⊆ σ2) →
  mapM g xs σ = Ok (ys, σ') →
  Forall2 (λ x y, ∃ σ1 σ2, σ ⊆ σ1 ∧ g x σ1 = Ok (y, σ2)) xs ys.
Proof.
  intros Hg. revert σ ys. induction xs as [| x xs IH]; intros σ ys; simpl.
  - intros [-> _]%ret_Ok. constructor.
  - intros (y & σ1 & Hy & (k & σ2 & Hk & [-> ->]%ret_Ok)%bind_Ok)%bind_Ok.
    constructor; [by exists σ, σ1 |].
    eapply Forall2_impl; [by apply (IH σ1) |].
    intros x' y' (σa & σb & Hsub & Hx'). exists σa, σb. split; [| done].
    etrans; [by eapply Hg | done].
Qed.

Lemma getitem_names df (name : variable_name) σ (x : pandas) σ' index cols :
  getitem df name σ = Ok (x, σ') → σ !! df = Some (Frame index cols) →
  variable_names name ⊆ cols.*1.
Proof.
  destruct name as [name | names]; simpl.
  - intros (s & (-> & cols' & Hframe & Hcol)%column_Ok & ->)%fmap_Ok Hdf.
    rewrite Hframe in Hdf. injection Hdf as _ <-.
    intros n ->%list_elem_of_singleton.
    by apply (list_elem_of_fmap_2 fst _ (name, series_values s)).
  - intros (l & Hcopy & ->)%fmap_Ok Hdf. unfold copy_columns in Hcopy.
    apply bind_Ok in Hcopy as ([index' cols'] & σ0 & [-> Hframe]%read_frame_Ok
                               & (new_cols & σ1 & HmapM & _)%bind_Ok).
    simpl in *. rewrite Hframe in Hdf. injection Hdf as _ <-.
    apply mapM_Ok_each in HmapM; [| intros ????; by apply copy_column_Ok].
    intros n Hn. apply list_elem_of_lookup in Hn as [i Hi].
    destruct (Forall2_lookup_l _ _ _ _ _ HmapM Hi) as (c & _ & σa & σb & _ & Hc).
    unfold copy_column in Hc.
    destruct (find_column n cols') as [block |] eqn:Hfind; [| done].
    apply find_column_elem in Hfind. by apply (list_elem_of_fmap_2 fst _ (n, block)).
Qed.

Lemma set_column_names (name : string) (block : loc) (cols : list (string * loc)) :
  (set_column name block cols).*1 = add_name cols.*1 name.
Proof.
  unfold set_column, add_name. case_bool_decide; [| by rewrite fmap_app].
  rewrite <- list_fmap_compose. apply list_fmap_ext. intros i c _. simpl.
  by case_bool_decide.
Qed.

Lemma missing_columns_names (n : nat) (cols new_cols : list (string * loc)) σ σ' :
  mapM (missing_column n) cols σ = Ok (new_cols, σ') → new_cols.*1 = cols.*1.
Proof.
  revert σ new_cols. induction cols as [| c cols IH]; intros σ new_cols; simpl.
  - by intros [-> _]%ret_Ok.
  - intros (c' & σ1 & Hc & (k & σ2 & Hk & [-> ->]%ret_Ok)%bind_Ok)%bind_Ok.
    unfold missing_column in Hc.
    apply bind_Ok in Hc as (b & σ3 & _ & [-> _]%ret_Ok). simpl.
    f_equal. by eapply IH.
Qed.

Lemma setitem_names df (name : string) (value : Series) σ (u : unit) σ' index cols :
  setitem df name value σ = Ok (u, σ') → σ !! df = Some (Frame index cols) →
  ∃ index' cols', σ' !! df = Some (Frame index' cols') ∧ cols'.*1 = add_name cols.*1 name.
Proof.
  unfold setitem.
  intros ([index0 cols0] & σ0 & [-> Hframe]%read_frame_Ok
          & (values & σ0' & [-> Hvalues]%read_block_Ok
             & ([index1 cols1] & σ1 & Hcols
                & (aligned & σ2 & ->%aligned_Ok
                   & (block & σ3 & Halloc & Hstore)%bind_Ok)%bind_Ok)%bind_Ok)%bind_Ok)%bind_Ok
    Hdf.
  simpl in *. rewrite Hframe in Hdf. injection Hdf as -> ->.
  injection Hstore as _ <-.
  exists index1, (set_column name block cols1). split; [apply lookup_insert_eq |].
  rewrite set_column_names. f_equal. clear Halloc.
  destruct (bool_decide (index = [])).
  - apply bind_Ok in Hcols as (new_cols & σ4 & HmapM & [[= _ ->] _]%ret_Ok).
    by eapply missing_columns_names.
  - by apply ret_Ok in Hcols as [[= _ ->] _].
Qed.

Lemma for_each_Ok_prefix {A : Type} (I : list A → gmap loc (object V) → Prop)
    (xs pre : list A) (body : A → M V unit) σ (u : unit) σ' :
  (∀ pre x σ1 u1 σ2, I pre σ1 → body x σ1 = Ok (u1, σ2) → I (pre ++ [x]) σ2) →
  I pre σ → for_each xs body σ = Ok (u, σ') → I (pre ++ xs) σ'.
Proof.
  intros Hbody. revert pre σ.
  induction xs as [| x xs IH]; intros pre σ HI; simpl.
  - intros [_ ->]%ret_Ok. by rewrite app_nil_r.
  - intros (u1 & σ1 & Hx & Hxs)%bind_Ok.
    replace (pre ++ x :: xs) with ((pre ++ [x]) ++ xs) by (by rewrite <- app_assoc).
    eapply IH; [| exact Hxs]. by eapply Hbody.
Qed.

Lemma for_each_Ok_each {A : Type} (I : gmap loc (object V) → Prop)
    (xs : list A) (body : A → M V unit) σ (u : unit) σ' :
  (∀ x σ1 u1 σ2, I σ1 → body x σ1 = Ok (u1, σ2) → I σ2) →
  I σ → for_each xs body σ = Ok (u, σ') →
  ∀ x, x ∈ xs → ∃ σ1 u1 σ2, I σ1 ∧ body x σ1 = Ok (u1, σ2).
Proof.
  intros Hbody. revert σ.
  induction xs as [| x xs IH]; intros σ HI; simpl; [by intros _ ? ?%elem_of_nil |].
  intros (u1 & σ1 & Hx & Hxs)%bind_Ok y [-> | Hy]%elem_of_cons.
  - by exists σ, u1, σ1.
  - eapply IH; [| exact Hxs | exact Hy]. by eapply Hbody.
Qed.

End object_more.

Lemma foldl_add_name_NoDup (names new : list string) :
  NoDup (names ++ new) → foldl add_name names new = names ++ new.
Proof.
  revert names. induction new as [| name new IH]; intros names Hnd; simpl.
  - by rewrite app_nil_r.
  - assert (add_name names name = names ++ [name]) as ->.
    { unfold add_name. rewrite bool_decide_eq_false_2; [done |].
      apply NoDup_app in Hnd as (_ & Hnot & _). intros Hin.
      apply (Hnot name Hin). by left. }
    rewrite IH; rewrite <- app_assoc; done.
Qed.

Section map_to_internal_types_more.
Context {V Feature : Type}.
Variable features : list Feature.
Variable str : Feature → string.
Variable tus_variable_name : Feature → variable_name.
Variable tus_value_to_uo_value : Feature → pandas → Series → M V Series.
Implicit Types (σ : gmap loc (object V)) (seed individual_data : loc).

(** The method of the features changes no object of the store. *)
Hypothesis mapping_pure : ∀ feature x age σ s σ',
  tus_value_to_uo_value feature x age σ = Ok (s, σ') → σ ⊆ σ'.

(** X18: the row transformer returns only for an input that has the age
    column and, for every feature, the columns of the feature. *)
Theorem map_to_internal_types_requires individual_data σ seed σ' :
  _map_to_internal_types features str tus_variable_name tus_value_to_uo_value
    individual_data σ = Ok (seed, σ') →
  ∃ index cols,
    σ !! individual_data = Some (Frame index cols)
    ∧ "IAGE" ∈ cols.*1
    ∧ ∀ feature, feature ∈ features →
        variable_names (tus_variable_name feature) ⊆ cols.*1.
Proof.
  intros (age & index & cols & σ1 & u & Hage & Hdata & Hseed & -> & _ & Hloop)
    %map_to_internal_types_unfold.
  exists index, cols. split; [done |]. split.
  - apply column_Ok in Hage as (_ & cols' & Hdata' & Hcol).
    rewrite Hdata in Hdata'. injection Hdata' as _ <-.
    by apply (list_elem_of_fmap_2 fst _ ("IAGE", series_values age)).
  - intros feature Hfeature.
    assert (constructing σ seed (<[seed := Frame index []]> σ)) as Hstart.
    { split; [by apply insert_subseteq, not_elem_of_dom |].
      exists index, []. split; [apply lookup_insert_eq |]. by intros c ?%elem_of_nil. }
    destruct (for_each_Ok_each (constructing σ seed) features _ _ _ _
                (λ x σa ua σb, map_feature_constructing str tus_variable_name
                   tus_value_to_uo_value mapping_pure σ individual_data age seed x σa ua σb
                   Hseed)
                Hstart Hloop feature Hfeature)
      as (σa & ua & σb & [Hsub _] & Hbody).
    apply bind_Ok in Hbody as (x & σc & Hget & _).
    eapply getitem_names; [exact Hget |]. by eapply lookup_weaken.
Qed.

(** X19: for an input table without the age column the row transformer
    raises an attribute error, whatever its features. *)
Theorem map_to_internal_types_no_age individual_data σ index cols :
  σ !! individual_data = Some (Frame index cols) → "IAGE" ∉ cols.*1 →
  _map_to_internal_types features str tus_variable_name tus_value_to_uo_value
    individual_data σ = Raise AttributeError.
Proof.
  intros Hdata Hage%find_column_None.
  unfold _map_to_internal_types, mbind, M_bind, column, mbind, M_bind, read_frame.
  rewrite Hdata. simpl. by rewrite Hage.
Qed.

(** X20: the table that the row transformer returns has one column per
    feature name, in the order in which the names first occur; for
    features with distinct names these are the names of the features in
    their order. *)
Theorem map_to_internal_types_columns individual_data σ seed σ' :
  _map_to_internal_types features str tus_variable_name tus_value_to_uo_value
    individual_data σ = Ok (seed, σ') →
  ∃ index cols,
    σ' !! seed = Some (Frame index cols)
    ∧ cols.*1 = foldl add_name [] (str <$> features)
    ∧ (NoDup (str <$> features) → cols.*1 = str <$> features).
Proof.
  intros (age & index & cols & σ1 & u & _ & _ & Hseed & -> & _ & Hloop)
    %map_to_internal_types_unfold.
  assert (named str seed ([] ++ features) σ') as (index' & cols' & Hframe & Hnames).
  { eapply (for_each_Ok_prefix (named str seed)); [| | exact Hloop].
    - intros pre feature σa ua σb (indexa & colsa & Hframea & Hnamesa)
        (x & σc & (Hsubc & _)%getitem_Ok
         & (s & σd & Hsubd%mapping_pure & Hset)%bind_Ok)%bind_Ok.
      eapply setitem_names in Hset as (indexb & colsb & Hframeb & Hnamesb);
        [| eapply lookup_weaken; [exact Hframea | by etrans]].
      exists indexb, colsb. split; [done |].
      by rewrite Hnamesb, Hnamesa, fmap_app, foldl_app.
    - exists index, []. split; [apply lookup_insert_eq | done]. }
  exists index', cols'. split; [done |]. split; [done |].
  intros Hnd. rewrite Hnames. by apply (foldl_add_name_NoDup []).
Qed.

End map_to_internal_types_more.

Lemma map_to_internal_types_requires_witness :
  ∃ index cols,
    individual_data_example !! 0 = Some (Frame index cols)
    ∧ "IAGE" ∈ cols.*1
    ∧ ∀ feature : unit, feature ∈ [()] → variable_names (Column "PROVCARE") ⊆ cols.*1.
Proof.
  apply (map_to_internal_types_requires [()] (λ _, "carer") (λ _, Column "PROVCARE")
           carer_to_uo_value carer_to_uo_value_pure 0 individual_data_example 3 seed_example).
  vm_compute. reflexivity.
Defined.

Lemma map_to_internal_types_no_age_witness :
  _map_to_internal_types [()] (λ _, "carer") (λ _, Column "PROVCARE") carer_to_uo_value 0
    ({[ 0 := Frame [(1, 1, 1)%Z] [("PROVCARE", 1)];
        1 := Block [Val (inl individual.PROVCARE.NO)] ]} : gmap loc (object carer_cell))
  = Raise AttributeError.
Proof.
  apply (map_to_internal_types_no_age [()] (λ _, "carer") (λ _, Column "PROVCARE")
           carer_to_uo_value 0 _ [(1, 1, 1)%Z] [("PROVCARE", 1)]).
  - vm_compute. reflexivity.
  - simpl. intros Hin. apply list_elem_of_singleton in Hin. discriminate Hin.
Defined.

Lemma map_to_internal_types_columns_witness :
  ∃ index cols,
    seed_example !! 3 = Some (Frame index cols)
    ∧ cols.*1 = foldl add_name [] ((λ _ : unit, "carer") <$> [()])
    ∧ (NoDup ((λ _ : unit, "carer") <$> [()]) → cols.*1 = (λ _ : unit, "carer") <$> [()]).
Proof.
  apply (map_to_internal_types_columns [()] (λ _, "carer") (λ _, Column "PROVCARE")
           carer_to_uo_value carer_to_uo_value_pure 0 individual_data_example 3 seed_example).
  vm_compute. reflexivity.
Defined.
